(** * Climathia back end: station aggregation and chat intent resolution

    A shallow embedding of the Python services of the back end
    (data_service.py, stations_service.py, stations_controller.py,
    chatbot_service.py, gemini_service.py) and the properties of the
    specification checked against them.

    Conventions of the embedding
    - Python [str] is [string]; the file is UTF-8, so an accented letter is
      its two bytes.  Substring tests on bytes and on code points agree.
    - Python [float] is [Q]; NaN / None / NaT is [None] of an [option].
    - A pandas timestamp is a [Z]: nanoseconds since the epoch, UTC.
    - [raise] is the [Raise] constructor of [result]; [try/except] is a
      [match] on it.
    - A text template (an f-string) is a constructor carrying the values
      interpolated into it. *)

From Stdlib Require Import ZArith QArith Qround Qminmax List String Ascii Bool Lia.
From Stdlib Require Import Sorted.
Import ListNotations.

Local Open Scope string_scope.
Local Open Scope Z_scope.

(* ================================================================== *)
(** * Python exceptions as results *)
(* ================================================================== *)

Inductive exn : Type :=
| ValueError (msg : string)
| KeyError (key : string)
| TypeError
| AttributeError
| IndexError
| ValidationError
| OtherError (name : string).

Inductive result (A : Type) : Type :=
| Ok (a : A)
| Raise (e : exn).
Arguments Ok {A} a.
Arguments Raise {A} e.

Definition bind {A B : Type} (r : result A) (k : A -> result B) : result B :=
  match r with
  | Ok a => k a
  | Raise e => Raise e
  end.

Notation "'let*' x ':=' r 'in' k" := (bind r (fun x => k))
  (at level 10, x pattern, r at level 100, k at level 200).

Definition is_ValueError (e : exn) : bool :=
  match e with ValueError _ => true | _ => false end.

(* ================================================================== *)
(** * Python string operations *)
(* ================================================================== *)

Module PyStr.

Definition chars (s : string) : list ascii := list_ascii_of_string s.
Definition of_chars (l : list ascii) : string := string_of_list_ascii l.

Definition code (c : ascii) : N := N_of_ascii c.

(** [str.isspace] on the ASCII range: TAB..CR, FS..US and the space. *)
Definition is_space (c : ascii) : bool :=
  let n := code c in
  (((9 <=? n) && (n <=? 13)) || ((28 <=? n) && (n <=? 32)))%N.

(** The ASCII digits; the class [\d] of Python also has the decimal
    digits of other scripts, which are left out. *)
Definition is_digit (c : ascii) : bool :=
  let n := code c in ((48 <=? n) && (n <=? 57))%N.

Definition digit_val (c : ascii) : Z := Z.of_N (code c) - 48.

Fixpoint lstrip (s : string) : string :=
  match s with
  | String c s' => if is_space c then lstrip s' else s
  | EmptyString => EmptyString
  end.

Fixpoint rstrip (s : string) : string :=
  match s with
  | EmptyString => EmptyString
  | String c s' =>
      match rstrip s' with
      | EmptyString => if is_space c then EmptyString else String c EmptyString
      | t => String c t
      end
  end.

Definition strip (s : string) : string := rstrip (lstrip s).

(** [str.lower]: A..Z, and the upper-case letters of Latin-1
    (U+00C0..U+00DE but the multiplication sign), which UTF-8 writes
    as the byte C3 followed by 80..9E.  Other code points are kept. *)
Definition lower_ascii (c : ascii) : ascii :=
  let n := code c in
  if ((65 <=? n) && (n <=? 90))%N then ascii_of_N (n + 32) else c.

Definition lower_latin1 (c : ascii) : ascii :=
  let n := code c in
  if ((128 <=? n) && (n <=? 158) && negb (n =? 151))%N
  then ascii_of_N (n + 32) else c.

Fixpoint lower_from (after_c3 : bool) (s : string) : string :=
  match s with
  | EmptyString => EmptyString
  | String c s' =>
      if after_c3 then String (lower_latin1 c) (lower_from false s')
      else String (lower_ascii c) (lower_from (code c =? 195)%N s')
  end.

Definition lower (s : string) : string := lower_from false s.

Definition startswith (s pre : string) : bool := prefix pre s.

Definition endswith (s suf : string) : bool :=
  prefix (of_chars (rev (chars suf))) (of_chars (rev (chars s))).

(** [sub in s] *)
Fixpoint contains (sub s : string) : bool :=
  prefix sub s ||
  match s with
  | EmptyString => false
  | String _ s' => contains sub s'
  end.

(** [any(w in s for w in words)] *)
Definition contains_any (words : list string) (s : string) : bool :=
  existsb (fun w => contains w s) words.

(** [s.replace(old, new)] for a non-empty [old]: the occurrences are
    taken from the left and do not overlap. *)
Fixpoint replace_from (old new : string) (skip : nat) (s : string) : string :=
  match s with
  | EmptyString => EmptyString
  | String c s' =>
      match skip with
      | S k => replace_from old new k s'
      | O =>
          if prefix old s
          then new ++ replace_from old new (String.length old - 1) s'
          else String c (replace_from old new 0 s')
      end
  end.

Definition replace (s old new : string) : string := replace_from old new 0 s.

(** [s.split(sep)] for a separator of one character. *)
Fixpoint split (sep : N) (s : string) : list string :=
  match s with
  | EmptyString => [EmptyString]
  | String c s' =>
      if (code c =? sep)%N then EmptyString :: split sep s'
      else match split sep s' with
           | l :: ls => String c l :: ls
           | [] => [String c EmptyString]
           end
  end.

(** The lines of [s]: the dot of a regular expression stops at "\n". *)
Definition lines (s : string) : list string := split 10 s.

(** [len(s.split())]: the number of maximal runs of non-space characters. *)
Fixpoint count_words (in_word : bool) (s : string) : nat :=
  match s with
  | EmptyString => O
  | String c s' =>
      if is_space c then count_words false s'
      else if in_word then count_words true s'
      else S (count_words true s')
  end.

Definition all_digits (s : string) : bool := forallb is_digit (chars s).

(** The value of a string of ASCII digits. *)
Definition int_of_digits (s : string) : Z :=
  fold_left (fun acc c => 10 * acc + digit_val c) (chars s) 0.

(** [int(s)] for a string of ASCII digits: CPython converts at most
    [sys.get_int_max_str_digits()] digits, 4300 by default, leading
    zeros counted, and raises ValueError above that. *)
Definition int_max_str_digits : Z := 4300.

Definition int (s : string) : result Z :=
  if int_max_str_digits <? Z.of_nat (String.length s)
  then Raise (ValueError "Exceeds the limit (4300 digits) for integer string conversion")
  else Ok (int_of_digits s).

(** The remainder of [s] after the first occurrence of [sub]. *)
Fixpoint after_first (sub s : string) : option string :=
  if prefix sub s then Some (substring (String.length sub) (String.length s - String.length sub) s)
  else match s with
       | EmptyString => None
       | String _ s' => after_first sub s'
       end.

Fixpoint last_digit (s : string) : option ascii :=
  match s with
  | EmptyString => None
  | String c s' =>
      match last_digit s' with
      | Some d => Some d
      | None => if is_digit c then Some c else None
      end
  end.

End PyStr.

(* ================================================================== *)
(** * Python lists and dicts *)
(* ================================================================== *)

Module Py.

Section Seq.
Context {A : Type}.

(** [l[i]] with Python's negative indices. *)
Definition index (l : list A) (i : Z) : result A :=
  let n := Z.of_nat (List.length l) in
  let j := if i <? 0 then i + n else i in
  if (0 <=? j) && (j <? n) then
    match nth_error l (Z.to_nat j) with
    | Some x => Ok x
    | None => Raise IndexError
    end
  else Raise IndexError.

(** A stable sort: [sorted(l)], [DataFrame.sort_values]. *)
Variable le : A -> A -> bool.

Fixpoint insert (x : A) (l : list A) : list A :=
  match l with
  | [] => [x]
  | y :: t => if le x y then x :: l else y :: insert x t
  end.

Definition sort (l : list A) : list A := fold_right insert [] l.

Fixpoint first_some {B : Type} (f : A -> option B) (l : list A) : option B :=
  match l with
  | [] => None
  | x :: t => match f x with Some b => Some b | None => first_some f t end
  end.
End Seq.

(** [Series.unique()]: the distinct values in order of first appearance. *)
Fixpoint unique_from {A : Type} (eqb : A -> A -> bool) (seen l : list A) : list A :=
  match l with
  | [] => []
  | x :: t =>
      if existsb (eqb x) seen then unique_from eqb seen t
      else x :: unique_from eqb (x :: seen) t
  end.

Definition unique (l : list Z) : list Z := unique_from Z.eqb [] l.
Definition unique_str (l : list string) : list string := unique_from String.eqb [] l.

(** [df.sample(n)] for a population of size [length l >= n]: [n] draws
    without replacement; the [k]-th draw takes the element at the
    position the generator gives. *)
Fixpoint remove_nth {A : Type} (i : nat) (l : list A) : list A :=
  match l, i with
  | [], _ => []
  | _ :: t, O => t
  | x :: t, S j => x :: remove_nth j t
  end.

Fixpoint draw {A : Type} (rng : nat -> nat) (k n : nat) (l : list A) : list A :=
  match n with
  | O => []
  | S n' =>
      let i := Nat.modulo (rng k) (List.length l) in
      match nth_error l i with
      | Some x => x :: draw rng (S k) n' (remove_nth i l)
      | None => []
      end
  end.

(** A [dict] with string keys, in insertion order. *)
Section Dict.
Context {V : Type}.
Definition dict := list (string * V).

Fixpoint get (k : string) (d : dict) : option V :=
  match d with
  | [] => None
  | (k', v) :: t => if String.eqb k k' then Some v else get k t
  end.

(** [d[k] = v] *)
Fixpoint set (k : string) (v : V) (d : dict) : dict :=
  match d with
  | [] => [(k, v)]
  | (k', v') :: t => if String.eqb k k' then (k', v) :: t else (k', v') :: set k v t
  end.
End Dict.
Arguments dict V : clear implicits.

End Py.

(* ================================================================== *)
(** * The tabular store (data_service.py) *)
(* ================================================================== *)

(** A value of a cell as [pandas.read_csv] hands it over. *)
Inductive cell : Type :=
| CStr (s : string)
| CBool (b : bool)
| CNum (q : Q)
| CNaN
| CNone.

Module DataService.

(** The frame under load: each column with its values. *)
Definition RawFrame := list (string * list cell).

(** [df.replace('NA', np.nan)] *)
Definition replace_NA (c : cell) : cell :=
  match c with
  | CStr s => if String.eqb s "NA" then CNaN else c
  | _ => c
  end.

(** [Series.map({'TRUE': True, 'FALSE': False})]: a value that is not a
    key of the dict becomes NaN.  The keys are strings, so a cell that
    is already a [bool] is not a key either. *)
Definition map_TRUE_FALSE (c : cell) : cell :=
  match c with
  | CStr s =>
      if String.eqb s "TRUE" then CBool true
      else if String.eqb s "FALSE" then CBool false
      else CNaN
  | _ => CNaN
  end.

Definition bool_columns (df : RawFrame) : list string :=
  filter (fun col => PyStr.endswith col "_imputed") (map fst df).

Definition map_column (f : cell -> cell) (col : string) (df : RawFrame) : RawFrame :=
  map (fun cv => if String.eqb (fst cv) col then (fst cv, map f (snd cv)) else cv) df.

Section Load.
(** [pd.to_datetime] on the timestamp column is pandas' own parser. *)
Variable to_datetime : list cell -> result (list cell).

Definition convert_timestamp (df : RawFrame) : result RawFrame :=
  match Py.get "timestamp" df with
  | None => Raise (KeyError "timestamp")
  | Some ts =>
      let* ts' := to_datetime ts in
      Ok (Py.set "timestamp" ts' df)
  end.

(** [_load_data], from the frame [read_csv] returned. *)
Definition _load_data (csv : RawFrame) : result RawFrame :=
  let* df := convert_timestamp csv in
  let df := map (fun cv => (fst cv, map replace_NA (snd cv))) df in
  Ok (fold_left (fun d col => map_column map_TRUE_FALSE col d) (bool_columns df) df).
End Load.

End DataService.

(** The [mode='before'] validator of the [*_imputed] fields of the
    [StationData] model (station_data.py). *)
Module StationData.

Definition validate_imputed_fields (v : cell) : bool :=
  match v with
  | CNone => false
  | CNaN => false
  | CStr s =>
      let l := PyStr.lower s in
      if existsb (String.eqb l) ["true"; "1"; "yes"; "y"] then true
      else false
  | CBool b => b
  | CNum q => negb (Qeq_bool q 0)
  end.

End StationData.

(* ================================================================== *)
(** * Dates: [datetime.strptime(date, "%Y-%m-%d")] and UTC instants *)
(* ================================================================== *)

Module Datetime.

Record date : Type := { year : Z; month : Z; day : Z }.

Definition digit (c : ascii) : option Z :=
  if PyStr.is_digit c then Some (PyStr.digit_val c) else None.

Definition digit_in (lo hi : Z) (c : ascii) : option Z :=
  match digit c with
  | Some v => if (lo <=? v) && (v <=? hi) then Some v else None
  | None => None
  end.

Definition is_dash (c : ascii) : bool := (PyStr.code c =? 45)%N.
Definition is_blank (c : ascii) : bool := (PyStr.code c =? 32)%N.

(** The directive [%Y] is the regular expression [\d\d\d\d]. *)
Definition parse_Y (l : list ascii) : option (Z * list ascii) :=
  match l with
  | a :: b :: c :: d :: rest =>
      match digit a, digit b, digit c, digit d with
      | Some a, Some b, Some c, Some d => Some (1000 * a + 100 * b + 10 * c + d, rest)
      | _, _, _, _ => None
      end
  | _ => None
  end.

(** [%m] is [1[0-2]|0[1-9]|[1-9]]; the alternatives are tried in this
    order and one is kept only if the rest of the pattern (the dash)
    matches after it. *)
Definition parse_m_dash (l : list ascii) : option (Z * list ascii) :=
  let two :=
    match l with
    | a :: b :: c :: rest =>
        if is_dash c then
          match digit_in 1 1 a, digit_in 0 2 b with
          | Some _, Some v => Some (10 + v, rest)
          | _, _ =>
              match digit_in 0 0 a, digit_in 1 9 b with
              | Some _, Some v => Some (v, rest)
              | _, _ => None
              end
          end
        else None
    | _ => None
    end in
  match two with
  | Some r => Some r
  | None =>
      match l with
      | a :: c :: rest =>
          if is_dash c then
            match digit_in 1 9 a with Some v => Some (v, rest) | None => None end
          else None
      | _ => None
      end
  end.

(** [%d] is [3[0-1]|[1-2]\d|0[1-9]|[1-9]| [1-9]]; nothing follows it in
    the pattern, so the first alternative that matches is the one kept. *)
Definition parse_d (l : list ascii) : option (Z * list ascii) :=
  let one :=
    match l with
    | a :: rest => match digit_in 1 9 a with Some v => Some (v, rest) | None => None end
    | [] => None
    end in
  match l with
  | a :: b :: rest =>
      match digit_in 3 3 a, digit_in 0 1 b with
      | Some _, Some v => Some (30 + v, rest)
      | _, _ =>
          match digit_in 1 2 a, digit b with
          | Some u, Some v => Some (10 * u + v, rest)
          | _, _ =>
              match digit_in 0 0 a, digit_in 1 9 b with
              | Some _, Some v => Some (v, rest)
              | _, _ =>
                  match one with
                  | Some r => Some r
                  | None =>
                      if is_blank a
                      then match digit_in 1 9 b with Some v => Some (v, rest) | None => None end
                      else None
                  end
              end
          end
      end
  | _ => one
  end.

Definition is_leap (y : Z) : bool :=
  ((y mod 4 =? 0) && negb (y mod 100 =? 0)) || (y mod 400 =? 0).

Definition days_in_month (y m : Z) : Z :=
  if m =? 2 then (if is_leap y then 29 else 28)
  else if (m =? 4) || (m =? 6) || (m =? 9) || (m =? 11) then 30
  else 31.

(** [datetime.strptime(s, "%Y-%m-%d")]: the pattern must match at the
    start of [s], nothing may remain after it, and the fields must be a
    date of the calendar (year 1 at least). *)
Definition strptime (s : string) : result date :=
  match parse_Y (PyStr.chars s) with
  | None => Raise (ValueError "time data does not match format")
  | Some (y, rest) =>
      match rest with
      | dash :: rest =>
          if is_dash dash then
            match parse_m_dash rest with
            | None => Raise (ValueError "time data does not match format")
            | Some (m, rest) =>
                match parse_d rest with
                | None => Raise (ValueError "time data does not match format")
                | Some (d, []) =>
                    if (1 <=? y) && (d <=? days_in_month y m)
                    then Ok {| year := y; month := m; day := d |}
                    else Raise (ValueError "date out of range")
                | Some (_, _ :: _) => Raise (ValueError "unconverted data remains")
                end
            end
          else Raise (ValueError "time data does not match format")
      | [] => Raise (ValueError "time data does not match format")
      end
  end.

(** Days from 1970-01-01 to a date of the proleptic Gregorian calendar. *)
Definition days_from_civil (dt : date) : Z :=
  let y := if month dt <=? 2 then year dt - 1 else year dt in
  let era := y / 400 in
  let yoe := y - era * 400 in
  let mp := if month dt >? 2 then month dt - 3 else month dt + 9 in
  let doy := (153 * mp + 2) / 5 + day dt - 1 in
  let doe := yoe * 365 + yoe / 4 - yoe / 100 + doy in
  era * 146097 + doe - 719468.

Definition ns_per_us : Z := 1000.
Definition ns_per_day : Z := 86400 * 1000000000.

(** [target_date.replace(hour=0, minute=0, second=0, microsecond=0, tzinfo=utc)] *)
Definition start_of_day (dt : date) : Z := days_from_civil dt * ns_per_day.

(** [target_date.replace(hour=23, minute=59, second=59, microsecond=999999, tzinfo=utc)] *)
Definition end_of_day (dt : date) : Z :=
  start_of_day dt + (((23 * 60 + 59) * 60 + 59) * 1000000 + 999999) * ns_per_us.

(** An instant falls inside the UTC calendar day [dt]. *)
Definition in_day (dt : date) (t : Z) : Prop :=
  start_of_day dt <= t < start_of_day dt + ns_per_day.

End Datetime.

(* ================================================================== *)
(** * The loaded frame *)
(* ================================================================== *)

(** One reading.  The measurements are the numeric columns of the CSV
    (an imputation flag counts as 0 or 1); a measurement that is not in
    [values] is NaN. *)
Record Row : Type := {
  timestamp : Z;
  station_id : Z;
  station_name : option string;
  tipo_equipo : option string;
  lat : option Q;
  lon : option Q;
  values : Py.dict Q
}.

Record DataFrame : Type := {
  measure_columns : list string;
  rows : list Row
}.

(** A cell that is not null is a number or something else (text, a
    timestamp). *)
Inductive colval : Type :=
| Num (q : Q)
| NonNum.

Definition base_columns : list string :=
  ["timestamp"; "station_id"; "station_name"; "tipo_equipo"; "lat"; "lon"].

(** [col in df.columns] *)
Definition has_column (df : DataFrame) (col : string) : bool :=
  existsb (String.eqb col) (base_columns ++ measure_columns df).

(** The measurement [r[col]], NaN when the frame has no such column. *)
Definition measure (df : DataFrame) (col : string) (r : Row) : option Q :=
  if existsb (String.eqb col) (measure_columns df) then Py.get col (values r) else None.

(** [r[col]] for any column of the frame. *)
Definition at_column (df : DataFrame) (col : string) (r : Row) : option colval :=
  if String.eqb col "timestamp" then Some NonNum
  else if String.eqb col "station_id" then Some (Num (inject_Z (station_id r)))
  else if String.eqb col "station_name" then option_map (fun _ => NonNum) (station_name r)
  else if String.eqb col "tipo_equipo" then option_map (fun _ => NonNum) (tipo_equipo r)
  else if String.eqb col "lat" then option_map Num (lat r)
  else if String.eqb col "lon" then option_map Num (lon r)
  else option_map Num (measure df col r).

(** [series.dropna()] *)
Fixpoint dropna {A : Type} (l : list (option A)) : list A :=
  match l with
  | [] => []
  | Some x :: t => x :: dropna t
  | None :: t => dropna t
  end.

(** The numbers of a column without nulls; text has no mean. *)
Fixpoint numbers (l : list colval) : result (list Q) :=
  match l with
  | [] => Ok []
  | Num q :: t => let* qs := numbers t in Ok (q :: qs)
  | NonNum :: t => Raise TypeError
  end.

(** [df['station_id'] == sid] *)
Definition is_station (sid : Z) (r : Row) : bool := station_id r =? sid.

Definition with_station (sid : Z) (l : list Row) : list Row :=
  filter (is_station sid) l.

(** [df['station_id'].unique()] *)
Definition station_ids (l : list Row) : list Z := Py.unique (map station_id l).

(* ------------------------------------------------------------------ *)
(** ** Statistics on floats, read as rationals *)

Module Stats.
Local Open Scope Q_scope.

Definition sum (l : list Q) : Q := fold_left Qplus l 0.

(** [series.mean()] of a series that is not empty. *)
Definition mean (l : list Q) : Q := sum l / inject_Z (Z.of_nat (List.length l)).

(** [series.min()] and [series.max()] of a series that is not empty. *)
Definition minimum (l : list Q) : Q :=
  match l with [] => 0 | x :: t => fold_left Qmin t x end.
Definition maximum (l : list Q) : Q :=
  match l with [] => 0 | x :: t => fold_left Qmax t x end.

(** [round(x, 2)]: to the nearest hundredth, a tie to the even one. *)
Definition round2 (x : Q) : Q :=
  let y := x * 100 in
  let f := Qfloor y in
  let n := match (y - inject_Z f) ?= (1 # 2) with
           | Lt => f
           | Gt => (f + 1)%Z
           | Eq => if Z.even f then f else (f + 1)%Z
           end in
  inject_Z n / 100.

End Stats.

(* ================================================================== *)
(** * The station aggregator (stations_service.py) *)
(* ================================================================== *)

Module StationsService.

(** The statistics of one variable: the keys "average", "count", "min"
    and "max" of the dict. *)
Record VarStats : Type := {
  average : Q;
  count : nat;
  vmin : Q;
  vmax : Q
}.

(** The dict under "data", in the names the map component reads; its
    "ts" is always None. *)
Record Formatted : Type := {
  f_temp : option Q;
  f_hum : option Q;
  f_pm_1p0 : option Q;
  f_pm_2p5 : option Q;
  f_pm_10p0 : option Q;
  f_ica : option Q;
  f_precipitacion : option Q
}.

Record StationResult : Type := {
  sr_station_id : Z;
  sr_station_name : option string;
  sr_lat : option Q;
  sr_lon : option Q;
  sr_tipo_equipo : option string;
  sr_record_count : nat;
  raw_averages : Py.dict (option VarStats);
  data : Formatted
}.

(** The early return for a day without readings has no "variables" key. *)
Record AveragesResult : Type := {
  date : string;
  total_stations : nat;
  stations_with_data : nat;
  variables : option (list string);
  stations : list StationResult
}.

Definition default_variables : list string :=
  ["ica"; "humedad"; "pm_1"; "pm_2_5"; "pm_10"; "temp"; "precipitacion"].

Definition is_empty {A : Type} (l : list A) : bool :=
  match l with [] => true | _ :: _ => false end.

(** The body of the loop over the variables: the value stored under
    [averages[variable]]. *)
Definition variable_stats (df : DataFrame) (station_data : list Row) (variable : string)
  : result (option VarStats) :=
  if has_column df variable then
    let valid_values := dropna (map (at_column df variable) station_data) in
    if negb (is_empty valid_values) then
      let* nums := numbers valid_values in
      let avg_value := Stats.mean nums in
      Ok (Some {| average := Stats.round2 avg_value;
                  count := List.length valid_values;
                  vmin := Stats.round2 (Stats.minimum nums);
                  vmax := Stats.round2 (Stats.maximum nums) |})
    else Ok None
  else Ok None.

Fixpoint averages_loop (df : DataFrame) (station_data : list Row)
    (variables : list string) (averages : Py.dict (option VarStats))
  : result (Py.dict (option VarStats)) :=
  match variables with
  | [] => Ok averages
  | variable :: rest =>
      let* st := variable_stats df station_data variable in
      averages_loop df station_data rest (Py.set variable st averages)
  end.

Definition _get_average_value (avg_dict : option (option VarStats)) : option Q :=
  match avg_dict with
  | Some (Some st) => Some (Stats.round2 (average st))
  | _ => None
  end.

Definition station_result (df : DataFrame) (variables : list string)
    (station_id : Z) (station_data : list Row) (station_info : Row)
  : result StationResult :=
  let* averages := averages_loop df station_data variables [] in
  let formatted_averages :=
    {| f_temp := _get_average_value (Py.get "temp" averages);
       f_hum := _get_average_value (Py.get "humedad" averages);
       f_pm_1p0 := _get_average_value (Py.get "pm_1" averages);
       f_pm_2p5 := _get_average_value (Py.get "pm_2_5" averages);
       f_pm_10p0 := _get_average_value (Py.get "pm_10" averages);
       f_ica := _get_average_value (Py.get "ica" averages);
       f_precipitacion := _get_average_value (Py.get "precipitacion" averages) |} in
  Ok {| sr_station_id := station_id;
        sr_station_name := station_name station_info;
        sr_lat := lat station_info;
        sr_lon := lon station_info;
        sr_tipo_equipo := tipo_equipo station_info;
        sr_record_count := List.length station_data;
        raw_averages := averages;
        data := formatted_averages |}.

Fixpoint stations_loop (df : DataFrame) (variables : list string)
    (daily_data : list Row) (unique_stations : list Z) : result (list StationResult) :=
  match unique_stations with
  | [] => Ok []
  | station_id :: rest =>
      let station_data := with_station station_id daily_data in
      match station_data with
      | [] => stations_loop df variables daily_data rest
      | station_info :: _ =>
          let* station_result := station_result df variables station_id station_data station_info in
          let* stations_data := stations_loop df variables daily_data rest in
          Ok (station_result :: stations_data)
      end
  end.

Definition in_range (start_date end_date : Z) (r : Row) : bool :=
  (start_date <=? timestamp r) && (timestamp r <=? end_date).

Definition get_all_stations_averages (df : DataFrame) (date : string)
    (variables : option (list string)) : result AveragesResult :=
  let variables := match variables with None => default_variables | Some v => v end in
  let* target_date := Datetime.strptime date in
  let start_date := Datetime.start_of_day target_date in
  let end_date := Datetime.end_of_day target_date in
  let daily_data := filter (in_range start_date end_date) (rows df) in
  if is_empty daily_data then
    Ok {| date := date;
          total_stations := 0;
          stations_with_data := 0;
          variables := None;
          stations := [] |}
  else
    let unique_stations := station_ids daily_data in
    let* stations_data := stations_loop df variables daily_data unique_stations in
    Ok {| date := date;
          total_stations := List.length unique_stations;
          stations_with_data := List.length stations_data;
          variables := Some variables;
          stations := stations_data |}.

(** The answer of [get_station_averages]; the fields of a station that
    was not found are None, with the message. *)
Record StationAverages : Type := {
  sa_station_id : Z;
  sa_date : string;
  sa_record_count : nat;
  sa_raw_averages : option (Py.dict (option VarStats));
  sa_data : option Formatted;
  sa_message : option string
}.

Definition get_station_averages (df : DataFrame) (station_id : Z) (date : string)
    (variables : option (list string)) : result StationAverages :=
  let* all_averages := get_all_stations_averages df date variables in
  match find (fun station => sr_station_id station =? station_id) (stations all_averages) with
  | Some station =>
      Ok {| sa_station_id := station_id;
            sa_date := date;
            sa_record_count := sr_record_count station;
            sa_raw_averages := Some (raw_averages station);
            sa_data := Some (data station);
            sa_message := None |}
  | None =>
      Ok {| sa_station_id := station_id;
            sa_date := date;
            sa_record_count := 0;
            sa_raw_averages := None;
            sa_data := None;
            sa_message := Some "No hay datos disponibles para esta estación en la fecha especificada" |}
  end.

(* ------------------------------------------------------------------ *)
(** ** The canonical station list *)

(** [df['tipo_equipo'].map(priority_order).fillna(999)] *)
Definition priority (tipo : option string) : Z :=
  match tipo with
  | Some t =>
      if String.eqb t "VUE+AIR" then 1
      else if String.eqb t "PRO" then 2
      else if String.eqb t "AIR" then 3
      else 999
  | None => 999
  end.

(** The order of [sort_values(['station_id', 'priority'])]. *)
Definition by_station_priority (a b : Row) : bool :=
  (station_id a <? station_id b) ||
  ((station_id a =? station_id b) && (priority (tipo_equipo a) <=? priority (tipo_equipo b))).

Record StationEntry : Type := {
  se_station_id : Z;
  se_station_name : option string;
  se_lat : option Q;
  se_lon : option Q;
  se_tipo_equipo : option string
}.

(** [groupby('station_id').first()]: one row for each id, each column
    with the first value of the group that is not null.  The frame is
    sorted by id, so the groups come in the order of the ids. *)
Definition group_first (sorted : list Row) (sid : Z) : StationEntry :=
  let group := with_station sid sorted in
  {| se_station_id := sid;
     se_station_name := Py.first_some station_name group;
     se_lat := Py.first_some lat group;
     se_lon := Py.first_some lon group;
     se_tipo_equipo := Py.first_some tipo_equipo group |}.

Record StationsSummary : Type := {
  ss_total_stations : nat;
  ss_stations : list StationEntry
}.

Definition get_stations_summary (df : DataFrame) : StationsSummary :=
  let df_temp := Py.sort by_station_priority (rows df) in
  let stations_list := map (group_first df_temp) (station_ids df_temp) in
  {| ss_total_stations := List.length stations_list;
     ss_stations := stations_list |}.

(* ------------------------------------------------------------------ *)
(** ** The readings of one station on one day *)

(** [_format_value] *)
Definition _format_value (value : option Q) : option Q := option_map Stats.round2 value.

Record Measurement : Type := {
  m_timestamp : Z;
  m_pm_1 : option Q;
  m_pm_2_5 : option Q;
  m_pm_10 : option Q;
  m_humedad : option Q;
  m_ica : option Q;
  m_temperatura : option Q;
  m_presion : option Q;
  m_vel_viento : option Q;
  m_dir_viento : option Q;
  m_precipitacion : option Q
}.

(** The dict under "data". *)
Record DetailedData : Type := {
  dd_station_id : Z;
  dd_station_name : option (option string);
  dd_date : string;
  dd_total_measurements : option nat;
  dd_measurements : list Measurement
}.

Record DetailedResult : Type := {
  success : bool;
  error : option exn;
  ddata : DetailedData
}.

Definition measurement (df : DataFrame) (row : Row) : Measurement :=
  {| m_timestamp := Z.quot (timestamp row) 1000000;
     m_pm_1 := _format_value (measure df "pm_1" row);
     m_pm_2_5 := _format_value (measure df "pm_2_5" row);
     m_pm_10 := _format_value (measure df "pm_10" row);
     m_humedad := _format_value (measure df "humedad" row);
     m_ica := _format_value (measure df "ica" row);
     m_temperatura := _format_value (measure df "temp" row);
     m_presion := _format_value (measure df "presion" row);
     m_vel_viento := _format_value (measure df "viento_vel" row);
     m_dir_viento := _format_value (measure df "viento_dir" row);
     m_precipitacion := _format_value (measure df "precipitacion" row) |}.

Definition empty_data (station_id : Z) (date : string) : DetailedData :=
  {| dd_station_id := station_id;
     dd_station_name := None;
     dd_date := date;
     dd_total_measurements := None;
     dd_measurements := [] |}.

(** The body of the [try] of [get_station_detailed_data]. *)
Definition detailed_data_body (df : DataFrame) (station_id : Z) (date : string)
  : result DetailedResult :=
  let* target_date := Datetime.strptime date in
  let start_date := Datetime.start_of_day target_date in
  let end_date := Datetime.end_of_day target_date in
  let station_data :=
    filter (fun r => is_station station_id r && in_range start_date end_date r) (rows df) in
  let station_data := Py.sort (fun a b => timestamp a <=? timestamp b) station_data in
  match station_data with
  | [] => Ok {| success := true; error := None; ddata := empty_data station_id date |}
  | station_info :: _ =>
      let measurements := map (measurement df) station_data in
      Ok {| success := true;
            error := None;
            ddata := {| dd_station_id := station_id;
                        dd_station_name := Some (station_name station_info);
                        dd_date := date;
                        dd_total_measurements := Some (List.length measurements);
                        dd_measurements := measurements |} |}
  end.

(** [get_station_detailed_data]: its [except Exception] returns a dict,
    it does not raise again. *)
Definition get_station_detailed_data (df : DataFrame) (station_id : Z) (date : string)
  : result DetailedResult :=
  match detailed_data_body df station_id date with
  | Ok r => Ok r
  | Raise e => Ok {| success := false; error := Some e; ddata := empty_data station_id date |}
  end.

(* ------------------------------------------------------------------ *)
(** ** The stations that are AirLink only *)

(** [df['tipo_equipo'] == label] *)
Definition has_label (label : string) (r : Row) : bool :=
  match tipo_equipo r with
  | Some t => String.eqb t label
  | None => false
  end.

(** [get_airlink_stations_summary]: the rows labelled AIR of the
    stations without any row labelled VUE+AIR, grouped by station; the
    groups of [groupby] come in the order of the ids. *)
Definition get_airlink_stations_summary (df : DataFrame) : StationsSummary :=
  let stations_with_vue := station_ids (filter (has_label "VUE+AIR") (rows df)) in
  let airlink_df :=
    filter (fun r => has_label "AIR" r
                     && negb (existsb (Z.eqb (station_id r)) stations_with_vue))
           (rows df) in
  if is_empty airlink_df then
    {| ss_total_stations := 0; ss_stations := [] |}
  else
    let stations_list :=
      map (group_first airlink_df) (Py.sort Z.leb (station_ids airlink_df)) in
    {| ss_total_stations := List.length stations_list;
       ss_stations := stations_list |}.

End StationsService.

(* ================================================================== *)
(** * The HTTP boundary (stations_controller.py) *)
(* ================================================================== *)

Module StationsController.

(** The [detail] of an [HTTPException]. *)
Inductive detail : Type :=
| FormatoDeFechaInvalido (e : exn)
| ErrorInternoDelServidor (type_name : string)
| ErrorProcesandoDatosDeLaEstacion
| ErrorEnElFormatoDeDatos.

(** What an endpoint hands to FastAPI: a body, sent with status 200, or
    an [HTTPException]. *)
Inductive response (A : Type) : Type :=
| Return (body : A)
| HTTPException (status_code : Z) (d : detail).
Arguments Return {A} body.
Arguments HTTPException {A} status_code d.

(** The status of the answer; a body that is returned is sent with 200
    when FastAPI can encode it. *)
Definition status {A : Type} (r : response A) : Z :=
  match r with
  | Return _ => 200
  | HTTPException code _ => code
  end.

(** [type(e).__name__] *)
Definition type_name (e : exn) : string :=
  match e with
  | ValueError _ => "ValueError"
  | KeyError _ => "KeyError"
  | TypeError => "TypeError"
  | AttributeError => "AttributeError"
  | IndexError => "IndexError"
  | ValidationError => "ValidationError"
  | OtherError name => name
  end.

(** The injected [StationsService]. *)
Record Service : Type := {
  all_stations_averages :
    string -> option (list string) -> result StationsService.AveragesResult;
  station_averages :
    Z -> string -> option (list string) -> result StationsService.StationAverages;
  station_detailed_data :
    Z -> string -> result StationsService.DetailedResult
}.

(** The service over a loaded frame. *)
Definition stations_service (df : DataFrame) : Service :=
  {| all_stations_averages := StationsService.get_all_stations_averages df;
     station_averages := StationsService.get_station_averages df;
     station_detailed_data := StationsService.get_station_detailed_data df |}.

(** [[v.strip() for v in variables.split(',')]] *)
Definition variable_list (variables : string) : list string :=
  map PyStr.strip (PyStr.split 44 variables).

(** GET /stations/averages *)
Definition get_all_stations_averages (svc : Service) (date variables : string)
  : response StationsService.AveragesResult :=
  match all_stations_averages svc date (Some (variable_list variables)) with
  | Ok result => Return result
  | Raise e =>
      if is_ValueError e then HTTPException 400 (FormatoDeFechaInvalido e)
      else HTTPException 500 (ErrorInternoDelServidor (type_name e))
  end.

(** GET /stations/{station_id}/detailed-data *)
Definition get_station_detailed_data (svc : Service) (station_id : Z) (date : string)
  : response StationsService.DetailedResult :=
  match station_detailed_data svc station_id date with
  | Ok result => Return result
  | Raise e =>
      if is_ValueError e then HTTPException 400 (FormatoDeFechaInvalido e)
      else HTTPException 500 (ErrorInternoDelServidor (type_name e))
  end.

(** GET /stations/{station_id}/averages *)
Definition get_station_daily_averages (svc : Service) (station_id : Z) (date variables : string)
  : response StationsService.StationAverages :=
  match station_averages svc station_id date (Some (variable_list variables)) with
  | Ok result => Return result
  | Raise e =>
      match e with
      | ValueError _ => HTTPException 400 (FormatoDeFechaInvalido e)
      | AttributeError => HTTPException 500 ErrorProcesandoDatosDeLaEstacion
      | TypeError => HTTPException 500 ErrorEnElFormatoDeDatos
      | _ => HTTPException 500 (ErrorInternoDelServidor (type_name e))
      end
  end.

End StationsController.

(* ================================================================== *)
(** * Calls to the generative model *)
(* ================================================================== *)

(** The prompts sent to the model: each is a fixed template over the
    values it carries. *)
Inductive Prompt : Type :=
| PromptExperto (contexto : DataFrame) (pregunta : string)
| PromptClasificar (pregunta : string)
| PromptNubi (contexto : DataFrame) (pregunta : string).

(** An [async] computation: it ends with a value, or it calls
    [client.models.generate_content] and goes on with the text of the
    answer, or with the exception of the call. *)
Inductive chat (A : Type) : Type :=
| Done (a : A)
| AskGemini (model : string) (prompt : Prompt) (k : result string -> chat A).
Arguments Done {A} a.
Arguments AskGemini {A} model prompt k.

Fixpoint chat_bind {A B : Type} (c : chat A) (f : A -> chat B) : chat B :=
  match c with
  | Done a => f a
  | AskGemini model prompt k => AskGemini model prompt (fun r => chat_bind (k r) f)
  end.

(** The computation under a given model. *)
Fixpoint run {A : Type} (gemini : string -> Prompt -> result string) (c : chat A) : A :=
  match c with
  | Done a => a
  | AskGemini model prompt k => run gemini (k (gemini model prompt))
  end.

(** The computation ends without a call to the model. *)
Definition no_ai_call {A : Type} (c : chat A) : Prop := exists a, c = Done a.

(* ================================================================== *)
(** * The heuristic responder and the chatbot data (chatbot_service.py) *)
(* ================================================================== *)

Module ChatbotService.

(** [self]: the loaded frame and whether an API key is configured. *)
Record self : Type := {
  cs_df : DataFrame;
  cs_has_gemini : bool
}.

(** The replies of the service; a constructor with arguments is an
    f-string and its holes. *)
Inductive respuesta : Type :=
| Texto (s : string)
| TenemosEstaciones (n : nat)
| TenemosRegistros (n : nat)
| LosDatosVan (desde hasta : Z)
| EstacionInfo (numero : Z) (station_name : option string) (latest : Row)
| SoloTenemos (n : nat)
| NoPudeObtenerInformacion
| TemperaturaPromedio (promedio minimo maximo : option Q)
| HumedadPromedio (promedio : option Q)
| CalidadDelAirePromedio (ica : option Q) (estado : string)
| PM25MasAlto (pm_max : Q) (estacion : option string)
| MejorCalidadDelAire (estacion : string) (ica : Q)
| PeorCalidadDelAire (estacion : string) (ica : Q)
| RespuestaGemini (texto : string)
| NoPudeProcesarConIA
| FueraDeScope (pregunta : string)
| RespuestaFallback (pregunta : string)
| OcurrioUnError.

(** [series.min()], [series.max()], [series.mean()]: NaN without values. *)
Definition min_na (l : list (option Q)) : option Q :=
  match dropna l with [] => None | qs => Some (Stats.minimum qs) end.
Definition max_na (l : list (option Q)) : option Q :=
  match dropna l with [] => None | qs => Some (Stats.maximum qs) end.
Definition mean_na (l : list (option Q)) : option Q :=
  match dropna l with [] => None | qs => Some (Stats.mean qs) end.

(** [df['timestamp'].min()] and [.max()]: NaT for a frame without rows. *)
Definition timestamp_min (l : list Row) : option Z :=
  match l with
  | [] => None
  | r :: t => Some (fold_left Z.min (map timestamp t) (timestamp r))
  end.
Definition timestamp_max (l : list Row) : option Z :=
  match l with
  | [] => None
  | r :: t => Some (fold_left Z.max (map timestamp t) (timestamp r))
  end.

(** [ts.strftime(...)]: NaT does not support it. *)
Definition strftime (ts : option Z) : result Z :=
  match ts with
  | Some t => Ok t
  | None => Raise (ValueError "NaTType does not support strftime")
  end.

(** [df[col]] for a measurement. *)
Definition series (df : DataFrame) (col : string) : result (list (option Q)) :=
  if existsb (String.eqb col) (measure_columns df)
  then Ok (map (measure df col) (rows df))
  else Raise (KeyError col).

(** [station_data.loc[station_data['timestamp'].idxmax()]]: the first
    row with the greatest timestamp. *)
Definition latest_row (l : list Row) : result Row :=
  match l with
  | [] => Raise (ValueError "attempt to get argmax of an empty sequence")
  | r :: t => Ok (fold_left (fun best x => if timestamp best <? timestamp x then x else best) t r)
  end.

(** The static phrase table, with its computed entries. *)
Definition respuestas_heuristicas (df : DataFrame) : result (Py.dict respuesta) :=
  let estaciones := TenemosEstaciones (List.length (station_ids (rows df))) in
  let variables := Texto "Las estaciones miden: temperatura 🌡️, humedad 💧, presión atmosférica 📊, viento 💨, partículas PM (1.0, 2.5, 10) 🌫️, índice de calidad del aire (ICA) 🌬️ y precipitación ☔" in
  let pm25 := Texto "PM2.5 son partículas finas de 2.5 micrómetros o menos. Son peligrosas porque pueden penetrar profundamente en los pulmones y el torrente sanguíneo. 🫁" in
  let ica := Texto "El ICA (Índice de Calidad del Aire) mide qué tan limpio o contaminado está el aire. Valores: 0-50 Bueno 🟢, 51-100 Moderado 🟡, 101-150 Dañino para grupos sensibles 🟠, 151+ Dañino 🔴" in
  let humedad := Texto "La humedad relativa es el porcentaje de vapor de agua en el aire comparado con el máximo que puede contener a esa temperatura. 💧" in
  let registros := TenemosRegistros (List.length (rows df)) in
  let* desde := strftime (timestamp_min (rows df)) in
  let* hasta := strftime (timestamp_max (rows df)) in
  Ok [ ("hola", Texto "¡Hola! 👋 Soy tu asistente de datos climáticos. ¿En qué puedo ayudarte?");
       ("buenos días", Texto "¡Buenos días! ☀️ ¿Qué información climática necesitas hoy?");
       ("buenas tardes", Texto "¡Buenas tardes! 🌤️ ¿Cómo puedo ayudarte con los datos meteorológicos?");
       ("cuántas estaciones hay", estaciones);
       ("cuantas estaciones hay", estaciones);
       ("qué variables miden", variables);
       ("que variables miden", variables);
       ("qué es pm2.5", pm25);
       ("que es pm2.5", pm25);
       ("qué es ica", ica);
       ("que es ica", ica);
       ("qué es humedad", humedad);
       ("que es humedad", humedad);
       ("cuántos registros hay", registros);
       ("cuantos registros hay", registros);
       ("desde cuándo hay datos", LosDatosVan desde hasta);
       ("desde cuando hay datos", LosDatosVan desde hasta) ].

(* ------------------------------------------------------------------ *)
(** ** The handlers of the patterns *)

(** The station at position [numero] of the sorted ids. *)
Definition estacion_por_numero (df : DataFrame) (numero : Z) : result respuesta :=
  let estaciones := station_ids (rows df) in
  if numero <=? Z.of_nat (List.length estaciones) then
    let* station_id := Py.index (Py.sort Z.leb estaciones) (numero - 1) in
    let station_data := with_station station_id (rows df) in
    let* first := Py.index station_data 0 in
    let* latest := latest_row station_data in
    Ok (EstacionInfo numero (station_name first) latest)
  else Ok (SoloTenemos (List.length estaciones)).

(** [_responder_estacion_por_numero]: [group1] is [match.group(1)]. *)
Definition _responder_estacion_por_numero (df : DataFrame) (group1 : string) : respuesta :=
  match estacion_por_numero df (PyStr.int_of_digits group1) with
  | Ok r => r
  | Raise _ => NoPudeObtenerInformacion
  end.

Definition _responder_temperatura_promedio (df : DataFrame) : result respuesta :=
  let* temp := series df "temp" in
  Ok (TemperaturaPromedio (mean_na temp) (min_na temp) (max_na temp)).

Definition _responder_humedad_promedio (df : DataFrame) : result respuesta :=
  let* humedad := series df "humedad" in
  Ok (HumedadPromedio (mean_na humedad)).

Definition le_na (x : option Q) (bound : Q) : bool :=
  match x with Some q => Qle_bool q bound | None => false end.

Definition _responder_calidad_aire_general (df : DataFrame) : result respuesta :=
  let* ica := series df "ica" in
  let ica_promedio := mean_na ica in
  let estado :=
    if le_na ica_promedio 50 then "Buena 🟢"
    else if le_na ica_promedio 100 then "Moderada 🟡"
    else if le_na ica_promedio 150 then "Dañina para grupos sensibles 🟠"
    else "Dañina 🔴" in
  Ok (CalidadDelAirePromedio ica_promedio estado).

(** [series.idxmax()] / [idxmin()]: the first key whose value is the
    extreme one, NaN left aside. *)
Definition idx_of {K : Type} (extreme : Q) (l : list (K * option Q)) : option K :=
  option_map fst
    (find (fun kv => match snd kv with Some q => Qeq_bool q extreme | None => false end) l).

Definition _responder_pm_alto (df : DataFrame) : result respuesta :=
  let* pm := series df "pm_2_5" in
  match max_na pm with
  | None => Raise (ValueError "attempt to get argmax of an empty sequence")
  | Some pm_max =>
      match idx_of pm_max (combine (rows df) pm) with
      | Some r => Ok (PM25MasAlto pm_max (station_name r))
      | None => Raise (KeyError "idxmax")
      end
  end.

(** [df.groupby('station_name')['ica'].mean()]: the groups are the
    names that are not null, in sorted order. *)
Definition ica_by_name (df : DataFrame) : result (list (string * option Q)) :=
  let* _ := series df "ica" in
  let names := Py.sort String.leb (Py.unique_str (dropna (map station_name (rows df)))) in
  Ok (map (fun name =>
             let group := filter (fun r => match station_name r with
                                           | Some n => String.eqb n name
                                           | None => false
                                           end) (rows df) in
             (name, mean_na (map (measure df "ica") group))) names).

Definition _responder_mejor_aire (df : DataFrame) : result respuesta :=
  let* means := ica_by_name df in
  match min_na (map snd means) with
  | None => Raise (ValueError "attempt to get argmin of an empty sequence")
  | Some ica_valor =>
      match idx_of ica_valor means with
      | Some mejor_ica => Ok (MejorCalidadDelAire mejor_ica ica_valor)
      | None => Raise (KeyError "idxmin")
      end
  end.

Definition _responder_peor_aire (df : DataFrame) : result respuesta :=
  let* means := ica_by_name df in
  match max_na (map snd means) with
  | None => Raise (ValueError "attempt to get argmax of an empty sequence")
  | Some ica_valor =>
      match idx_of ica_valor means with
      | Some peor_ica => Ok (PeorCalidadDelAire peor_ica ica_valor)
      | None => Raise (KeyError "idxmax")
      end
  end.

(* ------------------------------------------------------------------ *)
(** ** The patterns *)

(** [re.search(".*a.*b.*", s)]: some line has [a] and, after it, [b]. *)
Definition line_has (a b line : string) : bool :=
  match PyStr.after_first a line with
  | Some rest => PyStr.contains b rest
  | None => false
  end.

Definition search (a b s : string) : bool := existsb (line_has a b) (PyStr.lines s).

(** [re.search(".*estación.*(\d+).*", s)]: the match is in the first
    line with a digit after "estación"; both stars are greedy, so the
    group is the last digit of that line alone. *)
Definition search_estacion (s : string) : option string :=
  Py.first_some
    (fun line =>
       match PyStr.after_first "estación" line with
       | Some rest => option_map (fun d => String d EmptyString) (PyStr.last_digit rest)
       | None => None
       end)
    (PyStr.lines s).

(** [_responder_heuristico] *)
Definition _responder_heuristico (df : DataFrame) (pregunta : string)
  : result (option respuesta) :=
  let pregunta_lower := PyStr.strip (PyStr.lower pregunta) in
  let* respuestas_heuristicas := respuestas_heuristicas df in
  match Py.get pregunta_lower respuestas_heuristicas with
  | Some r => Ok (Some r)
  | None =>
      match search_estacion pregunta_lower with
      | Some group1 => Ok (Some (_responder_estacion_por_numero df group1))
      | None =>
          if search "temperatura" "promedio" pregunta_lower then
            let* r := _responder_temperatura_promedio df in Ok (Some r)
          else if search "humedad" "promedio" pregunta_lower then
            let* r := _responder_humedad_promedio df in Ok (Some r)
          else if search "calidad" "aire" pregunta_lower then
            let* r := _responder_calidad_aire_general df in Ok (Some r)
          else if search "pm" "alto" pregunta_lower then
            let* r := _responder_pm_alto df in Ok (Some r)
          else if search "mejor" "aire" pregunta_lower then
            let* r := _responder_mejor_aire df in Ok (Some r)
          else if search "peor" "aire" pregunta_lower then
            let* r := _responder_peor_aire df in Ok (Some r)
          else Ok None
      end
  end.

Definition palabras_climaticas : list string :=
  ["clima"; "temperatura"; "temp"; "calor"; "frío"; "grados";
   "humedad"; "húmedo"; "seco"; "vapor";
   "lluvia"; "precipitación"; "lloviendo"; "agua";
   "viento"; "brisa"; "velocidad";
   "presión"; "atmosférica"; "hpa";
   "aire"; "calidad"; "contaminación"; "limpio";
   "pm2.5"; "pm10"; "pm"; "partículas"; "polvo";
   "ica"; "índice"; "aqi"; "smog";
   "estación"; "estaciones"; "sensor"; "monitoreo";
   "datos"; "medición"; "registro"].

Definition _es_pregunta_climatica (pregunta : string) : bool :=
  PyStr.contains_any palabras_climaticas (PyStr.lower pregunta).

(** [_crear_contexto_para_gemini], the context that is left when the
    enriched one fails: the date range has no text for a frame without
    rows, and the means are taken of four columns that the frame must
    have.  The enriched context needs all of this too, so the context
    of the prompt is built exactly when this one is. *)
Definition columnas_del_contexto : list string := ["temp"; "humedad"; "ica"; "pm_2_5"].

Definition _crear_contexto_para_gemini (df : DataFrame) : result unit :=
  let* _ := strftime (timestamp_min (rows df)) in
  match find (fun col => negb (existsb (String.eqb col) (measure_columns df)))
             columnas_del_contexto with
  | Some col => Raise (KeyError col)
  | None => Ok tt
  end.

(** [_responder_con_gemini]: the context is built from the frame, then
    the model is asked once; any exception gives the apology. *)
Definition _responder_con_gemini (svc : self) (pregunta : string) : chat respuesta :=
  let es_pregunta_contextual :=
    PyStr.contains "📍 **Estación:**" pregunta
    || PyStr.contains "📊 **Promedios del período:**" pregunta in
  if negb es_pregunta_contextual && negb (_es_pregunta_climatica pregunta)
  then Done (FueraDeScope pregunta)
  else
    match _crear_contexto_para_gemini (cs_df svc) with
    | Raise _ => Done NoPudeProcesarConIA
    | Ok _ =>
        AskGemini "gemini-2.5-pro" (PromptExperto (cs_df svc) pregunta)
          (fun r => match r with
                    | Ok text => Done (RespuestaGemini (PyStr.strip text))
                    | Raise _ => Done NoPudeProcesarConIA
                    end)
    end.

(** [responder_pregunta] *)
Definition responder_pregunta (svc : self) (pregunta : string) : chat respuesta :=
  match _responder_heuristico (cs_df svc) pregunta with
  | Raise _ => Done OcurrioUnError
  | Ok (Some respuesta_heuristica) => Done respuesta_heuristica
  | Ok None =>
      if cs_has_gemini svc then _responder_con_gemini svc pregunta
      else Done (RespuestaFallback pregunta)
  end.

(* ------------------------------------------------------------------ *)
(** ** The data handed to the chat: [get_complete_data_for_chatbot] *)

(** The dict of [_get_latest_measurements]. *)
Record Latest : Type := {
  lm_timestamp : Z;
  lm_measurements : Py.dict Q
}.

(** [StationSummary], without the statistics of each variable. *)
Record StationSummary : Type := {
  su_station_id : Z;
  su_station_name : string;
  su_tipo_equipo : string;
  su_total_records : nat;
  su_latest_measurements : option Latest
}.

(** [ChatbotDataResponse]: the fields the chat reads. *)
Record ChatbotDataResponse : Type := {
  total_records : nat;
  stations : list StationSummary;
  variables : list string;
  total_days : nat
}.

Definition _get_latest_measurements (df : DataFrame) (station_data : list Row) : result Latest :=
  let* latest := latest_row station_data in
  let measurements :=
    fold_left
      (fun acc var => match measure df var latest with
                      | Some q => Py.set var q acc
                      | None => acc
                      end)
      ["temp"; "humedad"; "presion"; "viento_vel"; "pm_2_5"; "ica"; "precipitacion"] [] in
  Ok {| lm_timestamp := timestamp latest; lm_measurements := measurements |}.

(** The model validates its fields: a name or an equipment type that is
    NaN is not a [str]. *)
Definition validate_str (v : option string) : result string :=
  match v with Some s => Ok s | None => Raise ValidationError end.

Fixpoint summaries (df : DataFrame) (ids : list Z) : result (list StationSummary) :=
  match ids with
  | [] => Ok []
  | station_id :: rest =>
      let station_data := with_station station_id (rows df) in
      let* station_info := Py.index station_data 0 in
      let* latest := _get_latest_measurements df station_data in
      let* name := validate_str (station_name station_info) in
      let* tipo := validate_str (tipo_equipo station_info) in
      let* stations := summaries df rest in
      Ok ({| su_station_id := station_id;
             su_station_name := name;
             su_tipo_equipo := tipo;
             su_total_records := List.length station_data;
             su_latest_measurements := Some latest |} :: stations)
  end.

Definition _get_stations_summary (df : DataFrame) : result (list StationSummary) :=
  summaries df (station_ids (rows df)).

Definition variables_config : list string :=
  ["temp"; "humedad"; "presion"; "viento_vel"; "viento_dir";
   "pm_1"; "pm_2_5"; "pm_10"; "ica"; "precipitacion"].

Definition get_complete_data_for_chatbot (df : DataFrame) : result ChatbotDataResponse :=
  let* stations := _get_stations_summary df in
  let variables := filter (has_column df) variables_config in
  let dates := Py.unique (map (fun r => timestamp r / Datetime.ns_per_day) (rows df)) in
  let* _ := strftime (timestamp_min (rows df)) in
  Ok {| total_records := List.length (rows df);
        stations := stations;
        variables := variables;
        total_days := List.length dates |}.

(* ------------------------------------------------------------------ *)
(** ** Filtered data: [get_filtered_data] *)

Record ChatbotQuery : Type := {
  q_stations : option (list Z);
  q_variables : option (list string);
  q_date_range : option (Py.dict string);
  include_raw_data : bool;
  max_records : Z
}.

Record FilteredResult : Type := {
  fr_total_records : nat;
  fr_stations_count : nat;
  fr_date_range : option Z * option Z;
  fr_data : option (list Row)
}.

(** [df[selected_cols]] on one row: the five base columns and the
    selected variables are kept. *)
Definition select (selected_cols : list string) (r : Row) : Row :=
  {| timestamp := timestamp r;
     station_id := station_id r;
     station_name := station_name r;
     tipo_equipo :=
       if existsb (String.eqb "tipo_equipo") selected_cols then tipo_equipo r else None;
     lat := lat r;
     lon := lon r;
     values := filter (fun kv => existsb (String.eqb (fst kv)) selected_cols) (values r) |}.

Section FilteredData.
(** [pd.to_datetime] on the bounds of the query, and the generator
    behind [df.sample]. *)
Variable to_datetime : string -> result Z.
Variable rng : nat -> nat.

Definition sample (n : Z) (l : list Row) : result (list Row) :=
  if n <? 0 then Raise (ValueError "A negative number of rows requested")
  else if Z.of_nat (List.length l) <? n
       then Raise (ValueError "Cannot take a larger sample than population")
       else Ok (Py.draw rng 0 (Z.to_nat n) l).

Definition filter_dates (date_range : Py.dict string) (l : list Row) : result (list Row) :=
  let* l :=
    match Py.get "start" date_range with
    | Some s => let* start_date := to_datetime s in
                Ok (filter (fun r => start_date <=? timestamp r) l)
    | None => Ok l
    end in
  match Py.get "end" date_range with
  | Some s => let* end_date := to_datetime s in
              Ok (filter (fun r => timestamp r <=? end_date) l)
  | None => Ok l
  end.

Definition get_filtered_data (svc : self) (query : ChatbotQuery) : result FilteredResult :=
  let df := cs_df svc in
  let df_filtered := rows df in
  let df_filtered :=
    match q_stations query with
    | Some ((_ :: _) as ids) => filter (fun r => existsb (Z.eqb (station_id r)) ids) df_filtered
    | _ => df_filtered
    end in
  let* df_filtered :=
    match q_date_range query with
    | Some ((_ :: _) as date_range) => filter_dates date_range df_filtered
    | _ => Ok df_filtered
    end in
  let selected_cols :=
    match q_variables query with
    | Some ((_ :: _) as vars) =>
        Some (["timestamp"; "station_id"; "station_name"; "lat"; "lon"]
              ++ filter (has_column df) vars)%list
    | _ => None
    end in
  let df_filtered :=
    match selected_cols with
    | Some cols => map (select cols) df_filtered
    | None => df_filtered
    end in
  let* df_filtered :=
    if Z.of_nat (List.length df_filtered) >? max_records query
    then sample (max_records query) df_filtered
    else Ok df_filtered in
  (* a variable named "timestamp" selects the column twice, and the
     minimum of a frame has no [isoformat] *)
  let* _ :=
    match q_variables query with
    | Some ((_ :: _) as vars) =>
        if existsb (String.eqb "timestamp") vars then Raise AttributeError else Ok tt
    | _ => Ok tt
    end in
  Ok {| fr_total_records := List.length df_filtered;
        fr_stations_count := List.length (station_ids df_filtered);
        fr_date_range := (timestamp_min df_filtered, timestamp_max df_filtered);
        fr_data := if include_raw_data query then Some df_filtered else None |}.

End FilteredData.

End ChatbotService.

(* ================================================================== *)
(** * The intent resolver and the response composer (gemini_service.py) *)
(* ================================================================== *)

Module GeminiChatService.

Inductive menu : Type :=
| estaciones
| conceptos.

(** [self]: the key, the chatbot service over the loaded frame, and the
    menu shown last. *)
Record self : Type := {
  has_gemini : bool;
  chatbot_service : DataFrame;
  last_menu_shown : option menu
}.

Definition set_last_menu_shown (s : self) (m : option menu) : self :=
  {| has_gemini := has_gemini s;
     chatbot_service := chatbot_service s;
     last_menu_shown := m |}.

(** The dict of an intent; a field is None when the key is missing (or
    null). *)
Record Intent : Type := {
  accion : option string;
  estacion : option string;
  variable : option string;
  numero_estacion : option Z;
  letra_concepto : option string;
  pregunta_original : option string
}.

Definition intent (accion : string) : Intent :=
  {| accion := Some accion; estacion := None; variable := None;
     numero_estacion := None; letra_concepto := None; pregunta_original := None |}.

Definition saludo : Intent := intent "saludo".
Definition listar : Intent := intent "listar".
Definition general : Intent := intent "general".
Definition concepto (variable : option string) : Intent :=
  {| accion := Some "concepto"; estacion := None; variable := variable;
     numero_estacion := None; letra_concepto := None; pregunta_original := None |}.
Definition pregunta_abierta (pregunta : string) : Intent :=
  {| accion := Some "pregunta_abierta"; estacion := None; variable := None;
     numero_estacion := None; letra_concepto := None; pregunta_original := Some pregunta |}.
Definition estado_actual (estacion : string) : Intent :=
  {| accion := Some "estado_actual"; estacion := Some estacion; variable := None;
     numero_estacion := None; letra_concepto := None; pregunta_original := None |}.
Definition concepto_por_letra (letra : string) : Intent :=
  {| accion := Some "concepto_por_letra"; estacion := None; variable := None;
     numero_estacion := None; letra_concepto := Some letra; pregunta_original := None |}.
Definition estado_actual_por_numero (numero : Z) : Intent :=
  {| accion := Some "estado_actual_por_numero"; estacion := None; variable := None;
     numero_estacion := Some numero; letra_concepto := None; pregunta_original := None |}.

Definition saludos : list string := ["hola"; "hi"; "hello"; "buenas"; "buenos"].

Definition preguntas_complejas : list string :=
  ["cuál"; "cual"; "mejor"; "peor"; "mayor"; "menor"; "más alto"; "mas alto";
   "más bajo"; "mas bajo"; "comparar"; "compara"; "diferencia"; "ranking";
   "máximo"; "maximo"; "mínimo"; "minimo"; "promedio"; "estadística"].

(** [re.match(r'^([a-fA-F])$', q)] on a stripped string, and the upper
    case of the group. *)
Definition letra_match (q : string) : option string :=
  match q with
  | String c EmptyString =>
      let n := PyStr.code c in
      if ((97 <=? n) && (n <=? 102))%N then Some (String (ascii_of_N (n - 32)) EmptyString)
      else if ((65 <=? n) && (n <=? 70))%N then Some q
      else None
  | _ => None
  end.

(** [re.match(r'^(\d+)$', q)] on a stripped string, and the group. *)
Definition numero_match (q : string) : option string :=
  match q with
  | EmptyString => None
  | _ => if PyStr.all_digits q then Some q else None
  end.

Section Resolver.
(** [json.loads]: None for a text that is not JSON; a JSON value that is
    not an object is [Some None]. *)
Variable json_loads : string -> option (option Intent).

(** [interpretar_pregunta]: the intent, which is None when the model
    answered a JSON value that is not a dict, or the exception that
    [int] raises on the group of the number, outside any [try]. *)
Definition interpretar_pregunta (s : self) (pregunta : string) : chat (result (option Intent)) :=
  match pregunta with
  | EmptyString => Done (Ok (Some saludo))
  | _ =>
      let q := PyStr.strip (PyStr.lower pregunta) in
      if PyStr.contains_any saludos q then Done (Ok (Some saludo))
      else
        let menu_principal :=
          match last_menu_shown s with
          | None =>
              if String.eqb q "a" then Some listar
              else if String.eqb q "b" then Some (concepto None)
              else None
          | Some _ => None
          end in
        match menu_principal with
        | Some i => Done (Ok (Some i))
        | None =>
            if PyStr.startswith q "qué es " || PyStr.startswith q "que es " then
              let variable :=
                PyStr.strip (PyStr.replace (PyStr.replace q "qué es " "") "que es " "") in
              Done (Ok (Some (concepto (Some variable))))
            else if PyStr.contains_any preguntas_complejas q then
              Done (Ok (Some (pregunta_abierta pregunta)))
            else if PyStr.contains "cuántas estaciones" q || PyStr.contains "cuantas estaciones" q then
              Done (Ok (Some general))
            else if negb (has_gemini s) then
              Done (Ok (Some (estado_actual pregunta)))
            else
              match letra_match q with
              | Some letra => Done (Ok (Some (concepto_por_letra letra)))
              | None =>
                  match numero_match q with
                  | Some group1 =>
                      match PyStr.int group1 with
                      | Ok numero => Done (Ok (Some (estado_actual_por_numero numero)))
                      | Raise e => Done (Raise e)
                      end
                  | None =>
                      AskGemini "gemini-2.5-flash" (PromptClasificar pregunta)
                        (fun r =>
                           match r with
                           | Ok response_text =>
                               match json_loads (PyStr.strip response_text) with
                               | Some result => Done (Ok result)
                               | None => Done (Ok (Some (pregunta_abierta pregunta)))
                               end
                           | Raise _ => Done (Ok (Some (pregunta_abierta pregunta)))
                           end)
                  end
              end
        end
  end.

End Resolver.

(* ------------------------------------------------------------------ *)
(** ** The replies *)

(** [explicar_concepto]: the entry of the table of explanations, the
    educational menu for no variable, or the text for an unknown one. *)
Inductive explicacion : Type :=
| ModoEducativoPreguntas
| Explicacion (concepto : string)
| NoTengoInformacion (variable : string).

Definition explicaciones : list string :=
  ["pm2.5"; "pm1"; "pm10"; "humedad"; "temperatura"; "presión"; "ica";
   "precipitación"; "viento"].

Definition explicar_concepto (variable : option string) : explicacion :=
  match variable with
  | None | Some EmptyString => ModoEducativoPreguntas
  | Some variable =>
      let v := PyStr.lower variable in
      if existsb (String.eqb v) explicaciones then Explicacion v
      else NoTengoInformacion variable
  end.

Definition interpretar_calidad_aire (ica pm25 : option Q) : string :=
  match ica with
  | Some ica =>
      if Qle_bool ica 50 then "🌿 Aire excelente y saludable."
      else if Qle_bool ica 100 then "😊 Aire bueno, sin riesgos importantes."
      else if Qle_bool ica 150 then "⚠️ Calidad moderada, grupos sensibles deben tener precaución."
      else if Qle_bool ica 200 then "🚨 Aire no saludable, evita actividades al aire libre."
      else if Qle_bool ica 300 then "☠️ Aire muy no saludable, permanece bajo techo."
      else "🆘 Aire peligroso, emergencia de salud."
  | None =>
      match pm25 with
      | Some pm25 =>
          if Qle_bool pm25 12 then "🌿 Aire limpio y saludable."
          else if Qle_bool pm25 35 then "😊 Aire moderado, sin riesgos importantes."
          else if Qle_bool pm25 55 then "⚠️ Calidad regular, evita esfuerzos intensos al aire libre."
          else if Qle_bool pm25 150 then "🚨 Aire contaminado, precaución al exponerse."
          else "☠️ Nivel muy peligroso. Permanece bajo techo."
      | None => "— Sin datos de calidad del aire disponibles."
      end
  end.

Inductive response : Type :=
| Saludo (saludo : nat)
| EstacionesDisponibles (lista : list string)
| NoHayEstacionesDisponibles
| NoPudeObtenerLaLista
| Concepto (e : explicacion)
| ModoEducativoActivado
| InformacionDelSistema (total total_records total_days : nat)
| NoPudeObtenerInformacionGeneral
| NoEncontreLaEstacion (estacion : string)
| NoHayDatosRecientes (station_name : string)
| EstadoActual (station_name : string) (latest : ChatbotService.Latest) (interpretacion : string)
| NoPudeObtenerLosDatos (estacion : string)
| NumeroFueraDeRango (total : nat)
| EstadoActualPorNumero (station_name : string) (latest : ChatbotService.Latest)
    (interpretacion : string)
| NoPudeObtenerEstacionNumero (numero : option Z)
| ConceptoPorLetra (e : explicacion)
| LetraFueraDeRango
| SeriesHistoricas (variable estacion : option string)
| RespuestaIA (texto : string)
| FueraDeMiArea (pregunta : string)
| InteresantePregunta (pregunta : string)
| CuantasEstaciones (total : nat)
| CuantosRegistros (total : nat)
| EstadoCalidadDelAire (ica_promedio : Q) (interpretacion : string) (monitoreando : nat)
| LaCalidadDelAireSeMide
| VariablesClimaticas
| CoberturaGeografica
| PreguntaGenerica (pregunta : string) (total : nat)
| NoPudeProcesarCompletamente
| SinRespuesta
| NoEntendi
| OcurrioUnErrorProcesando.

Definition palabras_relevantes : list string :=
  ["clima"; "temperatura"; "temp"; "calor"; "frío"; "grados";
   "humedad"; "húmedo"; "seco"; "vapor";
   "lluvia"; "precipitación"; "lloviendo"; "agua";
   "viento"; "brisa"; "velocidad del viento";
   "presión"; "atmosférica"; "hpa"; "mbar";
   "aire"; "calidad"; "contaminación"; "contaminado"; "limpio";
   "pm2.5"; "pm10"; "pm"; "partículas"; "polvo";
   "ica"; "índice"; "aqi"; "smog";
   "estación"; "estaciones"; "sensor"; "sensores"; "monitoreo";
   "ubicación"; "lugar"; "zona"; "región"; "dónde"; "donde";
   "datos"; "información"; "medición"; "mediciones"; "registro";
   "cuánto"; "cuanto"; "cuánta"; "cuanta"; "cuántas"; "cuantas";
   "promedio"; "máximo"; "mínimo"; "estadística";
   "hoy"; "ahora"; "actual"; "reciente"; "último"; "última";
   "ayer"; "mañana"; "semana"; "mes"; "día"; "hora"].

Definition palabras_irrelevantes : list string :=
  ["fútbol"; "deportes"; "música"; "película"; "comida"; "receta";
   "política"; "economía"; "historia"; "matemáticas"; "programación";
   "amor"; "relación"; "trabajo"; "estudios"; "universidad";
   "coche"; "carro"; "transporte"; "viaje"; "turismo"].

Definition validar_pregunta_relevante (pregunta : string) : bool :=
  let pregunta_lower := PyStr.lower pregunta in
  PyStr.contains_any palabras_relevantes pregunta_lower
  && negb (PyStr.contains_any palabras_irrelevantes pregunta_lower).

(** The values of "ica" that count: [if measurements.get('ica')] drops
    a missing one and a zero. *)
Definition icas (stations : list ChatbotService.StationSummary) : list Q :=
  dropna
    (map (fun est =>
            match ChatbotService.su_latest_measurements est with
            | Some latest =>
                match Py.get "ica" (ChatbotService.lm_measurements latest) with
                | Some q => if Qeq_bool q 0 then None else Some q
                | None => None
                end
            | None => None
            end) stations).

Definition responder_pregunta_abierta (s : self) (pregunta : string) : response :=
  match ChatbotService.get_complete_data_for_chatbot (chatbot_service s) with
  | Raise _ => NoPudeProcesarCompletamente
  | Ok complete_data =>
      let stations := ChatbotService.stations complete_data in
      let pregunta_lower := PyStr.lower pregunta in
      if PyStr.contains_any ["cuántas"; "cuantas"; "cantidad"; "total"; "número"] pregunta_lower then
        if PyStr.contains "estacion" pregunta_lower then
          CuantasEstaciones (List.length stations)
        else if PyStr.contains_any ["datos"; "registros"; "mediciones"] pregunta_lower then
          CuantosRegistros (ChatbotService.total_records complete_data)
        else SinRespuesta
      else if PyStr.contains_any ["aire"; "contaminación"; "pm2.5"; "ica"; "calidad"] pregunta_lower then
        let estaciones_con_datos :=
          filter (fun est => match ChatbotService.su_latest_measurements est with
                             | Some _ => true
                             | None => false
                             end) stations in
        match icas estaciones_con_datos with
        | [] => LaCalidadDelAireSeMide
        | l =>
            let ica_promedio := Stats.mean l in
            EstadoCalidadDelAire ica_promedio (interpretar_calidad_aire (Some ica_promedio) None)
              (List.length estaciones_con_datos)
        end
      else if PyStr.contains_any ["clima"; "temperatura"; "lluvia"; "humedad"; "viento"] pregunta_lower then
        VariablesClimaticas
      else if PyStr.contains_any ["dónde"; "donde"; "ubicación"; "lugar"; "zona"] pregunta_lower then
        CoberturaGeografica
      else PreguntaGenerica pregunta (List.length stations)
  end.

Definition responder_con_ia (s : self) (pregunta : string) : chat response :=
  if negb (has_gemini s) then Done (responder_pregunta_abierta s pregunta)
  else
    match ChatbotService.get_complete_data_for_chatbot (chatbot_service s) with
    | Raise _ => Done (responder_pregunta_abierta s pregunta)
    | Ok _ =>
        AskGemini "gemini-2.5-flash" (PromptNubi (chatbot_service s) pregunta)
          (fun r => match r with
                    | Ok text => Done (RespuestaIA (PyStr.strip text))
                    | Raise _ => Done (responder_pregunta_abierta s pregunta)
                    end)
    end.

Definition conceptos_por_letra : Py.dict string :=
  [("A", "pm2.5"); ("B", "humedad"); ("C", "presión"); ("D", "ica");
   ("E", "precipitación"); ("F", "viento")].

(** The station whose name has [estacion] inside, case left aside. *)
Definition buscar_estacion (estacion : string) (stations : list ChatbotService.StationSummary)
  : option ChatbotService.StationSummary :=
  find (fun est => PyStr.contains (PyStr.lower estacion)
                     (PyStr.lower (ChatbotService.su_station_name est))) stations.

(** The latest measurements that can be shown: the dict is there and
    its "measurements" are not empty. *)
Definition con_mediciones (est : ChatbotService.StationSummary) : option ChatbotService.Latest :=
  match ChatbotService.su_latest_measurements est with
  | Some latest =>
      match ChatbotService.lm_measurements latest with
      | [] => None
      | _ :: _ => Some latest
      end
  | None => None
  end.

Definition interpretacion (latest : ChatbotService.Latest) : string :=
  interpretar_calidad_aire
    (Py.get "ica" (ChatbotService.lm_measurements latest))
    (Py.get "pm_2_5" (ChatbotService.lm_measurements latest)).

Section Composer.
Variable json_loads : string -> option (option Intent).
(** [random.choice] over the three greetings. *)
Variable random_choice : nat.

(** What [procesar_pregunta] does once the intent is known: the reply
    and [self] afterwards. *)
Definition componer (s : self) (pregunta : string) (intent : Intent) : chat (response * self) :=
  let accion := match accion intent with Some a => a | None => "general" end in
  let complete_data := ChatbotService.get_complete_data_for_chatbot (chatbot_service s) in
  if String.eqb accion "saludo" then
    Done (Saludo random_choice, set_last_menu_shown s None)
  else if String.eqb accion "listar" || String.eqb (PyStr.lower pregunta) "a" then
    let s := set_last_menu_shown s (Some estaciones) in
    match complete_data with
    | Raise _ => Done (NoPudeObtenerLaLista, s)
    | Ok complete_data =>
        match ChatbotService.stations complete_data with
        | [] => Done (NoHayEstacionesDisponibles, s)
        | stations =>
            Done (EstacionesDisponibles (map ChatbotService.su_station_name stations), s)
        end
    end
  else if String.eqb accion "concepto" then
    match variable intent with
    | None | Some EmptyString => Done (ModoEducativoActivado, set_last_menu_shown s (Some conceptos))
    | Some v => Done (Concepto (explicar_concepto (Some v)), s)
    end
  else if String.eqb accion "general" then
    match complete_data with
    | Raise _ => Done (NoPudeObtenerInformacionGeneral, s)
    | Ok complete_data =>
        Done (InformacionDelSistema (List.length (ChatbotService.stations complete_data))
                (ChatbotService.total_records complete_data)
                (ChatbotService.total_days complete_data), s)
    end
  else
    let por_nombre :=
      if String.eqb accion "estado_actual" then
        match estacion intent with
        | None | Some EmptyString => None
        | Some e => Some e
        end
      else None in
    match por_nombre with
    | Some estacion =>
        match complete_data with
        | Raise _ => Done (NoPudeObtenerLosDatos estacion, s)
        | Ok complete_data =>
            match buscar_estacion estacion (ChatbotService.stations complete_data) with
            | None => Done (NoEncontreLaEstacion estacion, s)
            | Some estacion_encontrada =>
                match con_mediciones estacion_encontrada with
                | None =>
                    Done (NoHayDatosRecientes (ChatbotService.su_station_name estacion_encontrada), s)
                | Some latest =>
                    Done (EstadoActual (ChatbotService.su_station_name estacion_encontrada)
                            latest (interpretacion latest), s)
                end
            end
        end
    | None =>
        if String.eqb accion "estado_actual_por_numero" then
          let numero := match numero_estacion intent with Some n => n | None => 0 end in
          match complete_data with
          | Raise _ => Done (NoPudeObtenerEstacionNumero (numero_estacion intent), s)
          | Ok complete_data =>
              let stations := ChatbotService.stations complete_data in
              if (numero <? 1) || (numero >? Z.of_nat (List.length stations)) then
                Done (NumeroFueraDeRango (List.length stations), s)
              else
                let s := set_last_menu_shown s None in
                match Py.index stations (numero - 1) with
                | Raise _ => Done (NoPudeObtenerEstacionNumero (numero_estacion intent), s)
                | Ok estacion_encontrada =>
                    match con_mediciones estacion_encontrada with
                    | None =>
                        Done (NoHayDatosRecientes
                                (ChatbotService.su_station_name estacion_encontrada), s)
                    | Some latest =>
                        Done (EstadoActualPorNumero
                                (ChatbotService.su_station_name estacion_encontrada)
                                latest (interpretacion latest), s)
                    end
                end
          end
        else if String.eqb accion "concepto_por_letra" then
          let letra := match letra_concepto intent with Some l => l | None => "" end in
          match Py.get letra conceptos_por_letra with
          | Some c =>
              Done (ConceptoPorLetra (explicar_concepto (Some c)), set_last_menu_shown s None)
          | None => Done (LetraFueraDeRango, s)
          end
        else if String.eqb accion "serie" then
          Done (SeriesHistoricas (variable intent) (estacion intent), s)
        else if String.eqb accion "pregunta_abierta" then
          let pregunta_original :=
            match pregunta_original intent with Some p => p | None => pregunta end in
          if validar_pregunta_relevante pregunta_original then
            chat_bind (responder_con_ia s pregunta_original) (fun r => Done (r, s))
          else Done (FueraDeMiArea pregunta_original, s)
        else if (1 <? PyStr.count_words false pregunta)%nat then
          if validar_pregunta_relevante pregunta then
            Done (responder_pregunta_abierta s pregunta, s)
          else Done (FueraDeMiArea pregunta, s)
        else Done (NoEntendi, s)
    end.

(** [procesar_pregunta] *)
Definition procesar_pregunta (s : self) (pregunta : string) : chat (response * self) :=
  chat_bind (interpretar_pregunta json_loads s pregunta)
    (fun intent =>
       match intent with
       | Ok (Some intent) => componer s pregunta intent
       | Ok None | Raise _ => Done (OcurrioUnErrorProcesando, s)
       end).

End Composer.

End GeminiChatService.

(* ================================================================== *)
(** * Sample data and the notions of the statements *)
(* ================================================================== *)

(** The variables a call works on: the default ones when none is given. *)
Definition effective (variables : option (list string)) : list string :=
  match variables with None => StationsService.default_variables | Some v => v end.

(** Three readings of two stations on 2024-01-01; station 7 is there as
    AIR and as VUE+AIR. *)
Definition sample_day : DataFrame :=
  {| measure_columns := ["temp"; "humedad"; "ica"; "pm_2_5"];
     rows :=
       [ {| timestamp := 1704067200000000000; station_id := 7;
            station_name := Some "Halley UIS"; tipo_equipo := Some "AIR";
            lat := Some (7 # 1); lon := Some (-73 # 1);
            values := [("temp", 25 # 1)] |};
         {| timestamp := 1704070800000000000; station_id := 3;
            station_name := Some "Centro"; tipo_equipo := Some "PRO";
            lat := Some (7 # 1); lon := Some (-73 # 1);
            values := [("temp", 21 # 1); ("ica", 40 # 1)] |};
         {| timestamp := 1704074400000000000; station_id := 7;
            station_name := Some "Halley UIS"; tipo_equipo := Some "VUE+AIR";
            lat := Some (7 # 1); lon := Some (-73 # 1);
            values := [("temp", 26 # 1); ("ica", 60 # 1)] |} ] |}.


(** A CSV as [read_csv] returns it, with a flag column holding a text
    that is no key of the map and a missing value. *)
Definition sample_csv : DataService.RawFrame :=
  [ ("timestamp", [CStr "2024-01-01T00:00:00Z"; CStr "2024-01-01T01:00:00Z";
                   CStr "2024-01-01T02:00:00Z"; CStr "2024-01-01T03:00:00Z"]);
    ("temp", [CNum (25 # 1); CStr "NA"; CNum (26 # 1); CNaN]);
    ("temp_imputed", [CStr "TRUE"; CStr "FALSE"; CStr "yes"; CNaN]) ].

Definition keep_timestamps (ts : list cell) : result (list cell) := Ok ts.

(** A CSV whose flag column holds TRUE and FALSE alone, and one with a
    missing flag beside them: [read_csv] parses the values of such a
    column as booleans, not as text. *)
Definition sample_parsed_csv : DataService.RawFrame :=
  [ ("timestamp", [CStr "2024-01-01T00:00:00Z"; CStr "2024-01-01T01:00:00Z"]);
    ("temp", [CNum (25 # 1); CNum (26 # 1)]);
    ("temp_imputed", [CBool true; CBool false]);
    ("ica_imputed", [CBool true; CNaN]) ].

(** A cell that is no text: a boolean, a number or a missing value. *)
Definition parsed (c : cell) : Prop :=
  match c with CStr _ => False | _ => True end.

(** The columns named [col] hold parsed values only, and NaN only. *)
Definition all_parsed (col : string) (d : DataService.RawFrame) : Prop :=
  forall vs, In (col, vs) d -> Forall parsed vs.

Definition all_NaN (col : string) (d : DataService.RawFrame) : Prop :=
  forall vs, In (col, vs) d -> Forall (eq CNaN) vs.

(** The values a flag can have after the load. *)
Definition loaded_flag (v : cell) : Prop := v = CBool true \/ v = CBool false \/ v = CNaN.

(** A column is converted when all its values are values of a flag. *)
Definition converted (d : DataService.RawFrame) (col : string) : Prop :=
  forall vs, In (col, vs) d -> Forall loaded_flag vs.

(** Every flag is a boolean once the frame is loaded. *)
Definition flags_are_booleans_after_load : Prop :=
  forall to_datetime csv df col vs v,
    DataService._load_data to_datetime csv = Ok df ->
    In (col, vs) df -> PyStr.endswith col "_imputed" = true -> In v vs ->
    exists b, v = CBool b.

(** The keys of the static phrase table. *)
Definition phrase_keys : list string :=
  ["hola"; "buenos días"; "buenas tardes";
   "cuántas estaciones hay"; "cuantas estaciones hay";
   "qué variables miden"; "que variables miden";
   "qué es pm2.5"; "que es pm2.5"; "qué es ica"; "que es ica";
   "qué es humedad"; "que es humedad";
   "cuántos registros hay"; "cuantos registros hay";
   "desde cuándo hay datos"; "desde cuando hay datos"].

(** A frame without rows, as a CSV with its header alone gives, and the
    chatbot service over it, with an API key. *)
Definition empty_frame : DataFrame :=
  {| measure_columns := ["temp"; "humedad"; "ica"; "pm_2_5"]; rows := [] |}.

Definition empty_chatbot : ChatbotService.self :=
  {| ChatbotService.cs_df := empty_frame; ChatbotService.cs_has_gemini := true |}.

(** The chatbot service over the sample frame, with an API key. *)
Definition sample_chatbot : ChatbotService.self :=
  {| ChatbotService.cs_df := sample_day; ChatbotService.cs_has_gemini := true |}.

(** A model whose answers are never JSON. *)
Definition no_json (text : string) : option (option GeminiChatService.Intent) := None.

(** The chat over the sample frame, without and with an API key, before
    any menu was shown. *)
Definition sample_chat_no_key : GeminiChatService.self :=
  {| GeminiChatService.has_gemini := false;
     GeminiChatService.chatbot_service := sample_day;
     GeminiChatService.last_menu_shown := None |}.

Definition sample_chat_with_key : GeminiChatService.self :=
  {| GeminiChatService.has_gemini := true;
     GeminiChatService.chatbot_service := sample_day;
     GeminiChatService.last_menu_shown := Some GeminiChatService.estaciones |}.

(** The order of a sort, as a relation. *)
Definition holds {A : Type} (le : A -> A -> bool) (a b : A) : Prop := le a b = true.

(** A word that does not begin with a digit. *)
Definition starts_nondigit (w : string) : bool :=
  match w with
  | String c _ => negb (PyStr.is_digit c)
  | EmptyString => false
  end.

(** A query for the temperature of all the stations, two records at
    most, with the raw data. *)
Definition sample_query : ChatbotService.ChatbotQuery :=
  {| ChatbotService.q_stations := None;
     ChatbotService.q_variables := Some ["temp"];
     ChatbotService.q_date_range := None;
     ChatbotService.include_raw_data := true;
     ChatbotService.max_records := 2 |}.

Definition no_dates (text : string) : result Z :=
  Raise (ValueError "unknown datetime string").

(** A generator that always draws the first row left. *)
Definition first_left (k : nat) : nat := O.

(* ================================================================== *)
(** * The queries of the tabular store (data_service.py) *)
(* ================================================================== *)

Module DataQueries.

(** [TipoEquipo] (station_data.py) *)
Inductive TipoEquipo : Type :=
| PRO
| VUE_AIR
| AIR.

(** The validation of a field of type [TipoEquipo]: the value is one of
    the three labels. *)
Definition validate_tipo (v : option string) : result TipoEquipo :=
  match v with
  | Some t =>
      if String.eqb t "PRO" then Ok PRO
      else if String.eqb t "VUE+AIR" then Ok VUE_AIR
      else if String.eqb t "AIR" then Ok AIR
      else Raise ValidationError
  | None => Raise ValidationError
  end.

(** The validation of a field of type [str]: NaN is a float. *)
Definition validate_str (v : option string) : result string :=
  match v with Some s => Ok s | None => Raise ValidationError end.

Definition numeric_fields : list string :=
  ["temp"; "humedad"; "presion"; "viento_vel"; "viento_dir";
   "pm_1"; "pm_2_5"; "pm_10"; "ica"; "precipitacion"].

Definition imputed_fields : list string :=
  ["temp_imputed"; "humedad_imputed"; "presion_imputed"; "viento_vel_imputed";
   "viento_dir_imputed"; "ica_imputed"; "precipitacion_imputed"].

(** [StationData]: the numeric fields after [validate_numeric_fields]
    (NaN is None) and the flags after [validate_imputed_fields] (NaN is
    False, a number is its truth value). *)
Record StationData : Type := {
  sd_timestamp : Z;
  sd_station_id : Z;
  sd_station_name : string;
  sd_tipo_equipo : TipoEquipo;
  sd_lat : option Q;
  sd_lon : option Q;
  sd_numeric : Py.dict (option Q);
  sd_imputed : Py.dict bool
}.

Definition flag_of (v : option Q) : bool :=
  match v with
  | Some q => negb (Qeq_bool q 0)
  | None => false
  end.

(** The model [StationData] built from the dict of a row. *)
Definition station_data_of (df : DataFrame) (row : Row) : result StationData :=
  let* name := validate_str (station_name row) in
  let* tipo := validate_tipo (tipo_equipo row) in
  Ok {| sd_timestamp := timestamp row;
        sd_station_id := station_id row;
        sd_station_name := name;
        sd_tipo_equipo := tipo;
        sd_lat := lat row;
        sd_lon := lon row;
        sd_numeric := map (fun f => (f, measure df f row)) numeric_fields;
        sd_imputed := map (fun f => (f, flag_of (measure df f row))) imputed_fields |}.

Fixpoint models {A B : Type} (f : A -> result B) (l : list A) : result (list B) :=
  match l with
  | [] => Ok []
  | x :: t =>
      let* y := f x in
      let* ys := models f t in
      Ok (y :: ys)
  end.

(** The rows from [start_date] on and up to [end_date], each bound
    applied when it is given.  The bounds are instants, as the
    timestamps are. *)
Definition between (start_date end_date : option Z) (r : Row) : bool :=
  match start_date with Some s => s <=? timestamp r | None => true end
  && match end_date with Some e => timestamp r <=? e | None => true end.

(** [get_station_data], for bounds that are timezone-aware. *)
Definition get_station_data (df : DataFrame) (station_id : Z)
    (start_date end_date : option Z) : result (list StationData) :=
  let station_df := with_station station_id (rows df) in
  let station_df := filter (between start_date end_date) station_df in
  models (station_data_of df) station_df.

(** [MapDataPoint] *)
Record MapDataPoint : Type := {
  mp_station_id : Z;
  mp_station_name : string;
  mp_lat : option Q;
  mp_lon : option Q;
  mp_timestamp : Z;
  mp_temp : option Q;
  mp_humedad : option Q;
  mp_presion : option Q;
  mp_pm_2_5 : option Q;
  mp_ica : option Q;
  mp_precipitacion : option Q
}.

(** [timedelta(minutes=n)] in nanoseconds. *)
Definition minutes (n : Z) : Z := n * 60 * 1000000000.

(** [station_data.loc[station_data['time_diff'].idxmin()]]: the first
    row at the least distance from the instant. *)
Definition closest (instant : Z) (first : Row) (others : list Row) : Row :=
  fold_left
    (fun best x =>
       if Z.abs (timestamp x - instant) <? Z.abs (timestamp best - instant) then x else best)
    others first.

(** [closest_record[col]] for a measurement: indexing the record by a
    column that the frame lacks raises KeyError. *)
Definition record_at (df : DataFrame) (col : string) (closest_record : Row)
  : result (option Q) :=
  if existsb (String.eqb col) (measure_columns df)
  then Ok (Py.get col (values closest_record))
  else Raise (KeyError col).

(** The [MapDataPoint] of a record: its arguments are evaluated first,
    then the model is validated. *)
Definition map_point (df : DataFrame) (closest_record : Row) : result MapDataPoint :=
  let* temp := record_at df "temp" closest_record in
  let* humedad := record_at df "humedad" closest_record in
  let* presion := record_at df "presion" closest_record in
  let* pm_2_5 := record_at df "pm_2_5" closest_record in
  let* ica := record_at df "ica" closest_record in
  let* precipitacion := record_at df "precipitacion" closest_record in
  let* name := validate_str (station_name closest_record) in
  Ok {| mp_station_id := station_id closest_record;
        mp_station_name := name;
        mp_lat := lat closest_record;
        mp_lon := lon closest_record;
        mp_timestamp := timestamp closest_record;
        mp_temp := temp;
        mp_humedad := humedad;
        mp_presion := presion;
        mp_pm_2_5 := pm_2_5;
        mp_ica := ica;
        mp_precipitacion := precipitacion |}.

Fixpoint closest_loop (df : DataFrame) (instant : Z) (filtered_df : list Row) (ids : list Z)
  : result (list MapDataPoint) :=
  match ids with
  | [] => Ok []
  | station_id :: rest =>
      match with_station station_id filtered_df with
      | [] => Raise (ValueError "attempt to get argmin of an empty sequence")
      | first :: others =>
          let* point := map_point df (closest instant first others) in
          let* closest_data := closest_loop df instant filtered_df rest in
          Ok (point :: closest_data)
      end
  end.

(** [get_map_data], for a timestamp that is timezone-aware. *)
Definition get_map_data (df : DataFrame) (instant tolerance_minutes : Z)
  : result (list MapDataPoint) :=
  let start_time := instant - minutes tolerance_minutes in
  let end_time := instant + minutes tolerance_minutes in
  let filtered_df :=
    filter (fun r => (start_time <=? timestamp r) && (timestamp r <=? end_time)) (rows df) in
  closest_loop df instant filtered_df (station_ids filtered_df).

End DataQueries.

(* ================================================================== *)
(** * The routes of the stations (stations_controller.py) *)
(* ================================================================== *)

Module StationsRouter.

Inductive method : Type :=
| GET
| POST.

Definition method_eqb (a b : method) : bool :=
  match a, b with
  | GET, GET | POST, POST => true
  | _, _ => false
  end.

(** A piece of a path between two slashes: a literal, or a parameter,
    which matches any piece that is not empty. *)
Inductive piece : Type :=
| Lit (s : string)
| Param (name : string).

Inductive endpoint : Type :=
| get_all_stations
| get_airlink_stations
| get_station_data
| get_map_snapshot
| get_animation_data
| get_time_series
| get_data_summary
| get_all_stations_averages
| get_station_detailed_data
| get_station_daily_averages.

(** The routes of the router, under its prefix "/stations", in the order
    of their decorators. *)
Definition routes : list (method * list piece * endpoint) :=
  [ (GET, [Lit ""], get_all_stations);
    (GET, [Lit "airlink"], get_airlink_stations);
    (GET, [Param "station_id"], get_station_data);
    (GET, [Lit "map"; Lit "snapshot"], get_map_snapshot);
    (POST, [Lit "map"; Lit "animation"], get_animation_data);
    (POST, [Lit "timeseries"], get_time_series);
    (GET, [Lit "summary"; Lit "data"], get_data_summary);
    (GET, [Lit "averages"], get_all_stations_averages);
    (GET, [Param "station_id"; Lit "detailed-data"], get_station_detailed_data);
    (GET, [Param "station_id"; Lit "averages"], get_station_daily_averages) ].

Definition piece_matches (p : piece) (s : string) : bool :=
  match p with
  | Lit l => String.eqb l s
  | Param _ => negb (String.eqb s "")
  end.

Fixpoint path_matches (pattern : list piece) (path : list string) : bool :=
  match pattern, path with
  | [], [] => true
  | p :: ps, s :: ss => piece_matches p s && path_matches ps ss
  | _, _ => false
  end.

(** The endpoint of a request: the first route, in the order of the
    table, whose method and path both match. *)
Definition dispatch (m : method) (path : list string) : option endpoint :=
  option_map snd
    (find (fun r => method_eqb (fst (fst r)) m && path_matches (snd (fst r)) path) routes).

End StationsRouter.

(* ================================================================== *)
(** * The endpoints of the store and of the chat *)
(* ================================================================== *)

Module Endpoints.

Inductive detail : Type :=
| ErrorInternoDelServidor
| EstacionNoEncontrada
| ErrorProcesandoElMensaje
| GeminiNoDisponible
| ErrorInternoProcesandoLaExplicacion (e : exn).

Inductive response (A : Type) : Type :=
| Return (body : A)
| HTTPException (status_code : Z) (d : detail).
Arguments Return {A} body.
Arguments HTTPException {A} status_code d.

(** The status of the answer; a body that is returned is sent with 200
    when FastAPI can encode it. *)
Definition status {A : Type} (r : response A) : Z :=
  match r with
  | Return _ => 200
  | HTTPException code _ => code
  end.

(** A [datetime] of a query parameter: with an offset it is an instant,
    without one it is naive, a reading of the clock in no zone. *)
Inductive datetime : Type :=
| Aware (instant : Z)
| Naive (wall_clock : Z).

(** The comparison of the column of the timestamps, which is
    timezone-aware, with a datetime of the query: pandas raises
    TypeError for a naive one, whatever the rows. *)
Definition comparable (d : datetime) : result Z :=
  match d with
  | Aware instant => Ok instant
  | Naive _ => Raise TypeError
  end.

Definition comparable_bound (d : option datetime) : result (option Z) :=
  match d with
  | Some d => let* instant := comparable d in Ok (Some instant)
  | None => Ok None
  end.

(** [data_service.get_station_data] on the datetimes of the query. *)
Definition station_data_at (df : DataFrame) (station_id : Z)
    (start_date end_date : option datetime) : result (list DataQueries.StationData) :=
  let* start_date := comparable_bound start_date in
  let* end_date := comparable_bound end_date in
  DataQueries.get_station_data df station_id start_date end_date.

(** GET /stations/{station_id} *)
Definition get_station_data (df : DataFrame) (station_id : Z)
    (start_date end_date : option datetime) : response (list DataQueries.StationData) :=
  match station_data_at df station_id start_date end_date with
  | Ok [] => HTTPException 404 EstacionNoEncontrada
  | Ok data => Return data
  | Raise _ => HTTPException 500 ErrorInternoDelServidor
  end.

(** GET /stations/map/snapshot *)
Definition get_map_snapshot (df : DataFrame) (instant : datetime) (tolerance_minutes : Z)
  : response (list DataQueries.MapDataPoint) :=
  match (let* instant := comparable instant in
         DataQueries.get_map_data df instant tolerance_minutes) with
  | Ok map_data => Return map_data
  | Raise _ => HTTPException 500 ErrorInternoDelServidor
  end.

(** The text of a [ChatResponse], whose status is "success". *)
Inductive chat_text : Type :=
| Respuesta (r : ChatbotService.respuesta)
| NoPudeGenerarUnaExplicacion.

(** POST /chatbot/message *)
Definition send_chat_message (svc : ChatbotService.self) (message : string)
  : chat (response chat_text) :=
  chat_bind (ChatbotService.responder_pregunta svc message)
    (fun response_text => Done (Return (Respuesta response_text))).

(** [ChatbotService.responder_con_gemini]: the forced use of the model. *)
Definition responder_con_gemini (svc : ChatbotService.self) (pregunta : string)
  : chat (result ChatbotService.respuesta) :=
  if negb (ChatbotService.cs_has_gemini svc)
  then Done (Raise (OtherError "Exception"))
  else chat_bind (ChatbotService._responder_con_gemini svc pregunta) (fun r => Done (Ok r)).

(** [not response_text or response_text.strip() == ""]: of the replies
    only the text of the model can be blank. *)
Definition is_blank (r : ChatbotService.respuesta) : bool :=
  match r with
  | ChatbotService.RespuestaGemini texto => String.eqb (PyStr.strip texto) ""
  | _ => false
  end.

(** POST /chatbot/explain *)
Definition explain_data_with_gemini (svc : ChatbotService.self) (message : string)
  : chat (response chat_text) :=
  if negb (ChatbotService.cs_has_gemini svc)
  then Done (HTTPException 503 GeminiNoDisponible)
  else
    chat_bind (responder_con_gemini svc message)
      (fun r =>
         match r with
         | Ok response_text =>
             if is_blank response_text then Done (Return NoPudeGenerarUnaExplicacion)
             else Done (Return (Respuesta response_text))
         | Raise e => Done (HTTPException 500 (ErrorInternoProcesandoLaExplicacion e))
         end).

End Endpoints.

(** ** Notions of the further statements *)

(** A computation that calls the model once at most. *)
Definition at_most_one_call {A : Type} (c : chat A) : Prop :=
  match c with
  | Done _ => True
  | AskGemini _ _ k => forall r, exists a, k r = Done a
  end.

(** The number of the readings of a station in a list. *)
Definition readings_of (sid : Z) (l : list Row) : nat := List.length (with_station sid l).


(** A frame with a station whose readings are all labelled AIR, beside
    the stations of the sample. *)
Definition sample_airlink : DataFrame :=
  {| measure_columns := ["temp"; "humedad"; "ica"; "pm_2_5"];
     rows :=
       {| timestamp := 1704078000000000000; station_id := 5;
          station_name := Some "Parque"; tipo_equipo := Some "AIR";
          lat := Some (7 # 1); lon := Some (-73 # 1);
          values := [("pm_2_5", 12 # 1)] |} :: rows sample_day |}.

(** The keys of the averages that the map component reads, and the
    field of "data" that holds each. *)
Definition map_component_keys : list string :=
  ["temp"; "humedad"; "pm_1"; "pm_2_5"; "pm_10"; "ica"; "precipitacion"].

Definition data_field (key : string) (d : StationsService.Formatted) : option Q :=
  if String.eqb key "temp" then StationsService.f_temp d
  else if String.eqb key "humedad" then StationsService.f_hum d
  else if String.eqb key "pm_1" then StationsService.f_pm_1p0 d
  else if String.eqb key "pm_2_5" then StationsService.f_pm_2p5 d
  else if String.eqb key "pm_10" then StationsService.f_pm_10p0 d
  else if String.eqb key "ica" then StationsService.f_ica d
  else if String.eqb key "precipitacion" then StationsService.f_precipitacion d
  else None.


(** Every result of a computation, whatever the model answers, has the
    property [P]. *)
Fixpoint all_results {A : Type} (P : A -> Prop) (c : chat A) : Prop :=
  match c with
  | Done a => P a
  | AskGemini _ _ k => forall r, all_results P (k r)
  end.

(** [self] but for the menu. *)
Definition same_service (s s' : GeminiChatService.self) : Prop :=
  GeminiChatService.has_gemini s' = GeminiChatService.has_gemini s
  /\ GeminiChatService.chatbot_service s' = GeminiChatService.chatbot_service s.

(** The replies of the chat to the option of the list of the stations. *)
Definition is_station_list (r : GeminiChatService.response) : Prop :=
  match r with
  | GeminiChatService.EstacionesDisponibles _
  | GeminiChatService.NoHayEstacionesDisponibles
  | GeminiChatService.NoPudeObtenerLaLista => True
  | _ => False
  end.

(** The chat in the menu of the concepts, with an API key. *)
Definition sample_chat_concepts : GeminiChatService.self :=
  {| GeminiChatService.has_gemini := true;
     GeminiChatService.chatbot_service := sample_day;
     GeminiChatService.last_menu_shown := Some GeminiChatService.conceptos |}.

(** A query for the temperature of station 7, one record at most, with
    the raw data. *)
Definition sample_station_query : ChatbotService.ChatbotQuery :=
  {| ChatbotService.q_stations := Some [7];
     ChatbotService.q_variables := Some ["temp"];
     ChatbotService.q_date_range := None;
     ChatbotService.include_raw_data := true;
     ChatbotService.max_records := 1 |}.

(** The measurements that a point of the map reads from its record. *)
Definition map_columns : list string :=
  ["temp"; "humedad"; "presion"; "pm_2_5"; "ica"; "precipitacion"].

(** The sample frame with all the columns that the map reads. *)
Definition sample_map_day : DataFrame :=
  {| measure_columns := ["temp"; "humedad"; "presion"; "pm_2_5"; "ica"; "precipitacion"];
     rows := rows sample_day |}.


(** A model that is out of service. *)
Definition gemini_down (model : string) (prompt : Prompt) : result string :=
  Raise (OtherError "ServerError").

(* ================================================================== *)
(** * Properties *)
(* ================================================================== *)

(** ** Results, lists and dicts *)

Lemma bind_Ok_inv {A B : Type} (r : result A) (k : A -> result B) (b : B) :
  bind r k = Ok b -> exists a, r = Ok a /\ k a = Ok b.
Proof. destruct r as [a|e]; simpl; intros H; [eauto | discriminate]. Qed.

Ltac inv_bind H :=
  let a := fresh "a" in
  let Ha := fresh "Ha" in
  apply bind_Ok_inv in H; destruct H as [a [Ha H]].

Lemma filter_nil_iff {A : Type} (f : A -> bool) (l : list A) :
  (forall x, In x l -> f x = false) -> filter f l = [].
Proof.
  induction l as [|x t IH]; simpl; intros H; [reflexivity|].
  rewrite (H x (or_introl eq_refl)). apply IH. intros y Hy. apply H. now right.
Qed.

Lemma dropna_nil {A : Type} (l : list (option A)) :
  (forall x, In x l -> x = None) -> dropna l = [].
Proof.
  induction l as [|x t IH]; simpl; intros H; [reflexivity|].
  rewrite (H x (or_introl eq_refl)). apply IH. intros y Hy. apply H. now right.
Qed.

Lemma get_set_same {V : Type} (k : string) (v : V) (d : Py.dict V) :
  Py.get k (Py.set k v d) = Some v.
Proof.
  induction d as [|[k' v'] t IH]; simpl.
  - now rewrite String.eqb_refl.
  - destruct (String.eqb k k') eqn:E; simpl; rewrite E; [reflexivity | exact IH].
Qed.

Lemma get_set_other {V : Type} (k k0 : string) (v : V) (d : Py.dict V) :
  k0 <> k -> Py.get k0 (Py.set k v d) = Py.get k0 d.
Proof.
  intros Hne. induction d as [|[k' v'] t IH]; simpl.
  - destruct (String.eqb k0 k) eqn:E; [apply String.eqb_eq in E; contradiction | reflexivity].
  - destruct (String.eqb k k') eqn:E; simpl.
    + apply String.eqb_eq in E. subst k'.
      destruct (String.eqb k0 k) eqn:E0; [apply String.eqb_eq in E0; contradiction | reflexivity].
    + destruct (String.eqb k0 k'); [reflexivity | exact IH].
Qed.

(** ** The day of a date *)

Lemma end_of_day_in_day (dt : Datetime.date) (t : Z) :
  Datetime.start_of_day dt <= t <= Datetime.end_of_day dt -> Datetime.in_day dt t.
Proof.
  unfold Datetime.in_day, Datetime.end_of_day, Datetime.ns_per_day, Datetime.ns_per_us.
  lia.
Qed.

Lemma in_range_in_day (dt : Datetime.date) (r : Row) :
  StationsService.in_range (Datetime.start_of_day dt) (Datetime.end_of_day dt) r = true ->
  Datetime.in_day dt (timestamp r).
Proof.
  unfold StationsService.in_range. intros H.
  apply andb_true_iff in H. destruct H as [H1 H2].
  apply end_of_day_in_day. split; [now apply Z.leb_le | now apply Z.leb_le].
Qed.

(** ** Averages of a day *)

Section Averages.
Import StationsService.



Lemma variable_stats_absent (df : DataFrame) (sd : list Row) (v : string) :
  has_column df v = false \/ (forall r, In r sd -> at_column df v r = None) ->
  variable_stats df sd v = Ok None.
Proof.
  intros [H|H]; unfold variable_stats.
  - now rewrite H.
  - destruct (has_column df v); [|reflexivity].
    rewrite dropna_nil; [reflexivity|].
    intros x Hx. apply in_map_iff in Hx. destruct Hx as [r [<- Hr]]. now apply H.
Qed.

Lemma variable_stats_count (df : DataFrame) (sd : list Row) (v : string) (st : VarStats) :
  variable_stats df sd v = Ok (Some st) -> (0 < count st)%nat.
Proof.
  unfold variable_stats.
  destruct (has_column df v); [|discriminate].
  destruct (dropna (map (at_column df v) sd)) as [|x t] eqn:E; simpl; [discriminate|].
  intros H. inv_bind H. injection H as <-. simpl. lia.
Qed.

Lemma averages_loop_sound (df : DataFrame) (sd : list Row) (vars : list string) :
  forall acc d,
    averages_loop df sd vars acc = Ok d ->
    (forall k s, Py.get k acc = Some s -> variable_stats df sd k = Ok s) ->
    forall k s, Py.get k d = Some s -> variable_stats df sd k = Ok s.
Proof.
  induction vars as [|v rest IH]; simpl; intros acc d H Hacc k s Hk.
  - injection H as <-. now apply Hacc.
  - inv_bind H. apply (IH _ _ H); [|exact Hk].
    intros k0 s0 Hk0.
    destruct (string_dec k0 v) as [->|Hne].
    + rewrite get_set_same in Hk0. now injection Hk0 as <-.
    + rewrite get_set_other in Hk0 by exact Hne. now apply Hacc.
Qed.

Lemma averages_loop_complete (df : DataFrame) (sd : list Row) (vars : list string) :
  forall acc d,
    averages_loop df sd vars acc = Ok d ->
    forall v, In v vars \/ Py.get v acc <> None -> Py.get v d <> None.
Proof.
  induction vars as [|v0 rest IH]; simpl; intros acc d H v Hv.
  - injection H as <-. destruct Hv as [[]|Hv]; exact Hv.
  - inv_bind H. apply (IH _ _ H).
    destruct (string_dec v v0) as [->|Hne].
    + right. now rewrite get_set_same.
    + destruct Hv as [[Hv|Hv]|Hv].
      * now subst.
      * now left.
      * right. now rewrite get_set_other.
Qed.

Lemma averages_loop_get (df : DataFrame) (sd : list Row) (vars : list string)
    (d : Py.dict (option VarStats)) (v : string) :
  averages_loop df sd vars [] = Ok d -> In v vars ->
  exists s, Py.get v d = Some s /\ variable_stats df sd v = Ok s.
Proof.
  intros H Hv.
  destruct (Py.get v d) as [s|] eqn:E.
  - exists s. split; [reflexivity|].
    apply (averages_loop_sound df sd vars [] d H); [|exact E].
    intros k s0 Hk. discriminate.
  - exfalso. apply (averages_loop_complete df sd vars [] d H v); [now left | exact E].
Qed.

Lemma stations_loop_In (df : DataFrame) (vars : list string) (daily : list Row) (ids : list Z) :
  forall l st,
    stations_loop df vars daily ids = Ok l -> In st l ->
    exists sid info rest,
      In sid ids /\ with_station sid daily = info :: rest /\
      station_result df vars sid (with_station sid daily) info = Ok st.
Proof.
  induction ids as [|sid ids IH]; simpl; intros l st H Hst.
  - injection H as <-. destruct Hst.
  - destruct (with_station sid daily) as [|info rest] eqn:E.
    + destruct (IH _ _ H Hst) as [sid' [info' [rest' [H1 [H2 H3]]]]].
      exists sid', info', rest'. auto.
    + inv_bind H. inv_bind H. injection H as <-.
      destruct Hst as [<-|Hst].
      * exists sid, info, rest. rewrite E. auto.
      * destruct (IH _ _ Ha0 Hst) as [sid' [info' [rest' [H1 [H2 H3]]]]].
        exists sid', info', rest'. auto.
Qed.

(** C2. In the result for a day, a requested variable of a station for
    which the frame has no column, or for which every reading of the
    station in the day is absent, is reported as None; and a statistic
    that is reported was computed over at least one sample, so the mean
    never divides by zero. *)
Theorem absent_variable_is_unavailable
    (df : DataFrame) (fecha : string) (vars : option (list string)) (dt : Datetime.date)
    (res : AveragesResult) (st : StationResult) (v : string) :
  Datetime.strptime fecha = Ok dt ->
  get_all_stations_averages df fecha vars = Ok res ->
  In st (stations res) ->
  In v (effective vars) ->
  (has_column df v = false \/
   forall r, In r (rows df) -> station_id r = sr_station_id st ->
             Datetime.in_day dt (timestamp r) -> at_column df v r = None) ->
  Py.get v (raw_averages st) = Some None /\
  (forall k stats, Py.get k (raw_averages st) = Some (Some stats) -> (0 < count stats)%nat).
Proof.
  intros Hparse Hres Hst Hv Habs.
  unfold get_all_stations_averages in Hres. rewrite Hparse in Hres. simpl in Hres.
  set (daily := filter (in_range (Datetime.start_of_day dt) (Datetime.end_of_day dt)) (rows df)) in *.
  destruct (is_empty daily).
  { injection Hres as <-. destruct Hst. }
  inv_bind Hres. injection Hres as <-. simpl in Hst.
  destruct (stations_loop_In _ _ _ _ _ _ Ha Hst) as [sid [info [rest [Hsid [Hgroup Hsr]]]]].
  unfold station_result in Hsr. inv_bind Hsr. injection Hsr as <-. simpl in *.
  fold (effective vars) in Ha0.
  split.
  - destruct (averages_loop_get _ _ _ _ v Ha0 Hv) as [s [Hget Hs]].
    rewrite Hget. f_equal.
    rewrite variable_stats_absent in Hs; [now injection Hs as <-|].
    destruct Habs as [Hcol|Hrows]; [now left | right].
    intros r Hr. unfold with_station in Hr.
    apply filter_In in Hr. destruct Hr as [Hr Hsame].
    apply filter_In in Hr. destruct Hr as [Hr Hin].
    apply Hrows; [exact Hr | now apply Z.eqb_eq | now apply in_range_in_day].
  - intros k stats Hk.
    apply (variable_stats_count df (with_station sid daily) k).
    apply (averages_loop_sound _ _ _ [] a0 Ha0); [|exact Hk].
    intros k0 s0 Hk0. discriminate.
Qed.

Lemma absent_variable_is_unavailable_witness :
  exists res st,
    get_all_stations_averages sample_day "2024-01-01" None = Ok res /\
    nth_error (stations res) 0 = Some st /\
    Py.get "humedad" (raw_averages st) = Some None.
Proof.
  destruct (get_all_stations_averages sample_day "2024-01-01" None) as [res|e] eqn:E;
    [|vm_compute in E; discriminate].
  destruct (nth_error (stations res) 0) as [st|] eqn:E0;
    [|vm_compute in E; injection E as <-; discriminate].
  exists res, st. split; [reflexivity|]. split; [exact E0|].
  apply (absent_variable_is_unavailable sample_day "2024-01-01" None
           {| Datetime.year := 2024; Datetime.month := 1; Datetime.day := 1 |} res st "humedad").
  - reflexivity.
  - exact E.
  - now apply nth_error_In with (n := O).
  - simpl. auto.
  - right. intros r Hr _ _. simpl in Hr.
    destruct Hr as [<-|[<-|[<-|[]]]]; reflexivity.
Defined.

End Averages.

(** ** Sorting and distinct values *)

Section SortFacts.
Context {A : Type} (le : A -> A -> bool).
Hypothesis le_total : forall x y, le x y = true \/ le y x = true.
Hypothesis le_trans : forall x y z, le x y = true -> le y z = true -> le x z = true.

Lemma insert_In (x y : A) (l : list A) : In y (Py.insert le x l) <-> y = x \/ In y l.
Proof.
  induction l as [|z t IH]; simpl.
  - intuition.
  - destruct (le x z); simpl; [intuition|]. rewrite IH. intuition.
Qed.

Lemma sort_In (y : A) (l : list A) : In y (Py.sort le l) <-> In y l.
Proof.
  induction l as [|x t IH]; simpl; [reflexivity|].
  rewrite insert_In, IH. intuition.
Qed.

Lemma insert_sorted (x : A) (l : list A) :
  StronglySorted (holds le) l -> StronglySorted (holds le) (Py.insert le x l).
Proof.
  induction 1 as [|z t Hs IH Hz]; simpl.
  - constructor; constructor.
  - destruct (le x z) eqn:E.
    + constructor; [now constructor|].
      constructor; [exact E|].
      apply Forall_forall. intros w Hw.
      apply (le_trans x z w E). rewrite Forall_forall in Hz. now apply Hz.
    + constructor; [exact IH|].
      apply Forall_forall. intros w Hw. apply insert_In in Hw.
      destruct Hw as [->|Hw].
      * destruct (le_total x z) as [H|H]; [congruence | exact H].
      * rewrite Forall_forall in Hz. now apply Hz.
Qed.

Lemma sort_sorted (l : list A) : StronglySorted (holds le) (Py.sort le l).
Proof.
  induction l as [|x t IH]; simpl; [constructor | now apply insert_sorted].
Qed.

Lemma filter_sorted (f : A -> bool) (l : list A) :
  StronglySorted (holds le) l -> StronglySorted (holds le) (filter f l).
Proof.
  induction 1 as [|z t Hs IH Hz]; simpl; [constructor|].
  destruct (f z); [|exact IH].
  constructor; [exact IH|].
  apply Forall_forall. intros w Hw. apply filter_In in Hw.
  rewrite Forall_forall in Hz. now apply Hz.
Qed.

(** The head of a group of a sorted frame is below every row of the group. *)
Lemma sorted_group_head (f : A -> bool) (l : list A) (h : A) (t : list A) :
  filter f (Py.sort le l) = h :: t ->
  forall r, In r l -> f r = true -> r = h \/ le h r = true.
Proof.
  intros Hg r Hr Hf.
  assert (Hs : StronglySorted (holds le) (h :: t)).
  { rewrite <- Hg. apply filter_sorted, sort_sorted. }
  assert (Hin : In r (h :: t)).
  { rewrite <- Hg. apply filter_In. split; [now apply sort_In | exact Hf]. }
  apply StronglySorted_inv in Hs. destruct Hs as [_ Hall].
  destruct Hin as [->|Hin]; [now left | right].
  rewrite Forall_forall in Hall. now apply Hall.
Qed.

End SortFacts.

Lemma existsb_Zeqb (x : Z) (l : list Z) : existsb (Z.eqb x) l = true <-> In x l.
Proof.
  rewrite existsb_exists. split.
  - intros [y [Hy E]]. apply Z.eqb_eq in E. now subst.
  - intros H. exists x. split; [exact H | apply Z.eqb_refl].
Qed.

Lemma unique_from_In (l : list Z) :
  forall seen x, In x (Py.unique_from Z.eqb seen l) <-> In x l /\ ~ In x seen.
Proof.
  induction l as [|y t IH]; simpl; intros seen x.
  - intuition.
  - destruct (existsb (Z.eqb y) seen) eqn:E.
    + apply existsb_Zeqb in E. rewrite IH. intuition. subst. contradiction.
    + assert (Hy : ~ In y seen).
      { intros H. apply existsb_Zeqb in H. congruence. }
      simpl. rewrite IH. simpl.
      destruct (Z.eq_dec y x) as [->|Hne]; intuition.
Qed.

Lemma unique_from_NoDup (l : list Z) : forall seen, NoDup (Py.unique_from Z.eqb seen l).
Proof.
  induction l as [|y t IH]; simpl; intros seen; [constructor|].
  destruct (existsb (Z.eqb y) seen); [apply IH|].
  constructor; [|apply IH].
  rewrite unique_from_In. simpl. intuition.
Qed.

Lemma station_ids_In (l : list Row) (sid : Z) :
  In sid (station_ids l) <-> exists r, In r l /\ station_id r = sid.
Proof.
  unfold station_ids, Py.unique. rewrite unique_from_In, in_map_iff.
  split.
  - intros [[r [H1 H2]] _]. eauto.
  - intros [r [H1 H2]]. split; [eauto | intros []].
Qed.

Lemma filter_eqb_NoDup (l : list Z) (x : Z) :
  NoDup l -> In x l -> filter (fun y => y =? x) l = [x].
Proof.
  induction 1 as [|y t Hy Hnd IH]; simpl; intros Hin; [destruct Hin|].
  destruct (Z.eqb_spec y x) as [->|Hne].
  - f_equal. apply filter_nil_iff. intros z Hz.
    apply Z.eqb_neq. intros ->. contradiction.
  - destruct Hin as [->|Hin]; [contradiction | now apply IH].
Qed.

Lemma filter_map_comm {A B : Type} (f : B -> bool) (g : A -> B) (l : list A) :
  filter f (map g l) = map g (filter (fun x => f (g x)) l).
Proof.
  induction l as [|x t IH]; simpl; [reflexivity|].
  destruct (f (g x)); simpl; now rewrite IH.
Qed.

(** ** The canonical station list *)

Section Summary.
Import StationsService.

Lemma by_station_priority_iff (a b : Row) :
  by_station_priority a b = true <->
  station_id a < station_id b \/
  (station_id a = station_id b /\ priority (tipo_equipo a) <= priority (tipo_equipo b)).
Proof.
  unfold by_station_priority.
  rewrite orb_true_iff, andb_true_iff, Z.ltb_lt, Z.eqb_eq, Z.leb_le. reflexivity.
Qed.

Lemma by_station_priority_total (a b : Row) :
  by_station_priority a b = true \/ by_station_priority b a = true.
Proof. rewrite !by_station_priority_iff. lia. Qed.

Lemma by_station_priority_trans (a b c : Row) :
  by_station_priority a b = true -> by_station_priority b c = true ->
  by_station_priority a c = true.
Proof. rewrite !by_station_priority_iff. lia. Qed.

Lemma priority_bounds (t : option string) : 1 <= priority t <= 999.
Proof.
  destruct t as [t|]; simpl; [|lia].
  destruct (String.eqb t "VUE+AIR"); [lia|].
  destruct (String.eqb t "PRO"); [lia|].
  destruct (String.eqb t "AIR"); lia.
Qed.

Lemma priority_first (t : option string) : priority t = 1 -> t = Some "VUE+AIR".
Proof.
  destruct t as [t|]; simpl; [|discriminate].
  destruct (String.eqb t "VUE+AIR") eqn:E.
  - apply String.eqb_eq in E. now subst.
  - destruct (String.eqb t "PRO"); [discriminate|].
    destruct (String.eqb t "AIR"); discriminate.
Qed.

Lemma priority_missing : priority None = 999.
Proof. reflexivity. Qed.

(** The label of a group is a label of least priority in the group. *)
Lemma group_label_least (l : list Row) (sid : Z) (r : Row) :
  In r l -> station_id r = sid ->
  priority (se_tipo_equipo (group_first (Py.sort by_station_priority l) sid))
  <= priority (tipo_equipo r).
Proof.
  intros Hr Hsid. unfold group_first. simpl. unfold with_station.
  destruct (filter (is_station sid) (Py.sort by_station_priority l)) as [|h t] eqn:E.
  - exfalso.
    assert (Hin : In r (filter (is_station sid) (Py.sort by_station_priority l))).
    { apply filter_In. split; [now apply sort_In|]. unfold is_station. now apply Z.eqb_eq. }
    rewrite E in Hin. destruct Hin.
  - assert (Hh : In h (h :: t)) by now left.
    rewrite <- E in Hh. apply filter_In in Hh. destruct Hh as [_ Hh].
    unfold is_station in Hh. apply Z.eqb_eq in Hh.
    assert (Hle : priority (tipo_equipo h) <= priority (tipo_equipo r)).
    { destruct (sorted_group_head by_station_priority by_station_priority_total
                  by_station_priority_trans (is_station sid) l h t E r Hr) as [->|H].
      - unfold is_station. now apply Z.eqb_eq.
      - lia.
      - apply by_station_priority_iff in H. lia. }
    simpl. destruct (tipo_equipo h) as [x|] eqn:Eh; [exact Hle|].
    rewrite priority_missing in Hle.
    pose proof (priority_bounds (Py.first_some tipo_equipo t)). lia.
Qed.

Lemma summary_label_has_least_priority (df : DataFrame) (e : StationEntry) (r : Row) :
  In e (ss_stations (get_stations_summary df)) ->
  In r (rows df) -> station_id r = se_station_id e ->
  priority (se_tipo_equipo e) <= priority (tipo_equipo r).
Proof.
  unfold get_stations_summary. simpl. intros He Hr Hsid.
  apply in_map_iff in He. destruct He as [sid [<- _]].
  simpl in Hsid. now apply group_label_least.
Qed.

(** C3. A station with a reading under the combined label VUE+AIR is
    reported exactly once by [get_stations_summary], with the label
    VUE+AIR, whatever other labels its readings carry; the label is one
    of least rank in the order VUE+AIR, PRO, AIR, other. *)
Theorem combined_label_wins (df : DataFrame) (sid : Z) (r : Row) :
  In r (rows df) -> station_id r = sid -> tipo_equipo r = Some "VUE+AIR" ->
  exists e,
    filter (fun e => se_station_id e =? sid) (ss_stations (get_stations_summary df)) = [e]
    /\ se_tipo_equipo e = Some "VUE+AIR"
    /\ forall r', In r' (rows df) -> station_id r' = sid ->
                  priority (se_tipo_equipo e) <= priority (tipo_equipo r').
Proof.
  intros Hr Hsid Hlabel.
  exists (group_first (Py.sort by_station_priority (rows df)) sid).
  split; [|split].
  - unfold get_stations_summary. simpl.
    rewrite filter_map_comm. simpl.
    rewrite filter_eqb_NoDup; [reflexivity | apply unique_from_NoDup |].
    apply station_ids_In. exists r. split; [|exact Hsid].
    apply sort_In. exact Hr.
  - apply priority_first.
    pose proof (group_label_least (rows df) sid r Hr Hsid) as H.
    rewrite Hlabel in H. change (priority (Some "VUE+AIR")) with 1 in H.
    pose proof (priority_bounds
                  (se_tipo_equipo (group_first (Py.sort by_station_priority (rows df)) sid))).
    lia.
  - intros r' Hr' Hsid'. now apply group_label_least.
Qed.

Lemma combined_label_wins_witness :
  exists e,
    filter (fun e => se_station_id e =? 7) (ss_stations (get_stations_summary sample_day)) = [e]
    /\ se_tipo_equipo e = Some "VUE+AIR"
    /\ forall r', In r' (rows sample_day) -> station_id r' = 7 ->
                  priority (se_tipo_equipo e) <= priority (tipo_equipo r').
Proof.
  apply (combined_label_wins sample_day 7
           {| timestamp := 1704074400000000000; station_id := 7;
              station_name := Some "Halley UIS"; tipo_equipo := Some "VUE+AIR";
              lat := Some (7 # 1); lon := Some (-73 # 1);
              values := [("temp", 26 # 1); ("ica", 60 # 1)] |}).
  - simpl. auto.
  - reflexivity.
  - reflexivity.
Defined.

End Summary.

(** ** Imputation flags at load *)

Section Flags.
Import DataService.

Lemma map_TRUE_FALSE_loaded (c : cell) : loaded_flag (map_TRUE_FALSE c).
Proof.
  unfold loaded_flag. destruct c as [s| | | |]; simpl; auto.
  destruct (String.eqb s "TRUE"); auto.
  destruct (String.eqb s "FALSE"); auto.
Qed.

Lemma map_TRUE_FALSE_true (c : cell) : map_TRUE_FALSE c = CBool true <-> c = CStr "TRUE".
Proof.
  split.
  - destruct c as [s| | | |]; simpl; try discriminate.
    destruct (String.eqb s "TRUE") eqn:E.
    + apply String.eqb_eq in E. now subst.
    + destruct (String.eqb s "FALSE"); discriminate.
  - intros ->. reflexivity.
Qed.

Lemma map_TRUE_FALSE_false (c : cell) : map_TRUE_FALSE c = CBool false <-> c = CStr "FALSE".
Proof.
  split.
  - destruct c as [s| | | |]; simpl; try discriminate.
    destruct (String.eqb s "TRUE") eqn:E; [discriminate|].
    destruct (String.eqb s "FALSE") eqn:E0; [|discriminate].
    apply String.eqb_eq in E0. now subst.
  - intros ->. reflexivity.
Qed.

Lemma validated_flag (c : cell) :
  StationData.validate_imputed_fields (map_TRUE_FALSE c) = true <-> c = CStr "TRUE".
Proof.
  rewrite <- map_TRUE_FALSE_true.
  destruct (map_TRUE_FALSE_loaded c) as [H|[H|H]]; rewrite H; simpl;
    split; intros H0; first [reflexivity | discriminate].
Qed.

Lemma map_column_names (f : cell -> cell) (c : string) (d : RawFrame) :
  map fst (map_column f c d) = map fst d.
Proof.
  unfold map_column. rewrite map_map. apply map_ext.
  intros [k vs]. simpl. now destruct (String.eqb k c).
Qed.

Lemma map_column_In (f : cell -> cell) (c col : string) (vs : list cell) (d : RawFrame) :
  In (col, vs) (map_column f c d) ->
  (col = c /\ exists vs0, In (col, vs0) d /\ vs = map f vs0) \/ (col <> c /\ In (col, vs) d).
Proof.
  unfold map_column. intros H. apply in_map_iff in H.
  destruct H as [[k vs0] [H Hin]]. simpl in H.
  destruct (String.eqb_spec k c) as [->|Hne].
  - injection H as <- <-. left. eauto.
  - injection H as <- <-. right. auto.
Qed.

Lemma map_column_converted (c col : string) (d : RawFrame) :
  col = c \/ converted d col -> converted (map_column map_TRUE_FALSE c d) col.
Proof.
  intros H vs Hin. apply map_column_In in Hin.
  destruct Hin as [[-> [vs0 [_ ->]]]|[Hne Hin]].
  - apply Forall_forall. intros v Hv. apply in_map_iff in Hv.
    destruct Hv as [c0 [<- _]]. apply map_TRUE_FALSE_loaded.
  - destruct H as [->|H]; [contradiction | now apply H].
Qed.

Lemma fold_converted (cols : list string) :
  forall d col,
    In col cols \/ converted d col ->
    converted (fold_left (fun d c => map_column map_TRUE_FALSE c d) cols d) col.
Proof.
  induction cols as [|c rest IH]; simpl; intros d col H.
  - destruct H as [[]|H]; exact H.
  - apply IH. destruct H as [[->|H]|H].
    + right. apply map_column_converted. now left.
    + now left.
    + right. apply map_column_converted. now right.
Qed.

Lemma fold_names (cols : list string) :
  forall d, map fst (fold_left (fun d c => map_column map_TRUE_FALSE c d) cols d) = map fst d.
Proof.
  induction cols as [|c rest IH]; simpl; intros d; [reflexivity|].
  rewrite IH. apply map_column_names.
Qed.

(** What the load does to the values of a flag: each is true, false or
    NaN afterwards. *)
Lemma loaded_flags
    (to_datetime : list cell -> result (list cell)) (csv df : RawFrame)
    (col : string) (vs : list cell) :
  _load_data to_datetime csv = Ok df ->
  In (col, vs) df -> PyStr.endswith col "_imputed" = true ->
  Forall loaded_flag vs.
Proof.
  intros Hload Hin Hsuf.
  unfold _load_data in Hload. inv_bind Hload. injection Hload as <-.
  apply (fold_converted _ _ col) in Hin; [exact Hin|]. left.
  unfold bool_columns. apply filter_In. split; [|exact Hsuf].
  rewrite <- (fold_names (bool_columns (map (fun cv => (fst cv, map replace_NA (snd cv))) a))).
  apply in_map_iff. exists (col, vs). split; [reflexivity|].
  exact Hin.
Qed.

(** A text that is no key of the map, and a missing value, are NaN
    after the load, not false. *)
Lemma flags_not_booleans_after_load : ~ flags_are_booleans_after_load.
Proof.
  intros H.
  destruct (H keep_timestamps sample_csv
              [ ("timestamp", [CStr "2024-01-01T00:00:00Z"; CStr "2024-01-01T01:00:00Z";
                               CStr "2024-01-01T02:00:00Z"; CStr "2024-01-01T03:00:00Z"]);
                ("temp", [CNum (25 # 1); CNaN; CNum (26 # 1); CNaN]);
                ("temp_imputed", [CBool true; CBool false; CNaN; CNaN]) ]
              "temp_imputed" [CBool true; CBool false; CNaN; CNaN] CNaN) as [b Hb].
  - reflexivity.
  - simpl. auto.
  - reflexivity.
  - simpl. auto.
  - discriminate.
Qed.

(** *** Flags that [read_csv] parsed *)

Lemma map_TRUE_FALSE_parsed (c : cell) : parsed c -> map_TRUE_FALSE c = CNaN.
Proof. destruct c; simpl; [contradiction | reflexivity ..]. Qed.

Lemma replace_NA_parsed (c : cell) : parsed c -> parsed (replace_NA c).
Proof. destruct c; simpl; [contradiction | auto ..]. Qed.

Lemma set_In {V : Type} (k k' : string) (v v' : V) (d : Py.dict V) :
  In (k, v) (Py.set k' v' d) -> (k = k' /\ v = v') \/ In (k, v) d.
Proof.
  induction d as [|[k0 v0] t IH]; simpl.
  - intros [H|[]]. injection H as <- <-. now left.
  - destruct (String.eqb_spec k' k0) as [->|Hne].
    + intros [H|H]; [injection H as <- <-; now left | right; now right].
    + intros [H|H]; [right; now left|].
      destruct (IH H) as [Heq|Hin]; [now left | right; now right].
Qed.

Lemma map_column_all_NaN (c col : string) (d : RawFrame) :
  (c = col /\ all_parsed col d) \/ all_NaN col d ->
  all_NaN col (map_column map_TRUE_FALSE c d).
Proof.
  intros H vs Hin. apply map_column_In in Hin.
  destruct Hin as [[-> [vs0 [Hin0 ->]]]|[Hne Hin]].
  - apply Forall_forall. intros v Hv. apply in_map_iff in Hv.
    destruct Hv as [c0 [<- Hc0]].
    destruct H as [[_ Hp]|Hn].
    + symmetry. apply map_TRUE_FALSE_parsed.
      exact (proj1 (Forall_forall _ _) (Hp vs0 Hin0) c0 Hc0).
    + rewrite <- (proj1 (Forall_forall _ _) (Hn vs0 Hin0) c0 Hc0). reflexivity.
  - destruct H as [[Heq _]|Hn]; [congruence | now apply Hn].
Qed.

Lemma map_column_all_parsed (c col : string) (d : RawFrame) :
  c <> col -> all_parsed col d -> all_parsed col (map_column map_TRUE_FALSE c d).
Proof.
  intros Hne Hp vs Hin. apply map_column_In in Hin.
  destruct Hin as [[-> _]|[_ Hin]]; [congruence | now apply Hp].
Qed.

Lemma fold_all_NaN (col : string) (cols : list string) :
  forall d,
    (In col cols /\ all_parsed col d) \/ all_NaN col d ->
    all_NaN col (fold_left (fun d c => map_column map_TRUE_FALSE c d) cols d).
Proof.
  induction cols as [|c rest IH]; simpl; intros d H.
  - destruct H as [[[] _]|H]; exact H.
  - apply IH. destruct H as [[Hin Hp]|Hn].
    + destruct (String.eqb_spec c col) as [->|Hne].
      * right. apply map_column_all_NaN. left. split; [reflexivity | exact Hp].
      * left. split; [destruct Hin as [Heq|Hin]; [congruence | exact Hin]|].
        now apply map_column_all_parsed.
    + right. apply map_column_all_NaN. now right.
Qed.

(** Every flag that [read_csv] parsed is lost: when the values of a
    flag column are no text (booleans, as for a column of TRUE and
    FALSE, and missing values), they are all NaN after the load,
    because the keys of the map are the texts. *)
Lemma parsed_flags_become_NaN
    (to_datetime : list cell -> result (list cell)) (csv df : RawFrame)
    (col : string) (vs : list cell) :
  _load_data to_datetime csv = Ok df ->
  PyStr.endswith col "_imputed" = true ->
  all_parsed col csv ->
  In (col, vs) df ->
  Forall (eq CNaN) vs.
Proof.
  intros Hload Hsuf Hcsv Hin.
  unfold _load_data in Hload. inv_bind Hload. injection Hload as <-.
  assert (Ha' : all_parsed col a).
  { unfold convert_timestamp in Ha. destruct (Py.get "timestamp" csv); [|discriminate].
    inv_bind Ha. injection Ha as <-.
    intros vs0 H0. apply set_In in H0. destruct H0 as [[-> _]|H0]; [discriminate|].
    now apply Hcsv. }
  set (d0 := map (fun cv => (fst cv, map replace_NA (snd cv))) a) in *.
  assert (Hd0 : all_parsed col d0).
  { intros vs0 H0. unfold d0 in H0. apply in_map_iff in H0.
    destruct H0 as [[k v] [Heq Hkv]]. simpl in Heq. injection Heq as -> <-.
    apply Forall_forall. intros c Hc. apply in_map_iff in Hc.
    destruct Hc as [c0 [<- Hc0]]. apply replace_NA_parsed.
    exact (proj1 (Forall_forall _ _) (Ha' v Hkv) c0 Hc0). }
  apply (fold_all_NaN col (bool_columns d0) d0); [|exact Hin].
  left. split; [|exact Hd0].
  unfold bool_columns. apply filter_In. split; [|exact Hsuf].
  rewrite <- (fold_names (bool_columns d0)).
  apply in_map_iff. exists (col, vs). split; [reflexivity | exact Hin].
Qed.

(** C4 at the failing input. A column of flags that holds TRUE and
    FALSE alone is read by [read_csv] as booleans; the load looks each
    value up in a map whose keys are the texts TRUE and FALSE, so every
    flag is NaN afterwards, the true ones too, and is read as false by
    the validator of [StationData].  So is a column with a missing
    value beside the booleans. *)
Theorem parsed_flags_are_lost_at_load :
  exists df,
    _load_data keep_timestamps sample_parsed_csv = Ok df
    /\ Py.get "temp_imputed" sample_parsed_csv = Some [CBool true; CBool false]
    /\ Py.get "temp_imputed" df = Some [CNaN; CNaN]
    /\ Py.get "ica_imputed" sample_parsed_csv = Some [CBool true; CNaN]
    /\ Py.get "ica_imputed" df = Some [CNaN; CNaN]
    /\ map StationData.validate_imputed_fields [CNaN; CNaN] = [false; false]
    /\ ~ (forall v, In v [CNaN; CNaN] -> exists b, v = CBool b).
Proof.
  eexists. split; [vm_compute; reflexivity|].
  repeat (split; [reflexivity|]).
  intros H. destruct (H CNaN (or_introl eq_refl)) as [b Hb]. discriminate.
Qed.

End Flags.

(** ** The heuristic responder *)

Section Heuristics.
Import ChatbotService.

Lemma respuestas_heuristicas_keys (df : DataFrame) (tabla : Py.dict respuesta) :
  respuestas_heuristicas df = Ok tabla -> map fst tabla = phrase_keys.
Proof.
  unfold respuestas_heuristicas. intros H.
  inv_bind H. inv_bind H. injection H as <-. reflexivity.
Qed.

Lemma respuestas_heuristicas_built (df : DataFrame) :
  rows df <> [] -> exists tabla, respuestas_heuristicas df = Ok tabla.
Proof.
  intros H. unfold respuestas_heuristicas.
  destruct (rows df) as [|r t] eqn:E; [contradiction|].
  simpl. eauto.
Qed.

Lemma get_in_keys {V : Type} (k : string) (d : Py.dict V) :
  In k (map fst d) -> exists v, Py.get k d = Some v.
Proof.
  induction d as [|[k' v'] t IH]; simpl; intros H; [destruct H|].
  destruct (String.eqb_spec k k') as [->|Hne]; [eauto|].
  destruct H as [H|H]; [congruence | now apply IH].
Qed.

Lemma responder_exact_match (svc : self) (pregunta : string)
    (tabla : Py.dict respuesta) (answer : respuesta) :
  respuestas_heuristicas (cs_df svc) = Ok tabla ->
  Py.get (PyStr.strip (PyStr.lower pregunta)) tabla = Some answer ->
  responder_pregunta svc pregunta = Done answer.
Proof.
  intros Ht Hget. unfold responder_pregunta, _responder_heuristico.
  rewrite Ht. simpl. now rewrite Hget.
Qed.

(** Whatever the frame, a question that is a key of the table is
    answered without a call to the model. *)
Lemma exact_phrase_never_calls_ai (svc : self) (pregunta : string) :
  In (PyStr.strip (PyStr.lower pregunta)) phrase_keys ->
  no_ai_call (responder_pregunta svc pregunta).
Proof.
  intros Hkey. unfold no_ai_call.
  destruct (respuestas_heuristicas (cs_df svc)) as [tabla|e] eqn:Ht.
  - rewrite <- (respuestas_heuristicas_keys _ _ Ht) in Hkey.
    destruct (get_in_keys _ _ Hkey) as [answer Hget].
    exists answer. now apply responder_exact_match with (tabla := tabla).
  - exists OcurrioUnError. unfold responder_pregunta, _responder_heuristico.
    now rewrite Ht.
Qed.

Lemma respuestas_heuristicas_empty (df : DataFrame) :
  rows df = [] -> exists e, respuestas_heuristicas df = Raise e.
Proof. intros H. unfold respuestas_heuristicas. rewrite H. simpl. eauto. Qed.

(** C5, as the code has it. A question whose lower-cased, trimmed form
    is a key of the phrase table is answered by [responder_pregunta]
    with no call to the model, with or without an API key.  On a frame
    with one reading at least the answer is the entry of the table; for
    the key "cuántas estaciones hay" the entry is the count of the
    distinct stations.  On a frame without rows the table is not built
    and the answer is the error text. *)
Theorem exact_phrase_precedes_ai (svc : self) (pregunta : string) :
  In (PyStr.strip (PyStr.lower pregunta)) phrase_keys ->
  no_ai_call (responder_pregunta svc pregunta)
  /\ (rows (cs_df svc) <> [] ->
      exists tabla answer,
        respuestas_heuristicas (cs_df svc) = Ok tabla
        /\ Py.get (PyStr.strip (PyStr.lower pregunta)) tabla = Some answer
        /\ responder_pregunta svc pregunta = Done answer
        /\ (PyStr.strip (PyStr.lower pregunta) = "cuántas estaciones hay" ->
            answer = TenemosEstaciones (List.length (station_ids (rows (cs_df svc))))))
  /\ (rows (cs_df svc) = [] -> responder_pregunta svc pregunta = Done OcurrioUnError).
Proof.
  intros Hkey.
  split; [now apply exact_phrase_never_calls_ai|]. split.
  - intros Hrows.
    destruct (respuestas_heuristicas_built _ Hrows) as [tabla Ht].
    pose proof Hkey as Hkey'.
    rewrite <- (respuestas_heuristicas_keys _ _ Ht) in Hkey'.
    destruct (get_in_keys _ _ Hkey') as [answer Hget].
    exists tabla, answer.
    split; [exact Ht|]. split; [exact Hget|].
    split; [now apply responder_exact_match with (tabla := tabla)|].
    intros Heq. rewrite Heq in Hget.
    unfold respuestas_heuristicas in Ht. inv_bind Ht. inv_bind Ht. injection Ht as <-.
    simpl in Hget. now injection Hget as <-.
  - intros Hrows. destruct (respuestas_heuristicas_empty _ Hrows) as [e He].
    unfold responder_pregunta, _responder_heuristico. now rewrite He.
Qed.

Lemma exact_phrase_precedes_ai_witness :
  responder_pregunta sample_chatbot "  Cuántas estaciones hay " = Done (TenemosEstaciones 2).
Proof.
  destruct (exact_phrase_precedes_ai sample_chatbot "  Cuántas estaciones hay ")
    as [_ [H _]].
  - vm_compute. right. right. right. left. reflexivity.
  - destruct H as [tabla [answer [_ [_ [Hr Hn]]]]]; [discriminate|].
    rewrite Hr. f_equal. apply Hn. reflexivity.
Defined.

(** C5, as the specification has it, fails on a frame without rows:
    the phrase table is built before the lookup, and its entry of the
    range of the dates formats the least timestamp, which is NaT; the
    exception is caught and the reply is the error text, not the count
    of the stations.  The model is not called. *)
Lemma exact_phrase_on_empty_frame_is_an_error :
  In (PyStr.strip (PyStr.lower "cuántas estaciones hay")) phrase_keys
  /\ cs_has_gemini empty_chatbot = true
  /\ rows (cs_df empty_chatbot) = []
  /\ (forall tabla, respuestas_heuristicas (cs_df empty_chatbot) <> Ok tabla)
  /\ responder_pregunta empty_chatbot "cuántas estaciones hay" = Done OcurrioUnError
  /\ OcurrioUnError
     <> TenemosEstaciones (List.length (station_ids (rows (cs_df empty_chatbot)))).
Proof.
  split; [vm_compute; right; right; right; left; reflexivity|].
  split; [reflexivity|]. split; [reflexivity|].
  split; [intros tabla; vm_compute; discriminate|].
  split; [vm_compute; reflexivity | discriminate].
Qed.

End Heuristics.

(** ** The intent resolver *)

Section Intents.
Import GeminiChatService.

Lemma contains_digits (w q : string) :
  starts_nondigit w = true -> PyStr.all_digits q = true -> PyStr.contains w q = false.
Proof.
  destruct w as [|c w']; [discriminate|]. simpl. intros Hc.
  apply negb_true_iff in Hc.
  induction q as [|d q' IH]; intros Hq; [reflexivity|].
  unfold PyStr.all_digits in Hq. simpl in Hq.
  apply andb_true_iff in Hq. destruct Hq as [Hd Hq'].
  simpl. destruct (ascii_dec c d) as [->|Hne]; [congruence|].
  simpl. now apply IH.
Qed.

Lemma contains_any_digits (words : list string) (q : string) :
  forallb starts_nondigit words = true -> PyStr.all_digits q = true ->
  PyStr.contains_any words q = false.
Proof.
  intros Hw Hq. unfold PyStr.contains_any.
  induction words as [|w t IH]; [reflexivity|].
  simpl in Hw. apply andb_true_iff in Hw. destruct Hw as [H1 H2].
  simpl. rewrite (contains_digits w q H1 Hq). simpl. now apply IH.
Qed.

Lemma prefix_contains (w q : string) : prefix w q = true -> PyStr.contains w q = true.
Proof. intros H. destruct q; cbn [PyStr.contains]; now rewrite H. Qed.

Lemma startswith_digits (w q : string) :
  starts_nondigit w = true -> PyStr.all_digits q = true -> PyStr.startswith q w = false.
Proof.
  intros Hw Hq. unfold PyStr.startswith.
  destruct (prefix w q) eqn:E; [|reflexivity].
  apply prefix_contains in E. rewrite contains_digits in E by assumption. discriminate.
Qed.

Lemma eqb_digits (w q : string) :
  PyStr.all_digits w = false -> PyStr.all_digits q = true -> String.eqb q w = false.
Proof.
  intros Hw Hq. destruct (String.eqb_spec q w) as [->|]; [congruence | reflexivity].
Qed.

Lemma letra_match_digits (q : string) : PyStr.all_digits q = true -> letra_match q = None.
Proof.
  destruct q as [|c [|d q']]; try reflexivity.
  unfold PyStr.all_digits, letra_match. simpl. rewrite andb_true_r.
  unfold PyStr.is_digit. intros H.
  apply andb_true_iff in H. destruct H as [H1 H2].
  apply N.leb_le in H1, H2.
  destruct (97 <=? PyStr.code c)%N eqn:E1; [apply N.leb_le in E1; lia|].
  destruct (65 <=? PyStr.code c)%N eqn:E2; [apply N.leb_le in E2; lia|].
  reflexivity.
Qed.

Lemma numero_match_inv (q group1 : string) :
  numero_match q = Some group1 ->
  q <> EmptyString /\ PyStr.all_digits q = true /\ group1 = q.
Proof.
  unfold numero_match. destruct q as [|c q']; [discriminate|].
  destruct (PyStr.all_digits (String c q')); [|discriminate].
  intros H. injection H as <-. repeat split. discriminate.
Qed.

(** What stands before the patterns of the letter and of the number. *)
Lemma digits_pass_the_rules
    (json_loads : string -> option (option Intent)) (s : self) (pregunta group1 : string) :
  numero_match (PyStr.strip (PyStr.lower pregunta)) = Some group1 ->
  interpretar_pregunta json_loads s pregunta
  = if has_gemini s
    then match PyStr.int group1 with
         | Ok numero => Done (Ok (Some (estado_actual_por_numero numero)))
         | Raise e => Done (Raise e)
         end
    else Done (Ok (Some (estado_actual pregunta))).
Proof.
  intros Hnum.
  destruct (numero_match_inv _ _ Hnum) as [Hne [Hdig _]].
  destruct pregunta as [|a p]; [now contradiction Hne|].
  unfold interpretar_pregunta. cbv zeta.
  rewrite (contains_any_digits saludos _ eq_refl Hdig).
  rewrite (eqb_digits "a" _ eq_refl Hdig), (eqb_digits "b" _ eq_refl Hdig).
  rewrite (startswith_digits "qué es " _ eq_refl Hdig).
  rewrite (startswith_digits "que es " _ eq_refl Hdig).
  rewrite (contains_any_digits preguntas_complejas _ eq_refl Hdig).
  rewrite (contains_digits "cuántas estaciones" _ eq_refl Hdig).
  rewrite (contains_digits "cuantas estaciones" _ eq_refl Hdig).
  rewrite (letra_match_digits _ Hdig), Hnum.
  destruct (last_menu_shown s); destruct (has_gemini s); reflexivity.
Qed.

Lemma int_within_the_limit (group1 : string) :
  Z.of_nat (String.length group1) <= PyStr.int_max_str_digits ->
  PyStr.int group1 = Ok (PyStr.int_of_digits group1).
Proof.
  intros H. unfold PyStr.int.
  destruct (Z.ltb_spec PyStr.int_max_str_digits (Z.of_nat (String.length group1)));
    [lia | reflexivity].
Qed.

Lemma int_above_the_limit (group1 : string) :
  PyStr.int_max_str_digits < Z.of_nat (String.length group1) ->
  exists e, PyStr.int group1 = Raise e /\ is_ValueError e = true.
Proof.
  intros H. unfold PyStr.int.
  destruct (Z.ltb_spec PyStr.int_max_str_digits (Z.of_nat (String.length group1)));
    [|lia].
  eexists. split; reflexivity.
Qed.

(** C6, as the code has it. A message that is a bare integer (digits,
    with blanks around them at most) is resolved without a call to the
    model, whatever menu was shown last.  Without an API key it is a
    station looked up by name, the name being the raw text.  With an API
    key it is the station of that number when the integer has 4300
    digits at most; above that [int] raises ValueError and no intent is
    returned. *)
Theorem bare_number_resolution
    (json_loads : string -> option (option Intent)) (s : self) (pregunta group1 : string) :
  numero_match (PyStr.strip (PyStr.lower pregunta)) = Some group1 ->
  (has_gemini s = false ->
   interpretar_pregunta json_loads s pregunta = Done (Ok (Some (estado_actual pregunta))))
  /\ (has_gemini s = true ->
      Z.of_nat (String.length group1) <= PyStr.int_max_str_digits ->
      interpretar_pregunta json_loads s pregunta
      = Done (Ok (Some (estado_actual_por_numero (PyStr.int_of_digits group1)))))
  /\ (has_gemini s = true ->
      PyStr.int_max_str_digits < Z.of_nat (String.length group1) ->
      exists e, interpretar_pregunta json_loads s pregunta = Done (Raise e)
                /\ is_ValueError e = true).
Proof.
  intros Hnum. rewrite (digits_pass_the_rules json_loads s pregunta group1 Hnum).
  split; [|split].
  - intros ->. reflexivity.
  - intros -> Hlen. now rewrite (int_within_the_limit _ Hlen).
  - intros -> Hlen. destruct (int_above_the_limit _ Hlen) as [e [He Hv]].
    rewrite He. eauto.
Qed.

Lemma bare_number_resolution_witness :
  interpretar_pregunta no_json sample_chat_with_key " 3 "
  = Done (Ok (Some (estado_actual_por_numero 3))).
Proof.
  destruct (bare_number_resolution no_json sample_chat_with_key " 3 " "3" eq_refl)
    as [_ [H _]].
  apply H; [reflexivity | vm_compute; discriminate].
Defined.

(** C6, as the specification has it, fails without an API key: after
    "a" listed the stations and set the menu, the message "3" is a
    station looked up by the name "3", not the station of number 3. *)
Lemma bare_number_without_key_is_a_name :
  exists r s1,
    procesar_pregunta no_json 0 sample_chat_no_key "a" = Done (r, s1)
    /\ last_menu_shown s1 = Some estaciones
    /\ interpretar_pregunta no_json s1 "3" = Done (Ok (Some (estado_actual "3")))
    /\ estado_actual "3" <> estado_actual_por_numero 3.
Proof.
  eexists. eexists.
  split; [vm_compute; reflexivity|].
  split; [reflexivity|].
  split; [reflexivity | discriminate].
Qed.

(** *** The menu context *)

Lemma main_menu_after_reset
    (json_loads : string -> option (option Intent)) (s : self) :
  last_menu_shown s = None ->
  interpretar_pregunta json_loads s "a" = Done (Ok (Some listar))
  /\ interpretar_pregunta json_loads s "b" = Done (Ok (Some (concepto None))).
Proof.
  intros H. unfold interpretar_pregunta. rewrite H. split; reflexivity.
Qed.

(** A greeting, a letter of the concepts and a number of the list
    reset the menu. *)
Lemma greeting_resets
    (random_choice : nat) (s : self) (pregunta : string) :
  componer random_choice s pregunta saludo
  = Done (Saludo random_choice, set_last_menu_shown s None).
Proof. reflexivity. Qed.

Lemma letter_resets
    (random_choice : nat) (s : self) (pregunta letra c : string) :
  String.eqb (PyStr.lower pregunta) "a" = false ->
  Py.get letra conceptos_por_letra = Some c ->
  componer random_choice s pregunta (concepto_por_letra letra)
  = Done (ConceptoPorLetra (explicar_concepto (Some c)), set_last_menu_shown s None).
Proof.
  intros Ha Hl. unfold componer. simpl in *. rewrite Ha. simpl. now rewrite Hl.
Qed.

Lemma number_resets
    (random_choice : nat) (s : self) (pregunta : string) (numero : Z)
    (complete_data : ChatbotService.ChatbotDataResponse) :
  String.eqb (PyStr.lower pregunta) "a" = false ->
  ChatbotService.get_complete_data_for_chatbot (chatbot_service s) = Ok complete_data ->
  1 <= numero <= Z.of_nat (List.length (ChatbotService.stations complete_data)) ->
  exists r,
    componer random_choice s pregunta (estado_actual_por_numero numero)
    = Done (r, set_last_menu_shown s None).
Proof.
  intros Ha Hd Hn. unfold componer. simpl. rewrite Ha, Hd. simpl.
  destruct (numero <? 1) eqn:E1; [apply Z.ltb_lt in E1; lia|].
  destruct (numero >? Z.of_nat (List.length (ChatbotService.stations complete_data))) eqn:E2;
    [apply Z.gtb_lt in E2; lia|].
  simpl.
  destruct (Py.index (ChatbotService.stations complete_data) (numero - 1)) as [est|e];
    [|eauto].
  destruct (con_mediciones est); eauto.
Qed.

(** Out of the range 1..N the numbered lookup of the chat answers with
    the bounds, and keeps the menu. *)
Lemma number_out_of_range
    (random_choice : nat) (s : self) (pregunta : string) (numero : Z)
    (complete_data : ChatbotService.ChatbotDataResponse) :
  String.eqb (PyStr.lower pregunta) "a" = false ->
  ChatbotService.get_complete_data_for_chatbot (chatbot_service s) = Ok complete_data ->
  numero < 1 \/ Z.of_nat (List.length (ChatbotService.stations complete_data)) < numero ->
  componer random_choice s pregunta (estado_actual_por_numero numero)
  = Done (NumeroFueraDeRango (List.length (ChatbotService.stations complete_data)), s).
Proof.
  intros Ha Hd Hn. unfold componer. simpl. rewrite Ha, Hd. simpl.
  destruct (numero <? 1) eqn:E1; [reflexivity|].
  destruct (numero >? Z.of_nat (List.length (ChatbotService.stations complete_data))) eqn:E2;
    [reflexivity|].
  apply Z.ltb_ge in E1. rewrite Z.gtb_ltb in E2. apply Z.ltb_ge in E2. lia.
Qed.

(** The lookup by name has no reset: whatever it answers, [self] is as
    before. *)
Lemma name_lookup_keeps_self
    (random_choice : nat) (s : self) (pregunta : string) (c : ascii) (nombre : string) :
  String.eqb (PyStr.lower pregunta) "a" = false ->
  exists r,
    componer random_choice s pregunta (estado_actual (String c nombre)) = Done (r, s).
Proof.
  intros Ha. unfold componer. simpl. rewrite Ha. simpl.
  destruct (ChatbotService.get_complete_data_for_chatbot (chatbot_service s)) as [cd|e];
    [|eauto].
  destruct (buscar_estacion (String c nombre) (ChatbotService.stations cd)) as [est|];
    [|eauto].
  destruct (con_mediciones est); eauto.
Qed.

(** C7 at the failing input. Without an API key, "a" lists the stations
    and sets the menu; the name "Halley" is then resolved to the state
    of the station Halley UIS, and the menu is still the list of the
    stations; so the next "b" is not the option of the main menu. *)
Theorem lookup_by_name_keeps_menu :
  exists r1 s1 name latest texto s2,
    procesar_pregunta no_json 0 sample_chat_no_key "a" = Done (r1, s1)
    /\ last_menu_shown s1 = Some estaciones
    /\ procesar_pregunta no_json 0 s1 "Halley" = Done (EstadoActual name latest texto, s2)
    /\ name = "Halley UIS"
    /\ last_menu_shown s2 = Some estaciones
    /\ interpretar_pregunta no_json s2 "b" = Done (Ok (Some (estado_actual "b")))
    /\ estado_actual "b" <> concepto None.
Proof.
  do 6 eexists.
  split; [vm_compute; reflexivity|].
  split; [reflexivity|].
  split; [vm_compute; reflexivity|].
  split; [reflexivity|].
  split; [reflexivity|].
  split; [reflexivity | discriminate].
Qed.

End Intents.

(** ** Stations by number in the heuristic responder *)

Section ByNumber.
Import ChatbotService.

(** At a number that is not positive the heuristic handler has no
    bounds message: it indexes the sorted ids at [numero - 1], which
    Python counts from the end. *)
Lemma estacion_por_numero_not_positive (df : DataFrame) (numero : Z) (r : respuesta) :
  numero <= 0 -> estacion_por_numero df numero = Ok r ->
  exists name latest, r = EstacionInfo numero name latest.
Proof.
  intros Hn H. unfold estacion_por_numero in H.
  destruct (numero <=? Z.of_nat (List.length (station_ids (rows df)))) eqn:E;
    [|apply Z.leb_gt in E; lia].
  inv_bind H. inv_bind H. inv_bind H. injection H as <-. eauto.
Qed.

(** C8 at the failing input. On the sample frame, whose stations are 3
    and 7, the question "estación 0" is answered by the heuristic
    responder with the data of station 7, the last of the sorted ids,
    under the number 0; the bounds message is not given. *)
Theorem station_zero_is_the_last_station :
  exists latest,
    _responder_heuristico sample_day "estación 0"
    = Ok (Some (EstacionInfo 0 (Some "Halley UIS") latest))
    /\ station_id latest = 7
    /\ responder_pregunta sample_chatbot "estación 0"
       = Done (EstacionInfo 0 (Some "Halley UIS") latest)
    /\ _responder_heuristico sample_day "estación 5" = Ok (Some (SoloTenemos 2)).
Proof.
  eexists.
  split; [vm_compute; reflexivity|].
  split; [reflexivity|].
  split; [vm_compute; reflexivity | vm_compute; reflexivity].
Qed.

End ByNumber.

(** ** Status codes *)

Section Http.
Import StationsController.

Lemma strptime_raises_ValueError (s : string) (e : exn) :
  Datetime.strptime s = Raise e -> is_ValueError e = true.
Proof.
  unfold Datetime.strptime. intros H.
  repeat match type of H with
         | match ?x with _ => _ end = _ => destruct x
         | (if ?x then _ else _) = _ => destruct x
         | Raise _ = Raise _ => injection H as <-; reflexivity
         | Ok _ = Raise _ => discriminate
         end.
Qed.

(** A date that [strptime] rejects is a 400 on the two endpoints of the
    averages. *)
Lemma bad_date_averages_400 (df : DataFrame) (fecha vars : string) (e : exn) :
  Datetime.strptime fecha = Raise e ->
  get_all_stations_averages (stations_service df) fecha vars
  = HTTPException 400 (FormatoDeFechaInvalido e).
Proof.
  intros H. unfold get_all_stations_averages. simpl.
  unfold StationsService.get_all_stations_averages. rewrite H. simpl.
  now rewrite (strptime_raises_ValueError _ _ H).
Qed.

Lemma bad_date_station_averages_400
    (df : DataFrame) (sid : Z) (fecha vars : string) (e : exn) :
  Datetime.strptime fecha = Raise e ->
  get_station_daily_averages (stations_service df) sid fecha vars
  = HTTPException 400 (FormatoDeFechaInvalido e).
Proof.
  intros H. unfold get_station_daily_averages. simpl.
  unfold StationsService.get_station_averages, StationsService.get_all_stations_averages.
  rewrite H. simpl.
  pose proof (strptime_raises_ValueError _ _ H) as Hv.
  destruct e; try discriminate. reflexivity.
Qed.

(** A failure of the service that is not a [ValueError] is a 500 whose
    detail names no more than the type of the exception. *)
Lemma internal_failure_500 (svc : Service) (fecha vars : string) (e : exn) :
  all_stations_averages svc fecha (Some (variable_list vars)) = Raise e ->
  is_ValueError e = false ->
  get_all_stations_averages svc fecha vars
  = HTTPException 500 (ErrorInternoDelServidor (type_name e)).
Proof.
  intros H Hv. unfold get_all_stations_averages. now rewrite H, Hv.
Qed.

(** The service of the detailed data does not raise, so its endpoint
    has only the status 200. *)
Lemma detailed_data_is_200 (df : DataFrame) (sid : Z) (fecha : string) :
  status (get_station_detailed_data (stations_service df) sid fecha) = 200.
Proof.
  unfold get_station_detailed_data. simpl.
  unfold StationsService.get_station_detailed_data.
  destruct (StationsService.detailed_data_body df sid fecha); reflexivity.
Qed.

Lemma rejected_date_detailed_data (df : DataFrame) (sid : Z) (fecha : string) (e : exn) :
  Datetime.strptime fecha = Raise e ->
  get_station_detailed_data (stations_service df) sid fecha
  = Return {| StationsService.success := false;
              StationsService.error := Some e;
              StationsService.ddata := StationsService.empty_data sid fecha |}.
Proof.
  intros H. unfold get_station_detailed_data. simpl.
  unfold StationsService.get_station_detailed_data, StationsService.detailed_data_body.
  now rewrite H.
Qed.

(** C9 at the failing input. The date "01/01/2024" is not YYYY-MM-DD; the
    endpoint of the averages answers 400, and the endpoint of the
    detailed data answers 200 with a body whose "success" is false and
    whose "error" is the text of the exception. *)
Theorem bad_date_detailed_data_is_200 :
  status (get_all_stations_averages (stations_service sample_day) "01/01/2024" "temp") = 400
  /\ status (get_station_daily_averages (stations_service sample_day) 7 "01/01/2024" "temp") = 400
  /\ get_station_detailed_data (stations_service sample_day) 7 "01/01/2024"
     = Return {| StationsService.success := false;
                 StationsService.error := Some (ValueError "time data does not match format");
                 StationsService.ddata := StationsService.empty_data 7 "01/01/2024" |}
  /\ status (get_station_detailed_data (stations_service sample_day) 7 "01/01/2024") = 200.
Proof.
  split; [reflexivity|]. split; [reflexivity|]. split; reflexivity.
Qed.

End Http.

(** ** Filtered data *)

Section Filtered.
Import ChatbotService.

Lemma remove_nth_length {A : Type} (l : list A) :
  forall i, (i < List.length l)%nat -> S (List.length (Py.remove_nth i l)) = List.length l.
Proof.
  induction l as [|x t IH]; simpl; intros i Hi; [lia|].
  destruct i as [|j]; [reflexivity|].
  simpl. rewrite IH; [reflexivity | lia].
Qed.

(** A sample of [n] rows of a population that has them has [n] rows. *)
Lemma draw_length {A : Type} (rng : nat -> nat) (n : nat) :
  forall (k : nat) (l : list A),
    (n <= List.length l)%nat -> List.length (Py.draw rng k n l) = n.
Proof.
  induction n as [|n IH]; simpl; intros k l Hn; [reflexivity|].
  assert (Hi : (Nat.modulo (rng k) (List.length l) < List.length l)%nat).
  { apply Nat.mod_upper_bound. lia. }
  destruct (nth_error l (Nat.modulo (rng k) (List.length l))) as [x|] eqn:E.
  - simpl. f_equal. apply IH.
    pose proof (remove_nth_length l _ Hi). lia.
  - apply nth_error_None in E. lia.
Qed.

Lemma sample_bound (rng : nat -> nat) (n : Z) (l l' : list Row) :
  sample rng n l = Ok l' -> Z.of_nat (List.length l') = n.
Proof.
  unfold sample.
  destruct (n <? 0) eqn:E1; [discriminate|].
  destruct (Z.of_nat (List.length l) <? n) eqn:E2; [discriminate|].
  intros H. injection H as <-.
  apply Z.ltb_ge in E1, E2.
  rewrite draw_length; lia.
Qed.

(** C10. A result of [get_filtered_data] reports at most
    [query.max_records] records, and the rows under "data", which are
    there when the raw data is asked for, are as many as reported. *)
Theorem filtered_data_bounded
    (to_datetime : string -> result Z) (rng : nat -> nat)
    (svc : self) (query : ChatbotQuery) (res : FilteredResult) :
  get_filtered_data to_datetime rng svc query = Ok res ->
  Z.of_nat (fr_total_records res) <= max_records query
  /\ (include_raw_data query = true ->
      exists data, fr_data res = Some data
                   /\ List.length data = fr_total_records res
                   /\ Z.of_nat (List.length data) <= max_records query).
Proof.
  intros H. unfold get_filtered_data in H.
  inv_bind H.
  match type of H with
  | bind (if ?c then _ else _) _ = _ => destruct c eqn:Hc
  end.
  - inv_bind H. inv_bind H. injection H as <-. simpl.
    apply sample_bound in Ha0.
    split; [lia|]. intros ->. eexists. split; [reflexivity|]. split; [reflexivity | lia].
  - simpl in H. inv_bind H. injection H as <-. simpl.
    rewrite Z.gtb_ltb in Hc. apply Z.ltb_ge in Hc.
    split; [exact Hc|]. intros ->. eexists. split; [reflexivity|]. split; [reflexivity | exact Hc].
Qed.

Lemma filtered_data_bounded_witness :
  exists res,
    get_filtered_data no_dates first_left sample_chatbot sample_query = Ok res
    /\ fr_total_records res = 2%nat
    /\ Z.of_nat (fr_total_records res) <= 2.
Proof.
  destruct (get_filtered_data no_dates first_left sample_chatbot sample_query) as [res|e] eqn:E;
    [|vm_compute in E; discriminate].
  exists res. split; [reflexivity|].
  split; [vm_compute in E; injection E as <-; reflexivity|].
  apply (filtered_data_bounded no_dates first_left sample_chatbot sample_query res E).
Defined.

(** The function returns a result for a limit that is not negative, on a
    query without bounds of dates and without "timestamp" among its
    variables. *)
Lemma filtered_data_returns
    (to_datetime : string -> result Z) (rng : nat -> nat)
    (svc : self) (query : ChatbotQuery) :
  0 <= max_records query ->
  q_date_range query = None ->
  (forall vars, q_variables query = Some vars -> existsb (String.eqb "timestamp") vars = false) ->
  exists res, get_filtered_data to_datetime rng svc query = Ok res.
Proof.
  intros Hmax Hdates Hvars. unfold get_filtered_data. rewrite Hdates. simpl.
  match goal with
  | |- exists _, bind (if ?c then _ else _) _ = _ => destruct c eqn:Hc
  end.
  - rewrite Z.gtb_ltb in Hc. apply Z.ltb_lt in Hc.
    unfold sample.
    destruct (max_records query <? 0) eqn:E1; [apply Z.ltb_lt in E1; lia|].
    match goal with
    | |- context [if ?c then Raise _ else _] => destruct c eqn:E2
    end; [apply Z.ltb_lt in E2; lia|].
    simpl.
    destruct (q_variables query) as [[|v vars]|] eqn:Ev; simpl; eauto.
    pose proof (Hvars _ eq_refl) as Ht. simpl in Ht. rewrite Ht. simpl. eauto.
  - simpl.
    destruct (q_variables query) as [[|v vars]|] eqn:Ev; simpl; eauto.
    pose proof (Hvars _ eq_refl) as Ht. simpl in Ht. rewrite Ht. simpl. eauto.
Qed.

End Filtered.

(* ================================================================== *)
(** * Further properties of the aggregator *)
(* ================================================================== *)

Section AveragesMore.
Import StationsService.

Lemma with_station_nonempty (l : list Row) (sid : Z) :
  In sid (station_ids l) -> with_station sid l <> [].
Proof.
  intros H. apply station_ids_In in H. destruct H as [r [Hr Hsid]].
  intros E.
  assert (Hin : In r (with_station sid l)).
  { apply filter_In. split; [exact Hr|]. unfold is_station. now apply Z.eqb_eq. }
  rewrite E in Hin. destruct Hin.
Qed.

Lemma with_station_empty (l : list Row) (sid : Z) :
  ~ In sid (station_ids l) -> with_station sid l = [].
Proof.
  intros H. apply filter_nil_iff. intros r Hr. unfold is_station.
  apply Z.eqb_neq. intros E. apply H. apply station_ids_In. eauto.
Qed.

(** The loop over the stations gives one result for each id with a
    reading, with the id and the number of its readings. *)
Lemma stations_loop_shape (df : DataFrame) (vars : list string) (daily : list Row) (ids : list Z) :
  forall l,
    stations_loop df vars daily ids = Ok l ->
    (forall sid, In sid ids -> with_station sid daily <> []) ->
    Forall2 (fun sid st => sr_station_id st = sid
                           /\ sr_record_count st = readings_of sid daily) ids l.
Proof.
  induction ids as [|sid ids IH]; simpl; intros l H Hne.
  - injection H as <-. constructor.
  - destruct (with_station sid daily) as [|info rest] eqn:E.
    + exfalso. apply (Hne sid); [now left | exact E].
    + inv_bind H. inv_bind H. injection H as <-.
      constructor.
      * unfold station_result in Ha. inv_bind Ha. injection Ha as <-. simpl.
        unfold readings_of. rewrite E. auto.
      * apply IH; [exact Ha0|]. intros s Hs. apply Hne. now right.
Qed.

Lemma Forall2_map_ids (daily : list Row) (ids : list Z) (l : list StationResult) :
  Forall2 (fun sid st => sr_station_id st = sid
                         /\ sr_record_count st = readings_of sid daily) ids l ->
  map sr_station_id l = ids
  /\ map sr_record_count l = map (fun sid => readings_of sid daily) ids.
Proof.
  induction 1 as [|sid st ids l [H1 H2] _ [IH1 IH2]]; simpl; [auto|].
  now rewrite H1, H2, IH1, IH2.
Qed.

Lemma averages_result_inv (df : DataFrame) (fecha : string) (vars : option (list string))
    (dt : Datetime.date) (res : AveragesResult) :
  Datetime.strptime fecha = Ok dt ->
  get_all_stations_averages df fecha vars = Ok res ->
  let daily :=
    filter (in_range (Datetime.start_of_day dt) (Datetime.end_of_day dt)) (rows df) in
  Forall2 (fun sid st => sr_station_id st = sid
                         /\ sr_record_count st = readings_of sid daily)
          (station_ids daily) (stations res)
  /\ stations_with_data res = List.length (stations res)
  /\ total_stations res = List.length (station_ids daily).
Proof.
  intros Hparse H. cbv zeta.
  unfold get_all_stations_averages in H. rewrite Hparse in H. simpl in H.
  set (daily := filter (in_range (Datetime.start_of_day dt) (Datetime.end_of_day dt))
                       (rows df)) in *.
  destruct (is_empty daily) eqn:Ee.
  - injection H as <-. simpl.
    destruct daily; [|discriminate]. split; [constructor | auto].
  - inv_bind H. injection H as <-. simpl.
    split; [|auto].
    apply (stations_loop_shape _ _ _ _ _ Ha).
    intros sid Hs. now apply with_station_nonempty.
Qed.

Lemma indicator_sum (ks : list Z) (x : Z) :
  NoDup ks -> In x ks ->
  list_sum (map (fun k => if x =? k then 1%nat else 0%nat) ks) = 1%nat.
Proof.
  induction 1 as [|k ks Hk Hnd IH]; simpl; intros Hin; [destruct Hin|].
  destruct (Z.eqb_spec x k) as [->|Hne].
  - cut (list_sum (map (fun k0 => if k =? k0 then 1%nat else 0%nat) ks) = 0%nat);
      [intros ->; reflexivity|].
    assert (H0 : forall l, ~ In k l ->
                 list_sum (map (fun k0 => if k =? k0 then 1%nat else 0%nat) l) = 0%nat).
    { induction l as [|y l IHl]; simpl; intros Hy; [reflexivity|].
      destruct (Z.eqb_spec k y) as [->|_]; [exfalso; apply Hy; now left|].
      apply IHl. intros H. apply Hy. now right. }
    now apply H0.
  - destruct Hin as [->|Hin]; [contradiction | now apply IH].
Qed.

Lemma list_sum_map_add {A : Type} (f g : A -> nat) (l : list A) :
  list_sum (map (fun x => (f x + g x)%nat) l)
  = (list_sum (map f l) + list_sum (map g l))%nat.
Proof. induction l as [|x t IH]; simpl; [reflexivity | rewrite IH; lia]. Qed.

(** The readings are shared out among the stations. *)
Lemma readings_partition (l : list Row) (ks : list Z) :
  NoDup ks -> (forall r, In r l -> In (station_id r) ks) ->
  list_sum (map (fun k => readings_of k l) ks) = List.length l.
Proof.
  intros Hnd. induction l as [|r t IH]; intros Hin.
  - unfold readings_of. simpl. clear Hnd Hin.
    induction ks as [|k ks IHk]; simpl; [reflexivity | exact IHk].
  - assert (E : forall k, readings_of k (r :: t)
                          = ((if (station_id r =? k)%Z then 1 else 0) + readings_of k t)%nat).
    { intros k. unfold readings_of, with_station, is_station. simpl.
      destruct (station_id r =? k); reflexivity. }
    rewrite (map_ext _ _ E), list_sum_map_add.
    rewrite indicator_sum; [|exact Hnd | apply Hin; now left].
    simpl. f_equal. apply IH. intros r' Hr'. apply Hin. now right.
Qed.

(** X1. In a result of [get_all_stations_averages] the stations are the
    distinct stations with a reading in the range of the day, each once
    and in the order of their first reading; so "stations_with_data" is
    always "total_stations". *)
Theorem averages_report_each_station_once
    (df : DataFrame) (fecha : string) (vars : option (list string))
    (dt : Datetime.date) (res : AveragesResult) :
  Datetime.strptime fecha = Ok dt ->
  get_all_stations_averages df fecha vars = Ok res ->
  map sr_station_id (stations res)
  = station_ids (filter (in_range (Datetime.start_of_day dt) (Datetime.end_of_day dt)) (rows df))
  /\ NoDup (map sr_station_id (stations res))
  /\ stations_with_data res = total_stations res.
Proof.
  intros Hparse H.
  destruct (averages_result_inv df fecha vars dt res Hparse H) as [HF [H1 H2]].
  destruct (Forall2_map_ids _ _ _ HF) as [Hids _].
  split; [exact Hids|]. split.
  - rewrite Hids. apply unique_from_NoDup.
  - rewrite H1, H2, <- Hids. symmetry. apply length_map.
Qed.

Lemma averages_report_each_station_once_witness :
  exists res,
    get_all_stations_averages sample_day "2024-01-01" None = Ok res
    /\ map sr_station_id (stations res) = [7; 3]
    /\ stations_with_data res = total_stations res.
Proof.
  destruct (get_all_stations_averages sample_day "2024-01-01" None) as [res|e] eqn:E;
    [|vm_compute in E; discriminate].
  exists res. split; [reflexivity|].
  destruct (averages_report_each_station_once sample_day "2024-01-01" None
              {| Datetime.year := 2024; Datetime.month := 1; Datetime.day := 1 |} res
              eq_refl E) as [H1 [_ H3]].
  split; [rewrite H1; reflexivity | exact H3].
Defined.

(** X2. The "record_count" of a station in the result is the number of
    its readings in the range of the day, one at least, and the counts
    of all the stations add up to the number of the readings in the
    range: no reading is dropped or counted twice. *)
Theorem averages_record_counts
    (df : DataFrame) (fecha : string) (vars : option (list string))
    (dt : Datetime.date) (res : AveragesResult) :
  Datetime.strptime fecha = Ok dt ->
  get_all_stations_averages df fecha vars = Ok res ->
  let daily :=
    filter (in_range (Datetime.start_of_day dt) (Datetime.end_of_day dt)) (rows df) in
  (forall st, In st (stations res) ->
     sr_record_count st = readings_of (sr_station_id st) daily
     /\ (0 < sr_record_count st)%nat)
  /\ list_sum (map sr_record_count (stations res)) = List.length daily.
Proof.
  intros Hparse H daily.
  destruct (averages_result_inv df fecha vars dt res Hparse H) as [HF _].
  fold daily in HF.
  destruct (Forall2_map_ids _ _ _ HF) as [Hids Hcounts].
  split.
  - intros st Hst.
    assert (Hc : sr_record_count st = readings_of (sr_station_id st) daily).
    { clear Hids Hcounts. induction HF as [|sid st0 ids l [H1 H2] _ IH]; [destruct Hst|].
      destruct Hst as [<-|Hst]; [now rewrite H1 | now apply IH]. }
    split; [exact Hc|]. rewrite Hc.
    assert (Hin : In (sr_station_id st) (station_ids daily)).
    { rewrite <- Hids. now apply in_map. }
    apply with_station_nonempty in Hin. unfold readings_of.
    destruct (with_station (sr_station_id st) daily); [contradiction | simpl; lia].
  - rewrite Hcounts. apply readings_partition; [apply unique_from_NoDup|].
    intros r Hr. apply station_ids_In. eauto.
Qed.

Lemma averages_record_counts_witness :
  exists res,
    get_all_stations_averages sample_day "2024-01-01" None = Ok res
    /\ list_sum (map sr_record_count (stations res)) = 3%nat.
Proof.
  destruct (get_all_stations_averages sample_day "2024-01-01" None) as [res|e] eqn:E;
    [|vm_compute in E; discriminate].
  exists res. split; [reflexivity|].
  destruct (averages_record_counts sample_day "2024-01-01" None
              {| Datetime.year := 2024; Datetime.month := 1; Datetime.day := 1 |} res
              eq_refl E) as [_ H2].
  rewrite H2. reflexivity.
Defined.

(** X3. [get_station_averages] answers whenever
    [get_all_stations_averages] does: its "record_count" is the number
    of the readings of the station in the range of the day, and its
    "data" is None, with the message, exactly when there is none. *)
Theorem station_averages_of_all
    (df : DataFrame) (sid : Z) (fecha : string) (vars : option (list string))
    (dt : Datetime.date) (res : AveragesResult) :
  Datetime.strptime fecha = Ok dt ->
  get_all_stations_averages df fecha vars = Ok res ->
  let daily :=
    filter (in_range (Datetime.start_of_day dt) (Datetime.end_of_day dt)) (rows df) in
  exists x,
    get_station_averages df sid fecha vars = Ok x
    /\ sa_record_count x = readings_of sid daily
    /\ (sa_data x = None <-> readings_of sid daily = 0%nat)
    /\ (sa_message x <> None <-> readings_of sid daily = 0%nat).
Proof.
  intros Hparse H daily.
  destruct (averages_result_inv df fecha vars dt res Hparse H) as [HF _].
  fold daily in HF.
  destruct (Forall2_map_ids _ _ _ HF) as [Hids _].
  unfold get_station_averages. rewrite H. simpl.
  destruct (find (fun station => sr_station_id station =? sid) (stations res)) as [st|] eqn:Ef.
  - apply find_some in Ef. destruct Ef as [Hst Hid]. apply Z.eqb_eq in Hid.
    assert (Hc : sr_record_count st = readings_of sid daily).
    { clear Hids. induction HF as [|k st0 ids l [H1 H2] _ IH]; [destruct Hst|].
      destruct Hst as [<-|Hst]; [rewrite H2; congruence | now apply IH]. }
    assert (Hpos : readings_of sid daily <> 0%nat).
    { assert (Hin : In sid (station_ids daily)).
      { rewrite <- Hids, <- Hid. now apply in_map. }
      apply with_station_nonempty in Hin. unfold readings_of.
      destruct (with_station sid daily); [contradiction | discriminate]. }
    eexists. split; [reflexivity|]. simpl.
    split; [exact Hc|]. split; split; intros H0; congruence.
  - assert (Hz : readings_of sid daily = 0%nat).
    { unfold readings_of. rewrite with_station_empty; [reflexivity|].
      rewrite <- Hids. intros Hin. apply in_map_iff in Hin.
      destruct Hin as [st [Hid Hst]].
      pose proof (find_none _ _ Ef st Hst) as Hn. simpl in Hn.
      apply Z.eqb_neq in Hn. contradiction. }
    eexists. split; [reflexivity|]. simpl.
    split; [now rewrite Hz|]. split; split; intros _; first [reflexivity | exact Hz | discriminate].
Qed.

Lemma station_averages_of_all_witness :
  exists x,
    get_station_averages sample_day 9 "2024-01-01" None = Ok x
    /\ sa_record_count x = 0%nat.
Proof.
  destruct (get_all_stations_averages sample_day "2024-01-01" None) as [res|e] eqn:E;
    [|vm_compute in E; discriminate].
  destruct (station_averages_of_all sample_day 9 "2024-01-01" None
              {| Datetime.year := 2024; Datetime.month := 1; Datetime.day := 1 |} res
              eq_refl E) as [x [H1 [H2 _]]].
  exists x. split; [exact H1|]. rewrite H2. reflexivity.
Defined.

End AveragesMore.

Section RoundingAndTotality.
Import StationsService.

Lemma round2_hundredths (n : Z) : Stats.round2 (inject_Z n / 100) = (inject_Z n / 100)%Q.
Proof.
  unfold Stats.round2.
  assert (E : (inject_Z n / 100 * 100 == inject_Z n)%Q) by field.
  assert (Hf : Qfloor (inject_Z n / 100 * 100) = n).
  { rewrite E. apply Qfloor_Z. }
  rewrite Hf.
  assert (Hc : ((inject_Z n / 100 * 100 - inject_Z n) ?= 1 # 2)%Q = Lt).
  { assert (E0 : (inject_Z n / 100 * 100 - inject_Z n == 0)%Q) by (rewrite E; ring).
    rewrite E0. reflexivity. }
  now rewrite Hc.
Qed.

Lemma round2_idempotent (x : Q) : Stats.round2 (Stats.round2 x) = Stats.round2 x.
Proof.
  unfold Stats.round2 at 2 3. apply round2_hundredths.
Qed.

Lemma variable_stats_rounded (df : DataFrame) (sd : list Row) (v : string) (st : VarStats) :
  variable_stats df sd v = Ok (Some st) -> Stats.round2 (average st) = average st.
Proof.
  unfold variable_stats.
  destruct (has_column df v); [|discriminate].
  destruct (negb (is_empty (dropna (map (at_column df v) sd)))); [|discriminate].
  intros H. inv_bind H. injection H as <-. simpl. apply round2_idempotent.
Qed.

(** X4. In every station of a result, the value that "data" holds for a
    key of the map component is the "average" of the raw statistics of
    that key, or None when there is none: the second rounding of
    [_get_average_value] changes nothing. *)
Theorem data_holds_the_raw_average
    (df : DataFrame) (fecha : string) (vars : option (list string))
    (res : AveragesResult) (st : StationResult) (key : string) :
  get_all_stations_averages df fecha vars = Ok res ->
  In st (stations res) ->
  In key map_component_keys ->
  data_field key (data st)
  = match Py.get key (raw_averages st) with
    | Some (Some stats) => Some (average stats)
    | _ => None
    end.
Proof.
  intros H Hst Hkey.
  unfold get_all_stations_averages in H. inv_bind H. simpl in H.
  match type of H with
  | (if ?c then _ else _) = _ => destruct c
  end.
  { injection H as <-. destruct Hst. }
  inv_bind H. injection H as <-. simpl in Hst.
  destruct (stations_loop_In _ _ _ _ _ _ Ha0 Hst) as [sid [info [rest [_ [_ Hsr]]]]].
  unfold station_result in Hsr. inv_bind Hsr. injection Hsr as <-. simpl.
  assert (Hround : forall stats, Py.get key a1 = Some (Some stats) ->
                                 Stats.round2 (average stats) = average stats).
  { intros stats Hk. eapply variable_stats_rounded.
    apply (averages_loop_sound _ _ _ [] a1 Ha1); [|exact Hk].
    intros k0 s0 Hk0. discriminate. }
  simpl in Hkey.
  destruct Hkey as [<-|[<-|[<-|[<-|[<-|[<-|[<-|[]]]]]]]];
    unfold data_field, _get_average_value; simpl;
    match goal with
    | |- _ = match Py.get ?k a1 with _ => _ end =>
        destruct (Py.get k a1) as [[stats|]|] eqn:E; try reflexivity;
        f_equal; now apply Hround
    end.
Qed.

Lemma data_holds_the_raw_average_witness :
  exists res st,
    get_all_stations_averages sample_day "2024-01-01" None = Ok res
    /\ nth_error (stations res) 0 = Some st
    /\ data_field "temp" (data st)
       = match Py.get "temp" (raw_averages st) with
         | Some (Some stats) => Some (average stats)
         | _ => None
         end.
Proof.
  destruct (get_all_stations_averages sample_day "2024-01-01" None) as [res|e] eqn:E;
    [|vm_compute in E; discriminate].
  destruct (nth_error (stations res) 0) as [st|] eqn:E0;
    [|vm_compute in E; injection E as <-; discriminate].
  exists res, st. split; [reflexivity|]. split; [exact E0|].
  apply (data_holds_the_raw_average sample_day "2024-01-01" None res st "temp" E).
  - now apply nth_error_In with (n := O).
  - simpl. auto.
Defined.








(** A request for the mean of a column of text is an internal error. *)
Lemma average_of_names_is_500 :
  StationsController.status
    (StationsController.get_all_stations_averages
       (StationsController.stations_service sample_day) "2024-01-01" "station_name")
  = 500.
Proof. reflexivity. Qed.

End RoundingAndTotality.

Section StationLists.
Import StationsService.

Lemma insert_length {A : Type} (le : A -> A -> bool) (x : A) (l : list A) :
  List.length (Py.insert le x l) = S (List.length l).
Proof.
  induction l as [|y t IH]; simpl; [reflexivity|].
  destruct (le x y); simpl; [reflexivity | now rewrite IH].
Qed.

Lemma sort_length {A : Type} (le : A -> A -> bool) (l : list A) :
  List.length (Py.sort le l) = List.length l.
Proof.
  induction l as [|x t IH]; simpl; [reflexivity|].
  now rewrite insert_length, IH.
Qed.

Lemma sort_NoDup {A : Type} (le : A -> A -> bool) (l : list A) :
  NoDup l -> NoDup (Py.sort le l).
Proof.
  induction 1 as [|x t Hx Hnd IH]; simpl; [constructor|].
  assert (Hx' : ~ In x (Py.sort le t)) by now rewrite sort_In.
  revert IH Hx'. generalize (Py.sort le t). intros l.
  induction l as [|y l IHl]; simpl; intros Hl Hxl.
  - constructor; [intros [] | constructor].
  - destruct (le x y).
    + constructor; [exact Hxl | exact Hl].
    + inversion Hl as [|? ? Hy Hl']; subst. constructor.
      * rewrite insert_In. intros [->|H]; [apply Hxl; now left | contradiction].
      * apply IHl; [exact Hl'|]. intros H. apply Hxl. now right.
Qed.

Lemma sorted_map {A : Type} (le : A -> A -> bool) (f : A -> Z) (l : list A) :
  (forall a b, le a b = true -> f a <= f b) ->
  StronglySorted (holds le) l -> StronglySorted Z.le (map f l).
Proof.
  intros Hle. induction 1 as [|x t Hs IH Hx]; simpl; constructor; [exact IH|].
  apply Forall_forall. intros y Hy. apply in_map_iff in Hy.
  destruct Hy as [a [<- Ha]]. apply Hle. rewrite Forall_forall in Hx. now apply Hx.
Qed.

(** The distinct values of a sorted list are in strict order. *)
Lemma unique_sorted (l : list Z) :
  StronglySorted Z.le l -> forall seen, StronglySorted Z.lt (Py.unique_from Z.eqb seen l).
Proof.
  induction 1 as [|x t Hs IH Hx]; simpl; intros seen; [constructor|].
  destruct (existsb (Z.eqb x) seen); [apply IH|].
  constructor; [apply IH|].
  apply Forall_forall. intros y Hy. apply unique_from_In in Hy.
  destruct Hy as [Hy Hseen]. rewrite Forall_forall in Hx.
  pose proof (Hx y Hy).
  assert (y <> x) by (intros ->; apply Hseen; now left).
  lia.
Qed.

Lemma leb_total (x y : Z) : (x <=? y) = true \/ (y <=? x) = true.
Proof. rewrite !Z.leb_le. lia. Qed.

Lemma leb_trans (x y z : Z) : (x <=? y) = true -> (y <=? z) = true -> (x <=? z) = true.
Proof. rewrite !Z.leb_le. lia. Qed.

Lemma same_elements_same_length (l l' : list Z) :
  NoDup l -> NoDup l' -> (forall x, In x l <-> In x l') -> List.length l = List.length l'.
Proof.
  intros H H' Hiff. apply Nat.le_antisymm; apply NoDup_incl_length; try assumption;
    intros x Hx; now apply Hiff.
Qed.

Lemma group_first_id (l : list Row) (ids : list Z) :
  map se_station_id (map (group_first l) ids) = ids.
Proof. rewrite map_map. simpl. apply map_id. Qed.

(** X6. [get_stations_summary] lists the stations of the frame in the
    strict order of their ids: every station with a reading is there,
    once, nothing else is, and "total_stations" is the number of the
    distinct stations of the frame. *)
Theorem summary_is_the_ordered_station_list (df : DataFrame) (sid : Z) (r : Row) :
  In r (rows df) -> station_id r = sid ->
  let ids := map se_station_id (ss_stations (get_stations_summary df)) in
  In sid ids
  /\ StronglySorted Z.lt ids
  /\ (forall x, In x ids -> exists r', In r' (rows df) /\ station_id r' = x)
  /\ ss_total_stations (get_stations_summary df) = List.length (station_ids (rows df)).
Proof.
  intros Hr Hsid. cbv zeta. unfold get_stations_summary. simpl.
  rewrite group_first_id, length_map.
  set (sorted := Py.sort by_station_priority (rows df)).
  assert (Hiff : forall x, In x (station_ids sorted) <-> In x (station_ids (rows df))).
  { intros x. rewrite !station_ids_In. split; intros [r' [H1 H2]]; exists r'; split;
      try exact H2; now apply (sort_In by_station_priority). }
  split; [|split; [|split]].
  - apply Hiff. apply station_ids_In. eauto.
  - apply unique_sorted.
    apply (sorted_map by_station_priority).
    + intros a b H. apply by_station_priority_iff in H. lia.
    + apply sort_sorted;
        [exact by_station_priority_total | exact by_station_priority_trans].
  - intros x Hx. apply Hiff in Hx. now apply station_ids_In.
  - apply same_elements_same_length; [apply unique_from_NoDup | apply unique_from_NoDup | exact Hiff].
Qed.

Lemma summary_is_the_ordered_station_list_witness :
  map se_station_id (ss_stations (get_stations_summary sample_day)) = [3; 7]
  /\ In 7 (map se_station_id (ss_stations (get_stations_summary sample_day))).
Proof.
  split; [reflexivity|].
  apply (summary_is_the_ordered_station_list sample_day 7
           {| timestamp := 1704067200000000000; station_id := 7;
              station_name := Some "Halley UIS"; tipo_equipo := Some "AIR";
              lat := Some (7 # 1); lon := Some (-73 # 1);
              values := [("temp", 25 # 1)] |}).
  - simpl. auto.
  - reflexivity.
Defined.

(** *** AirLink only *)

Lemma has_label_eq (label : string) (r : Row) :
  has_label label r = true <-> tipo_equipo r = Some label.
Proof.
  unfold has_label. destruct (tipo_equipo r) as [t|]; [|split; discriminate].
  rewrite String.eqb_eq. split; [now intros -> | now intros [= ->]].
Qed.

(** The rows that [get_airlink_stations_summary] keeps. *)
Lemma airlink_row (df : DataFrame) (r : Row) :
  In r (filter (fun r => has_label "AIR" r
                          && negb (existsb (Z.eqb (station_id r))
                                     (station_ids (filter (has_label "VUE+AIR") (rows df)))))
               (rows df))
  <-> In r (rows df) /\ tipo_equipo r = Some "AIR"
      /\ forall r', In r' (rows df) -> station_id r' = station_id r ->
                    tipo_equipo r' <> Some "VUE+AIR".
Proof.
  rewrite filter_In, andb_true_iff, negb_true_iff, has_label_eq.
  assert (E : existsb (Z.eqb (station_id r))
                (station_ids (filter (has_label "VUE+AIR") (rows df))) = false
              <-> forall r', In r' (rows df) -> station_id r' = station_id r ->
                             tipo_equipo r' <> Some "VUE+AIR").
  { split.
    - intros Hf r' Hr' Hid Hl.
      assert (Ht : existsb (Z.eqb (station_id r))
                     (station_ids (filter (has_label "VUE+AIR") (rows df))) = true).
      { apply existsb_Zeqb. apply station_ids_In. exists r'. split; [|exact Hid].
        apply filter_In. split; [exact Hr' | now apply has_label_eq]. }
      congruence.
    - intros H.
      destruct (existsb (Z.eqb (station_id r))
                  (station_ids (filter (has_label "VUE+AIR") (rows df)))) eqn:Ex;
        [|reflexivity].
      apply existsb_Zeqb in Ex. apply station_ids_In in Ex.
      destruct Ex as [r' [Hr' Hid]]. apply filter_In in Hr'. destruct Hr' as [Hr' Hl].
      exfalso. apply (H r' Hr' Hid). now apply has_label_eq. }
  rewrite E. tauto.
Qed.

Lemma airlink_stations (df : DataFrame) :
  ss_stations (get_airlink_stations_summary df)
  = map (group_first
           (filter (fun r => has_label "AIR" r
                             && negb (existsb (Z.eqb (station_id r))
                                        (station_ids (filter (has_label "VUE+AIR") (rows df)))))
                   (rows df)))
        (Py.sort Z.leb
           (station_ids
              (filter (fun r => has_label "AIR" r
                                && negb (existsb (Z.eqb (station_id r))
                                           (station_ids (filter (has_label "VUE+AIR") (rows df)))))
                      (rows df)))).
Proof.
  unfold get_airlink_stations_summary.
  match goal with
  | |- context [is_empty ?l] => destruct l as [|r0 t] eqn:E
  end; reflexivity.
Qed.

(** X7. Every station that [get_airlink_stations_summary] lists is
    labelled AIR, has a reading labelled AIR and has no reading labelled
    VUE+AIR anywhere in the frame. *)
Theorem airlink_entries_are_air_only (df : DataFrame) (e : StationEntry) :
  In e (ss_stations (get_airlink_stations_summary df)) ->
  se_tipo_equipo e = Some "AIR"
  /\ (exists r, In r (rows df) /\ station_id r = se_station_id e
                /\ tipo_equipo r = Some "AIR")
  /\ (forall r, In r (rows df) -> station_id r = se_station_id e ->
                tipo_equipo r <> Some "VUE+AIR").
Proof.
  rewrite airlink_stations. intros He.
  apply in_map_iff in He. destruct He as [sid [<- Hsid]].
  apply sort_In in Hsid.
  pose proof (with_station_nonempty _ _ Hsid) as Hne.
  apply station_ids_In in Hsid. destruct Hsid as [r [Hr Hid]].
  pose proof Hr as Hr0. apply airlink_row in Hr0. destruct Hr0 as [Hin [Hair Hvue]].
  simpl. split; [|split].
  - unfold with_station in *.
    match goal with
    | |- Py.first_some _ ?g = _ => destruct g as [|h t] eqn:Eg
    end; [contradiction|].
    assert (Hh : In h (h :: t)) by now left.
    rewrite <- Eg in Hh. apply filter_In in Hh. destruct Hh as [Hh _].
    apply airlink_row in Hh. destruct Hh as [_ [Hl _]].
    simpl. now rewrite Hl.
  - exists r. auto.
  - intros r' Hr' Hid'. apply Hvue; [exact Hr' | congruence].
Qed.

Lemma airlink_entries_are_air_only_witness :
  exists e,
    ss_stations (get_airlink_stations_summary sample_airlink) = [e]
    /\ se_station_id e = 5 /\ se_tipo_equipo e = Some "AIR".
Proof.
  destruct (ss_stations (get_airlink_stations_summary sample_airlink)) as [|e [|e' l]] eqn:E;
    try (vm_compute in E; discriminate).
  exists e. split; [reflexivity|].
  split; [vm_compute in E; injection E as <-; reflexivity|].
  apply (airlink_entries_are_air_only sample_airlink e).
  rewrite E. now left.
Defined.

(** X8. A station with a reading labelled AIR and without any reading
    labelled VUE+AIR is listed by [get_airlink_stations_summary], once;
    the list is in the order of the ids and "total_stations" is its
    length. *)
Theorem airlink_lists_every_pure_station (df : DataFrame) (r : Row) :
  In r (rows df) -> tipo_equipo r = Some "AIR" ->
  (forall r', In r' (rows df) -> station_id r' = station_id r ->
              tipo_equipo r' <> Some "VUE+AIR") ->
  let stations := ss_stations (get_airlink_stations_summary df) in
  (exists e, filter (fun e => se_station_id e =? station_id r) stations = [e])
  /\ StronglySorted Z.le (map se_station_id stations)
  /\ ss_total_stations (get_airlink_stations_summary df) = List.length stations.
Proof.
  intros Hr Hair Hvue. cbv zeta.
  assert (Hrow : In r (filter (fun r => has_label "AIR" r
                          && negb (existsb (Z.eqb (station_id r))
                                     (station_ids (filter (has_label "VUE+AIR") (rows df)))))
               (rows df))).
  { apply airlink_row. auto. }
  split; [|split].
  - rewrite airlink_stations. eexists.
    rewrite filter_map_comm. simpl.
    rewrite filter_eqb_NoDup; [reflexivity | apply sort_NoDup, unique_from_NoDup |].
    apply sort_In. apply station_ids_In. eauto.
  - rewrite airlink_stations, group_first_id.
    match goal with
    | |- StronglySorted _ (Py.sort Z.leb ?L) =>
        assert (Hs : StronglySorted Z.le (map (fun x => x) (Py.sort Z.leb L)))
    end.
    { apply (sorted_map Z.leb).
      - intros a b H. now apply Z.leb_le.
      - apply sort_sorted; [exact leb_total | exact leb_trans]. }
    now rewrite map_id in Hs.
  - unfold get_airlink_stations_summary.
    match goal with
    | |- context [is_empty ?l] => destruct l as [|r0 t] eqn:E
    end; reflexivity.
Qed.

Lemma airlink_lists_every_pure_station_witness :
  exists e,
    filter (fun e => se_station_id e =? 5)
           (ss_stations (get_airlink_stations_summary sample_airlink)) = [e].
Proof.
  apply (airlink_lists_every_pure_station sample_airlink
           {| timestamp := 1704078000000000000; station_id := 5;
              station_name := Some "Parque"; tipo_equipo := Some "AIR";
              lat := Some (7 # 1); lon := Some (-73 # 1);
              values := [("pm_2_5", 12 # 1)] |}).
  - simpl. auto.
  - reflexivity.
  - intros r' Hr' Hid. simpl in Hr'.
    destruct Hr' as [<-|[<-|[<-|[<-|[]]]]]; simpl in *; discriminate.
Defined.

End StationLists.

Section DetailedData.
Import StationsService.







End DetailedData.

(* ================================================================== *)
(** * Properties of the queries of the store *)
(* ================================================================== *)

Section Queries.
Import DataQueries.

Lemma models_inv {A B : Type} (f : A -> result B) (l : list A) :
  forall l', models f l = Ok l' -> Forall2 (fun x y => f x = Ok y) l l'.
Proof.
  induction l as [|x t IH]; simpl; intros l' H.
  - injection H as <-. constructor.
  - inv_bind H. inv_bind H. injection H as <-. constructor; [exact Ha | now apply IH].
Qed.

Lemma station_data_of_fields (df : DataFrame) (row : Row) (x : StationData) :
  station_data_of df row = Ok x ->
  sd_station_id x = station_id row /\ sd_timestamp x = timestamp row
  /\ tipo_equipo row <> None /\ station_name row = Some (sd_station_name x).
Proof.
  unfold station_data_of. intros H. inv_bind H. inv_bind H. injection H as <-. simpl.
  unfold validate_str in Ha. destruct (station_name row); [|discriminate].
  injection Ha as <-.
  unfold validate_tipo in Ha0. destruct (tipo_equipo row); [|discriminate].
  repeat split. discriminate.
Qed.

(** X10. What [get_station_data] returns are readings of the station
    asked for, within the bounds of time that were given, one for each
    such reading of the frame and in the order of the frame. *)
Theorem station_data_are_of_the_station
    (df : DataFrame) (sid : Z) (start_date end_date : option Z) (data : list StationData) :
  get_station_data df sid start_date end_date = Ok data ->
  map sd_timestamp data
  = map timestamp (filter (between start_date end_date) (with_station sid (rows df)))
  /\ forall x, In x data ->
       sd_station_id x = sid
       /\ (forall s, start_date = Some s -> s <= sd_timestamp x)
       /\ (forall e, end_date = Some e -> sd_timestamp x <= e).
Proof.
  unfold get_station_data. intros H. apply models_inv in H.
  set (l := filter (between start_date end_date) (with_station sid (rows df))) in *.
  assert (Hl : forall row, In row l ->
                 station_id row = sid
                 /\ (forall s, start_date = Some s -> s <= timestamp row)
                 /\ (forall e, end_date = Some e -> timestamp row <= e)).
  { intros row Hrow. unfold l in Hrow. apply filter_In in Hrow.
    destruct Hrow as [Hrow Hb]. apply filter_In in Hrow. destruct Hrow as [_ Hs].
    unfold between in Hb. apply andb_true_iff in Hb. destruct Hb as [H1 H2].
    split; [now apply Z.eqb_eq|].
    split; intros b ->; now apply Z.leb_le. }
  clearbody l. induction H as [|row x l data Hx _ IH]; simpl.
  - split; [reflexivity | intros x []].
  - destruct (station_data_of_fields _ _ _ Hx) as [Hid [Hts _]].
    destruct IH as [IH1 IH2]; [intros r Hr; apply Hl; now right|].
    split; [now rewrite Hts, IH1|].
    intros y [<-|Hy]; [|now apply IH2].
    rewrite Hid, Hts. apply Hl. now left.
Qed.

Lemma station_data_are_of_the_station_witness :
  exists data,
    get_station_data sample_day 7 (Some 1704070000000000000) None = Ok data
    /\ map sd_timestamp data = [1704074400000000000].
Proof.
  destruct (get_station_data sample_day 7 (Some 1704070000000000000) None) as [data|e] eqn:E;
    [|vm_compute in E; discriminate].
  exists data. split; [reflexivity|].
  destruct (station_data_are_of_the_station sample_day 7 (Some 1704070000000000000) None
              data E) as [H _].
  rewrite H. reflexivity.
Defined.





(** *** The snapshot of the map *)

Lemma closest_spec (instant : Z) (first : Row) (others : list Row) :
  In (closest instant first others) (first :: others)
  /\ forall r, In r (first :: others) ->
       Z.abs (timestamp (closest instant first others) - instant)
       <= Z.abs (timestamp r - instant).
Proof.
  unfold closest. revert first.
  induction others as [|x t IH]; intros first; simpl.
  - split; [now left|]. intros r [<-|[]]. lia.
  - set (best := if Z.abs (timestamp x - instant) <? Z.abs (timestamp first - instant)
                 then x else first).
    destruct (IH best) as [Hin Hmin].
    assert (Hb : In best (first :: x :: t)
                 /\ Z.abs (timestamp best - instant) <= Z.abs (timestamp first - instant)
                 /\ Z.abs (timestamp best - instant) <= Z.abs (timestamp x - instant)).
    { unfold best.
      destruct (Z.ltb_spec (Z.abs (timestamp x - instant)) (Z.abs (timestamp first - instant)));
        simpl; repeat split; auto; lia. }
    destruct Hb as [Hb1 [Hb2 Hb3]].
    split.
    + destruct Hin as [<-|Hin]; [exact Hb1 | right; now right].
    + intros r [<-|[<-|Hr]].
      * pose proof (Hmin best (or_introl eq_refl)). lia.
      * pose proof (Hmin best (or_introl eq_refl)). lia.
      * apply Hmin. now right.
Qed.

Lemma closest_loop_inv (df : DataFrame) (instant : Z) (filtered : list Row) (ids : list Z) :
  forall points,
    closest_loop df instant filtered ids = Ok points ->
    Forall2 (fun sid p =>
               exists first others,
                 with_station sid filtered = first :: others
                 /\ map_point df (closest instant first others) = Ok p) ids points.
Proof.
  induction ids as [|sid ids IH]; simpl; intros points H.
  - injection H as <-. constructor.
  - destruct (with_station sid filtered) as [|first others] eqn:E; [discriminate|].
    inv_bind H. inv_bind H. injection H as <-.
    constructor; [eauto | now apply IH].
Qed.

Lemma record_at_column (df : DataFrame) (col : string) (r : Row) (v : option Q) :
  record_at df col r = Ok v ->
  existsb (String.eqb col) (measure_columns df) = true /\ v = Py.get col (values r).
Proof.
  unfold record_at. destruct (existsb (String.eqb col) (measure_columns df));
    [|discriminate].
  intros H. injection H as <-. split; reflexivity.
Qed.

Lemma map_point_columns (df : DataFrame) (r : Row) (p : MapDataPoint) :
  map_point df r = Ok p ->
  forall col, In col map_columns -> existsb (String.eqb col) (measure_columns df) = true.
Proof.
  unfold map_point. intros H. do 7 (inv_bind H).
  apply record_at_column in Ha, Ha0, Ha1, Ha2, Ha3, Ha4.
  intros col [<-|[<-|[<-|[<-|[<-|[<-|[]]]]]]]; tauto.
Qed.

(** X12. When [get_map_data] returns, for a timestamp that is
    timezone-aware, it gives one point for each station with a reading
    within the tolerance of the instant, in the order of their first
    such reading; the point is a reading of that station within the
    tolerance, and no reading of the station within the tolerance is
    nearer to the instant.  It returns a point only for a frame that
    has all the columns that the point reads: indexing the record by a
    column that is not there raises KeyError. *)
Theorem map_points_are_the_closest
    (df : DataFrame) (instant tolerance_minutes : Z) (points : list MapDataPoint) :
  get_map_data df instant tolerance_minutes = Ok points ->
  let near r := Z.abs (timestamp r - instant) <= minutes tolerance_minutes in
  (points <> [] ->
   forall col, In col map_columns -> existsb (String.eqb col) (measure_columns df) = true)
  /\ NoDup (map mp_station_id points)
  /\ (forall sid, In sid (map mp_station_id points)
                  <-> exists r, In r (rows df) /\ station_id r = sid /\ near r)
  /\ forall p, In p points ->
       Z.abs (mp_timestamp p - instant) <= minutes tolerance_minutes
       /\ (exists r, In r (rows df) /\ station_id r = mp_station_id p
                     /\ timestamp r = mp_timestamp p)
       /\ forall r, In r (rows df) -> station_id r = mp_station_id p -> near r ->
                    Z.abs (mp_timestamp p - instant) <= Z.abs (timestamp r - instant).
Proof.
  unfold get_map_data. intros H. cbv zeta.
  set (filtered := filter (fun r => (instant - minutes tolerance_minutes <=? timestamp r)
                                    && (timestamp r <=? instant + minutes tolerance_minutes))
                          (rows df)) in *.
  assert (Hf : forall r, In r filtered
                         <-> In r (rows df)
                             /\ Z.abs (timestamp r - instant) <= minutes tolerance_minutes).
  { intros r. unfold filtered. rewrite filter_In, andb_true_iff, !Z.leb_le. split.
    - intros [Hr Hb]. split; [exact Hr | lia].
    - intros [Hr Hb]. split; [exact Hr | lia]. }
  apply closest_loop_inv in H.
  assert (Hp : forall sid p first others,
             with_station sid filtered = first :: others ->
             map_point df (closest instant first others) = Ok p ->
             mp_station_id p = sid
             /\ Z.abs (mp_timestamp p - instant) <= minutes tolerance_minutes
             /\ (exists r, In r (rows df) /\ station_id r = mp_station_id p
                           /\ timestamp r = mp_timestamp p)
             /\ forall r, In r (rows df) -> station_id r = mp_station_id p ->
                          Z.abs (timestamp r - instant) <= minutes tolerance_minutes ->
                          Z.abs (mp_timestamp p - instant) <= Z.abs (timestamp r - instant)).
  { intros sid p first others Eg Hmp.
    destruct (closest_spec instant first others) as [Hin Hmin].
    rewrite <- Eg in Hin, Hmin.
    unfold map_point in Hmp. do 7 (inv_bind Hmp). injection Hmp as <-. simpl.
    apply filter_In in Hin. destruct Hin as [Hin Hsid].
    unfold is_station in Hsid. apply Z.eqb_eq in Hsid.
    apply Hf in Hin. destruct Hin as [Hin Hnear].
    split; [exact Hsid|]. split; [exact Hnear|]. split; [eauto|].
    intros r Hr Hid Hn. apply Hmin. apply filter_In. split; [now apply Hf|].
    unfold is_station. apply Z.eqb_eq. congruence. }
  assert (Hids : map mp_station_id points = station_ids filtered).
  { clear Hf. induction H as [|sid p ids pts [first [others [Eg Hmp]]] _ IH]; simpl;
      [reflexivity|].
    destruct (Hp sid p first others Eg Hmp) as [-> _]. now rewrite IH. }
  split.
  { intros Hne. destruct H as [|sid p ids pts [first [others [_ Hmp]]] _];
      [contradiction|].
    exact (map_point_columns _ _ _ Hmp). }
  split; [rewrite Hids; apply unique_from_NoDup|]. split.
  - intros sid. rewrite Hids, station_ids_In. split.
    + intros [r [Hr Hid]]. apply Hf in Hr. exists r. tauto.
    + intros [r [Hr [Hid Hn]]]. exists r. split; [now apply Hf | exact Hid].
  - intros p Hin. clear Hids.
    induction H as [|sid p0 ids pts [first [others [Eg Hmp]]] _ IH]; [destruct Hin|].
    destruct Hin as [<-|Hin]; [|now apply IH].
    destruct (Hp sid p0 first others Eg Hmp) as [_ [H1 [H2 H3]]]. auto.
Qed.

Lemma map_points_are_the_closest_witness :
  exists points,
    get_map_data sample_map_day 1704072000000000000 90 = Ok points
    /\ map mp_timestamp points = [1704074400000000000; 1704070800000000000].
Proof.
  destruct (get_map_data sample_map_day 1704072000000000000 90) as [points|e] eqn:E;
    [|vm_compute in E; discriminate].
  exists points. split; [reflexivity|].
  destruct (map_points_are_the_closest sample_map_day 1704072000000000000 90 points E)
    as [_ [Hnd _]].
  clear Hnd. vm_compute in E. injection E as <-. reflexivity.
Defined.

(** On the sample frame, which has no column of the pressure, the
    snapshot raises KeyError and the endpoint answers 500. *)
Lemma map_without_a_column_raises :
  get_map_data sample_day 1704072000000000000 90 = Raise (KeyError "presion")
  /\ Endpoints.get_map_snapshot sample_day (Endpoints.Aware 1704072000000000000) 90
     = Endpoints.HTTPException 500 Endpoints.ErrorInternoDelServidor.
Proof. split; reflexivity. Qed.

End Queries.

(* ================================================================== *)
(** * Properties of the routes *)
(* ================================================================== *)

Section Routes.
Import StationsRouter.

(** X13. No request is dispatched to [get_all_stations_averages]: the
    route "/{station_id}" stands before "/averages" in the table and
    matches every path of one piece, "averages" too, so GET
    /stations/averages goes to [get_station_data]; every other endpoint
    of the table is reached by some request. *)
Theorem averages_route_is_shadowed (m : method) (path : list string) :
  dispatch m path <> Some get_all_stations_averages
  /\ dispatch GET ["averages"] = Some get_station_data
  /\ forall e, e <> get_all_stations_averages -> exists m' path', dispatch m' path' = Some e.
Proof.
  split; [|split].
  - unfold dispatch, routes.
    destruct m; destruct path as [|a [|b [|c rest]]]; cbn -[String.eqb]; try discriminate;
      repeat match goal with
             | |- context [String.eqb ?x ?y] =>
                 destruct (String.eqb_spec x y); subst; cbn -[String.eqb]
             end;
      first [discriminate | congruence].
  - reflexivity.
  - intros e He. destruct e; try contradiction.
    + exists GET, [""]. reflexivity.
    + exists GET, ["airlink"]. reflexivity.
    + exists GET, ["7"]. reflexivity.
    + exists GET, ["map"; "snapshot"]. reflexivity.
    + exists POST, ["map"; "animation"]. reflexivity.
    + exists POST, ["timeseries"]. reflexivity.
    + exists GET, ["summary"; "data"]. reflexivity.
    + exists GET, ["7"; "detailed-data"]. reflexivity.
    + exists GET, ["7"; "averages"]. reflexivity.
Qed.

End Routes.

(* ================================================================== *)
(** * Further properties of the chatbot service *)
(* ================================================================== *)

Section ChatbotMore.
Import ChatbotService.

Lemma latest_row_spec (l : list Row) (latest : Row) :
  latest_row l = Ok latest ->
  In latest l /\ forall r, In r l -> timestamp r <= timestamp latest.
Proof.
  unfold latest_row. destruct l as [|first others]; [discriminate|].
  intros H. injection H as <-. revert first.
  induction others as [|x t IH]; intros first; simpl.
  - split; [now left|]. intros r [<-|[]]. lia.
  - set (best := if timestamp first <? timestamp x then x else first).
    destruct (IH best) as [Hin Hmax].
    assert (Hb : In best (first :: x :: t)
                 /\ timestamp first <= timestamp best /\ timestamp x <= timestamp best).
    { unfold best. destruct (Z.ltb_spec (timestamp first) (timestamp x));
        simpl; repeat split; auto; lia. }
    destruct Hb as [Hb1 [Hb2 Hb3]].
    split.
    + destruct Hin as [<-|Hin]; [exact Hb1 | right; now right].
    + intros r [<-|[<-|Hr]].
      * pose proof (Hmax best (or_introl eq_refl)). lia.
      * pose proof (Hmax best (or_introl eq_refl)). lia.
      * apply Hmax. now right.
Qed.

Lemma latest_row_total (l : list Row) : l <> [] -> exists latest, latest_row l = Ok latest.
Proof. destruct l; [contradiction | simpl; eauto]. Qed.

Lemma index_in_range {A : Type} (l : list A) (i : Z) :
  0 <= i < Z.of_nat (List.length l) ->
  exists x, Py.index l i = Ok x /\ nth_error l (Z.to_nat i) = Some x.
Proof.
  intros Hi. unfold Py.index.
  destruct (Z.ltb_spec i 0); [lia|].
  destruct (Z.leb_spec 0 i); [|lia].
  destruct (Z.ltb_spec i (Z.of_nat (List.length l))); [|lia]. simpl.
  destruct (nth_error l (Z.to_nat i)) as [x|] eqn:E; [eauto|].
  apply nth_error_None in E. lia.
Qed.

(** X14. For a number from 1 to the number of the stations,
    [estacion_por_numero] answers with the station at that position of
    the sorted ids and with the reading of that station that has the
    greatest timestamp; above that range it answers with the bounds. *)
Theorem station_by_number_in_range (df : DataFrame) (numero : Z) :
  1 <= numero ->
  let ids := Py.sort Z.leb (station_ids (rows df)) in
  (numero <= Z.of_nat (List.length ids) ->
   exists sid name latest,
     nth_error ids (Z.to_nat (numero - 1)) = Some sid
     /\ estacion_por_numero df numero = Ok (EstacionInfo numero name latest)
     /\ In latest (rows df) /\ station_id latest = sid
     /\ forall r, In r (rows df) -> station_id r = sid -> timestamp r <= timestamp latest)
  /\ (Z.of_nat (List.length ids) < numero ->
      estacion_por_numero df numero = Ok (SoloTenemos (List.length ids))).
Proof.
  intros Hpos. cbv zeta. rewrite sort_length. split.
  - intros Hle. unfold estacion_por_numero.
    destruct (Z.leb_spec numero (Z.of_nat (List.length (station_ids (rows df))))); [|lia].
    destruct (index_in_range (Py.sort Z.leb (station_ids (rows df))) (numero - 1))
      as [sid [Hidx Hnth]]; [rewrite sort_length; lia|].
    rewrite Hidx. simpl.
    assert (Hsid : In sid (station_ids (rows df))).
    { apply (sort_In Z.leb). eapply nth_error_In. exact Hnth. }
    pose proof (with_station_nonempty _ _ Hsid) as Hne.
    destruct (with_station sid (rows df)) as [|first others] eqn:Eg; [contradiction|].
    destruct (latest_row_total (first :: others)) as [latest Hl]; [discriminate|].
    exists sid, (station_name first), latest.
    split; [exact Hnth|].
    split.
    { pose proof Hl as Hl'. simpl in Hl'. injection Hl' as Hl'.
      unfold Py.index. simpl. rewrite Hl'. reflexivity. }
    apply latest_row_spec in Hl. destruct Hl as [Hin Hmax].
    rewrite <- Eg in Hin, Hmax.
    apply filter_In in Hin. destruct Hin as [Hin Hs].
    split; [exact Hin|]. split; [now apply Z.eqb_eq|].
    intros r Hr Hrs. apply Hmax. apply filter_In. split; [exact Hr|].
    unfold is_station. now apply Z.eqb_eq.
  - intros Hgt. unfold estacion_por_numero.
    destruct (Z.leb_spec numero (Z.of_nat (List.length (station_ids (rows df))))); [lia|].
    reflexivity.
Qed.

Lemma station_by_number_in_range_witness :
  exists latest,
    estacion_por_numero sample_day 1 = Ok (EstacionInfo 1 (Some "Centro") latest)
    /\ station_id latest = 3.
Proof.
  destruct (station_by_number_in_range sample_day 1) as [H _]; [lia|].
  destruct H as [sid [name [latest [Hnth [He [_ [Hs _]]]]]]]; [vm_compute; discriminate|].
  vm_compute in Hnth. injection Hnth as <-.
  exists latest. split; [|exact Hs].
  rewrite He. vm_compute in He. injection He as <- <-. reflexivity.
Defined.

(** *** The data of the chat *)

Lemma summaries_inv (df : DataFrame) (ids : list Z) :
  forall l,
    summaries df ids = Ok l ->
    Forall2 (fun sid st =>
               su_station_id st = sid
               /\ su_total_records st = readings_of sid (rows df)
               /\ exists latest,
                    su_latest_measurements st = Some latest
                    /\ exists row, latest_row (with_station sid (rows df)) = Ok row
                                   /\ lm_timestamp latest = timestamp row) ids l.
Proof.
  induction ids as [|sid ids IH]; simpl; intros l H.
  - injection H as <-. constructor.
  - inv_bind H. inv_bind H. inv_bind H. inv_bind H. inv_bind H. injection H as <-.
    constructor; [|now apply IH].
    simpl. split; [reflexivity|]. split; [reflexivity|].
    unfold _get_latest_measurements in Ha0. inv_bind Ha0. injection Ha0 as <-.
    eexists. split; [reflexivity|]. simpl. eauto.
Qed.

(** X15. The data of the chat has one summary for each distinct station
    of the frame, in the order of their first reading; the records of
    the summaries add up to "total_records", the number of the rows; and
    the latest measurements of a station carry the greatest timestamp of
    its readings. *)
Theorem chat_data_summaries (df : DataFrame) (complete_data : ChatbotDataResponse) :
  get_complete_data_for_chatbot df = Ok complete_data ->
  map su_station_id (stations complete_data) = station_ids (rows df)
  /\ list_sum (map su_total_records (stations complete_data)) = total_records complete_data
  /\ total_records complete_data = List.length (rows df)
  /\ forall st, In st (stations complete_data) ->
       exists latest,
         su_latest_measurements st = Some latest
         /\ (exists r, In r (rows df) /\ station_id r = su_station_id st
                       /\ timestamp r = lm_timestamp latest)
         /\ forall r, In r (rows df) -> station_id r = su_station_id st ->
                      timestamp r <= lm_timestamp latest.
Proof.
  unfold get_complete_data_for_chatbot, _get_stations_summary. intros H.
  inv_bind H. inv_bind H. injection H as <-. simpl.
  apply summaries_inv in Ha.
  assert (Hids : map su_station_id a = station_ids (rows df)
                 /\ map su_total_records a
                    = map (fun sid => readings_of sid (rows df)) (station_ids (rows df))).
  { clear Ha0. induction Ha as [|sid st ids l [H1 [H2 _]] _ [IH1 IH2]]; simpl; [auto|].
    now rewrite H1, H2, IH1, IH2. }
  destruct Hids as [Hids Hcounts].
  split; [exact Hids|]. split; [|split; [reflexivity|]].
  - rewrite Hcounts. apply readings_partition; [apply unique_from_NoDup|].
    intros r Hr. apply station_ids_In. eauto.
  - intros st Hst. clear Hids Hcounts Ha0.
    induction Ha as [|sid st0 ids l [H1 [_ [latest [Hl [row [Hrow Hts]]]]]] _ IH];
      [destruct Hst|].
    destruct Hst as [<-|Hst]; [|now apply IH].
    exists latest. split; [exact Hl|].
    apply latest_row_spec in Hrow. destruct Hrow as [Hin Hmax].
    apply filter_In in Hin. destruct Hin as [Hin Hs]. apply Z.eqb_eq in Hs.
    rewrite H1, Hts. split; [eauto|].
    intros r Hr Hrs. apply Hmax. apply filter_In. split; [exact Hr|].
    unfold is_station. now apply Z.eqb_eq.
Qed.

Lemma chat_data_summaries_witness :
  exists complete_data,
    get_complete_data_for_chatbot sample_day = Ok complete_data
    /\ map su_station_id (stations complete_data) = [7; 3]
    /\ total_records complete_data = 3%nat.
Proof.
  destruct (get_complete_data_for_chatbot sample_day) as [cd|e] eqn:E;
    [|vm_compute in E; discriminate].
  exists cd. split; [reflexivity|].
  destruct (chat_data_summaries sample_day cd E) as [H1 [_ [H3 _]]].
  split; [rewrite H1; reflexivity | rewrite H3; reflexivity].
Defined.

(** *** The filtered data *)

Lemma remove_nth_In {A : Type} (l : list A) :
  forall i x, In x (Py.remove_nth i l) -> In x l.
Proof.
  induction l as [|y t IH]; intros i x H; [destruct i; destruct H|].
  destruct i as [|j]; simpl in H; [now right|].
  destruct H as [<-|H]; [now left | right; now apply (IH j)].
Qed.

Lemma draw_In {A : Type} (rng : nat -> nat) (n : nat) :
  forall (k : nat) (l : list A) x, In x (Py.draw rng k n l) -> In x l.
Proof.
  induction n as [|n IH]; simpl; intros k l x H; [destruct H|].
  destruct (nth_error l (Nat.modulo (rng k) (List.length l))) as [y|] eqn:E; [|destruct H].
  destruct H as [<-|H].
  - eapply nth_error_In. exact E.
  - apply IH in H. eapply remove_nth_In. exact H.
Qed.

Lemma filter_dates_In (to_datetime : string -> result Z) (date_range : Py.dict string)
    (l l' : list Row) (r : Row) :
  filter_dates to_datetime date_range l = Ok l' -> In r l' ->
  In r l
  /\ (forall text, Py.get "start" date_range = Some text ->
        exists start_date, to_datetime text = Ok start_date /\ start_date <= timestamp r)
  /\ (forall text, Py.get "end" date_range = Some text ->
        exists end_date, to_datetime text = Ok end_date /\ timestamp r <= end_date).
Proof.
  unfold filter_dates. intros H Hr. inv_bind H.
  assert (Hstart : In r a -> In r l
            /\ forall text, Py.get "start" date_range = Some text ->
                 exists start_date, to_datetime text = Ok start_date
                                    /\ start_date <= timestamp r).
  { destruct (Py.get "start" date_range) as [text|].
    - inv_bind Ha. injection Ha as <-. intros Hin. apply filter_In in Hin.
      destruct Hin as [Hin Hb]. split; [exact Hin|].
      intros t [= <-]. exists a0. split; [exact Ha0 | now apply Z.leb_le].
    - injection Ha as <-. intros Hin. split; [exact Hin | discriminate]. }
  destruct (Py.get "end" date_range) as [text|].
  - inv_bind H. injection H as <-. apply filter_In in Hr. destruct Hr as [Hr Hb].
    destruct (Hstart Hr) as [H1 H2]. split; [exact H1|]. split; [exact H2|].
    intros t [= <-]. exists a0. split; [exact Ha0 | now apply Z.leb_le].
  - injection H as <-. destruct (Hstart Hr) as [H1 H2].
    split; [exact H1|]. split; [exact H2 | discriminate].
Qed.

(** X16. Every row that [get_filtered_data] returns under "data" is a
    reading of the frame, cut down to the selected columns: it is of
    one of the stations of the query, when the query names stations,
    and within the bounds of the query, when the query has a range of
    dates; the sample takes rows of the filtered frame only. *)
Theorem filtered_rows_match_the_query
    (to_datetime : string -> result Z) (rng : nat -> nat)
    (svc : self) (query : ChatbotQuery) (res : FilteredResult) (data : list Row) (row : Row) :
  get_filtered_data to_datetime rng svc query = Ok res ->
  fr_data res = Some data -> In row data ->
  exists r,
    In r (rows (cs_df svc))
    /\ station_id row = station_id r /\ timestamp row = timestamp r
    /\ (forall id ids, q_stations query = Some (id :: ids) -> In (station_id r) (id :: ids))
    /\ (forall date_range text,
          q_date_range query = Some date_range -> Py.get "start" date_range = Some text ->
          exists start_date, to_datetime text = Ok start_date /\ start_date <= timestamp r)
    /\ (forall date_range text,
          q_date_range query = Some date_range -> Py.get "end" date_range = Some text ->
          exists end_date, to_datetime text = Ok end_date /\ timestamp r <= end_date).
Proof.
  intros H Hdata Hrow. unfold get_filtered_data in H.
  inv_bind H. inv_bind H. inv_bind H. injection H as <-. simpl in Hdata.
  destruct (include_raw_data query); [|discriminate]. injection Hdata as <-.
  (* the rows after the sample and the selection are rows before them *)
  assert (Horig : exists r, In r a /\ station_id row = station_id r
                            /\ timestamp row = timestamp r).
  { clear Ha Ha1.
    destruct (q_variables query) as [[|v vars]|];
      (match type of Ha0 with
       | (if ?c then _ else _) = _ => destruct c
       end;
       [ unfold sample in Ha0;
         destruct (max_records query <? 0); [discriminate|];
         match type of Ha0 with
         | (if ?c then _ else _) = _ => destruct c
         end; [discriminate|];
         injection Ha0 as <-; apply draw_In in Hrow
       | injection Ha0 as <- ]);
      try (exists row; auto; fail);
      apply in_map_iff in Hrow; destruct Hrow as [r [<- Hr]]; exists r; auto. }
  destruct Horig as [r [Hr [Hid Hts]]].
  match type of Ha with
  | context [filter_dates _ _ ?l] => set (l0 := l) in *
  end.
  assert (Hl0 : forall x, In x l0 ->
                  In x (rows (cs_df svc))
                  /\ forall id ids, q_stations query = Some (id :: ids) ->
                                    In (station_id x) (id :: ids)).
  { intros x Hx. unfold l0 in Hx.
    destruct (q_stations query) as [[|id ids]|]; try (split; [exact Hx | discriminate]).
    apply filter_In in Hx. destruct Hx as [Hx Hb].
    split; [exact Hx|]. intros id' ids' [= <- <-]. now apply existsb_Zeqb. }
  exists r.
  destruct (q_date_range query) as [[|kv date_range]|] eqn:Ed.
  - injection Ha as <-. destruct (Hl0 r Hr) as [H1 H2].
    split; [exact H1|]. split; [exact Hid|]. split; [exact Hts|]. split; [exact H2|].
    split; intros dr text [= <-]; discriminate.
  - destruct (filter_dates_In _ _ _ _ r Ha Hr) as [Hin [Hs He]].
    destruct (Hl0 r Hin) as [H1 H2].
    split; [exact H1|]. split; [exact Hid|]. split; [exact Hts|]. split; [exact H2|].
    split; intros dr text [= <-]; [apply Hs | apply He].
  - injection Ha as <-. destruct (Hl0 r Hr) as [H1 H2].
    split; [exact H1|]. split; [exact Hid|]. split; [exact Hts|]. split; [exact H2|].
    split; intros dr text; discriminate.
Qed.

Lemma filtered_rows_match_the_query_witness :
  exists res,
    get_filtered_data no_dates first_left sample_chatbot sample_station_query = Ok res
    /\ (forall data row, fr_data res = Some data -> In row data -> station_id row = 7)
    /\ exists row, fr_data res = Some [row].
Proof.
  destruct (get_filtered_data no_dates first_left sample_chatbot sample_station_query)
    as [res|e] eqn:E; [|vm_compute in E; discriminate].
  exists res. split; [reflexivity|]. split.
  - intros data row Hd Hr.
    destruct (filtered_rows_match_the_query no_dates first_left sample_chatbot
                sample_station_query res data row E Hd Hr) as [r [_ [Hid [_ [Hst _]]]]].
    rewrite Hid. destruct (Hst 7 [] eq_refl) as [<-|[]]. reflexivity.
  - vm_compute in E. injection E as <-. eexists. reflexivity.
Defined.

End ChatbotMore.

(* ================================================================== *)
(** * Further properties of the calls to the model *)
(* ================================================================== *)

Section ModelCalls.

Lemma all_results_bind {A B : Type} (P : B -> Prop) (c : chat A) (f : A -> chat B) :
  all_results (fun a => all_results P (f a)) c -> all_results P (chat_bind c f).
Proof.
  induction c as [a|model prompt k IH]; simpl; [auto|].
  intros H r. apply IH, H.
Qed.

Lemma no_ai_call_bind {A B : Type} (c : chat A) (f : A -> chat B) :
  no_ai_call c -> (forall a, no_ai_call (f a)) -> no_ai_call (chat_bind c f).
Proof. intros [a ->] Hf. simpl. apply Hf. Qed.

Lemma no_ai_call_Done {A : Type} (a : A) : no_ai_call (Done a).
Proof. now exists a. Qed.

Lemma contexto_needs_rows (df : DataFrame) (u : unit) :
  ChatbotService._crear_contexto_para_gemini df = Ok u ->
  rows df <> []
  /\ forall col, In col ChatbotService.columnas_del_contexto ->
       existsb (String.eqb col) (measure_columns df) = true.
Proof.
  unfold ChatbotService._crear_contexto_para_gemini. intros H. inv_bind H.
  split.
  - destruct (rows df); [discriminate Ha | discriminate].
  - destruct (find _ ChatbotService.columnas_del_contexto) eqn:E; [discriminate|].
    intros col Hin. pose proof (find_none _ _ E col Hin) as Hc.
    now apply negb_false_iff in Hc.
Qed.

(** X17. When [responder_pregunta] calls the model, an API key is
    configured, the frame has rows, no exact phrase and no pattern of
    the heuristics answered, and the question has a word of the climate
    or is a contextual one; the prompt is the one of the expert over
    the whole question, and whatever the model does the reply follows
    with no second call: the stripped text, or the apology when the
    call failed. *)
Theorem model_is_asked_once_and_on_topic
    (svc : ChatbotService.self) (pregunta model : string) (prompt : Prompt)
    (k : result string -> chat ChatbotService.respuesta) :
  ChatbotService.responder_pregunta svc pregunta = AskGemini model prompt k ->
  ChatbotService.cs_has_gemini svc = true
  /\ rows (ChatbotService.cs_df svc) <> []
  /\ ChatbotService._responder_heuristico (ChatbotService.cs_df svc) pregunta = Ok None
  /\ (ChatbotService._es_pregunta_climatica pregunta
      || PyStr.contains "📍 **Estación:**" pregunta
      || PyStr.contains "📊 **Promedios del período:**" pregunta) = true
  /\ model = "gemini-2.5-pro"
  /\ prompt = PromptExperto (ChatbotService.cs_df svc) pregunta
  /\ (forall text, k (Ok text) = Done (ChatbotService.RespuestaGemini (PyStr.strip text)))
  /\ (forall e, k (Raise e) = Done ChatbotService.NoPudeProcesarConIA).
Proof.
  unfold ChatbotService.responder_pregunta.
  destruct (ChatbotService._responder_heuristico (ChatbotService.cs_df svc) pregunta)
    as [[r|]|e]; try discriminate.
  destruct (ChatbotService.cs_has_gemini svc); [|discriminate].
  unfold ChatbotService._responder_con_gemini.
  destruct (ChatbotService._es_pregunta_climatica pregunta);
    destruct (PyStr.contains "📍 **Estación:**" pregunta);
    destruct (PyStr.contains "📊 **Promedios del período:**" pregunta);
    cbn [negb andb orb]; try discriminate;
    (destruct (ChatbotService._crear_contexto_para_gemini (ChatbotService.cs_df svc))
       as [u|e] eqn:Ec; [|discriminate];
     apply contexto_needs_rows in Ec; destruct Ec as [Ec _];
     intros H; injection H as <- <- <-;
     repeat split; first [exact Ec | discriminate]).
Qed.

Lemma model_is_asked_once_and_on_topic_witness :
  exists k,
    ChatbotService.responder_pregunta sample_chatbot "¿lloverá mañana con viento?"
    = AskGemini "gemini-2.5-pro" (PromptExperto sample_day "¿lloverá mañana con viento?") k
    /\ k (Raise (OtherError "ServerError")) = Done ChatbotService.NoPudeProcesarConIA.
Proof.
  destruct (ChatbotService.responder_pregunta sample_chatbot "¿lloverá mañana con viento?")
    as [a|model prompt k] eqn:E; [vm_compute in E; discriminate|].
  destruct (model_is_asked_once_and_on_topic sample_chatbot _ model prompt k E)
    as [_ [_ [_ [_ [-> [-> [_ Hk]]]]]]].
  exists k. split; [reflexivity | apply Hk].
Defined.

(** X18. POST /chatbot/message answers with status 200 whatever the
    frame, the message and the model; POST /chatbot/explain answers 503
    without a call when no API key is configured, and with a key its
    status is 200 whatever the model does: its handler of the status
    500 is never reached. *)
Theorem chat_endpoints_statuses (svc : ChatbotService.self) (message : string) :
  all_results (fun r => Endpoints.status r = 200) (Endpoints.send_chat_message svc message)
  /\ (ChatbotService.cs_has_gemini svc = false ->
      Endpoints.explain_data_with_gemini svc message
      = Done (Endpoints.HTTPException 503 Endpoints.GeminiNoDisponible))
  /\ (ChatbotService.cs_has_gemini svc = true ->
      all_results (fun r => Endpoints.status r = 200)
        (Endpoints.explain_data_with_gemini svc message)).
Proof.
  split; [|split].
  - unfold Endpoints.send_chat_message. apply all_results_bind.
    unfold ChatbotService.responder_pregunta.
    destruct (ChatbotService._responder_heuristico (ChatbotService.cs_df svc) message)
      as [[r|]|e]; simpl; try reflexivity.
    destruct (ChatbotService.cs_has_gemini svc); [|reflexivity].
    unfold ChatbotService._responder_con_gemini.
    destruct (negb _ && negb _); [reflexivity|].
    destruct (ChatbotService._crear_contexto_para_gemini _); simpl; [|reflexivity].
    intros [text|e]; reflexivity.
  - intros H. unfold Endpoints.explain_data_with_gemini. now rewrite H.
  - intros H. unfold Endpoints.explain_data_with_gemini, Endpoints.responder_con_gemini.
    rewrite H. simpl. apply all_results_bind. apply all_results_bind.
    unfold ChatbotService._responder_con_gemini.
    destruct (negb _ && negb _); [reflexivity|].
    destruct (ChatbotService._crear_contexto_para_gemini _); simpl; [|reflexivity].
    intros [text|e]; simpl; [|reflexivity].
    destruct (_ =? _)%string; reflexivity.
Qed.

End ModelCalls.

(* ================================================================== *)
(** * Further properties of the conversation *)
(* ================================================================== *)

Section Conversation.
Import GeminiChatService.

Ltac branches :=
  repeat match goal with
         | |- no_ai_call (Done _) => apply no_ai_call_Done
         | |- no_ai_call (if ?c then _ else _) => destruct c
         | |- no_ai_call (match ?x with _ => _ end) => destruct x
         end.

Lemma interpretar_without_key
    (json_loads : string -> option (option Intent)) (s : self) (pregunta : string) :
  has_gemini s = false -> no_ai_call (interpretar_pregunta json_loads s pregunta).
Proof.
  intros H. unfold interpretar_pregunta. rewrite H. cbn [negb]. branches.
Qed.

Lemma componer_without_key (random_choice : nat) (s : self) (pregunta : string) (i : Intent) :
  has_gemini s = false -> no_ai_call (componer random_choice s pregunta i).
Proof.
  intros H. unfold componer, responder_con_ia. rewrite H. cbn [negb chat_bind].
  branches.
Qed.

(** X19. Without an API key [procesar_pregunta] never calls the model,
    whatever the message, the frame and the menu shown last. *)
Theorem no_key_no_model_call
    (json_loads : string -> option (option Intent)) (random_choice : nat)
    (s : self) (pregunta : string) :
  has_gemini s = false ->
  no_ai_call (procesar_pregunta json_loads random_choice s pregunta).
Proof.
  intros H. unfold procesar_pregunta. apply no_ai_call_bind.
  - now apply interpretar_without_key.
  - intros [[i|]|e]; [now apply componer_without_key | apply no_ai_call_Done ..].
Qed.

Lemma no_key_no_model_call_witness :
  no_ai_call (procesar_pregunta no_json 0 sample_chat_no_key "¿cuál es la mejor estación?").
Proof.
  apply (no_key_no_model_call no_json 0 sample_chat_no_key). reflexivity.
Defined.

Lemma lower_a_strip (pregunta : string) :
  PyStr.lower pregunta = "a" -> PyStr.strip (PyStr.lower pregunta) = "a".
Proof. intros ->. reflexivity. Qed.

(** The reply and the menu of the list of the stations. *)
Lemma listing (random_choice : nat) (s : self) (pregunta : string) (i : Intent) :
  accion i <> Some "saludo" ->
  accion i = Some "listar" \/ PyStr.lower pregunta = "a" ->
  exists r,
    componer random_choice s pregunta i = Done (r, set_last_menu_shown s (Some estaciones))
    /\ is_station_list r
    /\ forall names, r = EstacionesDisponibles names ->
          exists complete_data,
            ChatbotService.get_complete_data_for_chatbot (chatbot_service s) = Ok complete_data
            /\ names = map ChatbotService.su_station_name (ChatbotService.stations complete_data).
Proof.
  intros Hs Hl. unfold componer.
  set (a := match accion i with Some a => a | None => "general" end).
  assert (Ha : String.eqb a "saludo" = false).
  { unfold a. destruct (accion i) as [x|]; [|reflexivity].
    apply String.eqb_neq. congruence. }
  assert (Hb : (String.eqb a "listar" || String.eqb (PyStr.lower pregunta) "a") = true).
  { destruct Hl as [Hl|Hl].
    - unfold a. rewrite Hl. reflexivity.
    - rewrite Hl. apply orb_true_r. }
  rewrite Ha, Hb.
  destruct (ChatbotService.get_complete_data_for_chatbot (chatbot_service s)) as [cd|e].
  - destruct (ChatbotService.stations cd) as [|st sts] eqn:Est.
    + eexists. split; [reflexivity|]. split; [exact I | discriminate].
    + eexists. split; [reflexivity|]. split; [exact I|].
      intros names [= <-]. exists cd. split; [reflexivity|]. now rewrite Est.
  - eexists. split; [reflexivity|]. split; [exact I | discriminate].
Qed.

(** X20. The message "a" (or "A") lists the stations in every state of
    the chat, with or without an API key and whatever menu was shown
    last, without a call to the model, and the menu is then the one of
    the stations: in the menu of the concepts the letter A does not
    reach its concept. *)
Theorem letter_a_lists_the_stations
    (json_loads : string -> option (option Intent)) (random_choice : nat)
    (s : self) (pregunta : string) :
  pregunta = "a" \/ pregunta = "A" ->
  exists r,
    procesar_pregunta json_loads random_choice s pregunta
    = Done (r, set_last_menu_shown s (Some estaciones))
    /\ is_station_list r.
Proof.
  intros Hp.
  assert (Hi : exists i, interpretar_pregunta json_loads s pregunta = Done (Ok (Some i))
                         /\ accion i <> Some "saludo").
  { destruct Hp as [-> | ->]; unfold interpretar_pregunta;
      destruct (last_menu_shown s); destruct (has_gemini s); cbn;
      eexists; (split; [reflexivity | discriminate]). }
  destruct Hi as [i [Hi Hs]].
  unfold procesar_pregunta. rewrite Hi. cbn [chat_bind].
  destruct (listing random_choice s pregunta i Hs) as [r [Hr [Hl _]]].
  { right. destruct Hp as [-> | ->]; reflexivity. }
  exists r. split; assumption.
Qed.

Lemma letter_a_lists_the_stations_witness :
  procesar_pregunta no_json 0 sample_chat_concepts "A"
  = Done (EstacionesDisponibles ["Halley UIS"; "Centro"],
          set_last_menu_shown sample_chat_concepts (Some estaciones)).
Proof.
  destruct (letter_a_lists_the_stations no_json 0 sample_chat_concepts "A") as [r [Hr _]];
    [now right|].
  rewrite Hr. vm_compute in Hr. injection Hr as <-. reflexivity.
Defined.

(** X21. A greeting goes before everything else: an empty message, or
    one whose lowered and stripped text has one of the words of
    [saludos] anywhere inside (also inside another word), is answered
    with the greeting and the menu is reset, with no call to the model;
    no other rule is looked at. *)
Theorem greeting_goes_first
    (json_loads : string -> option (option Intent)) (random_choice : nat)
    (s : self) (pregunta : string) :
  pregunta = EmptyString
  \/ PyStr.contains_any saludos (PyStr.strip (PyStr.lower pregunta)) = true ->
  procesar_pregunta json_loads random_choice s pregunta
  = Done (Saludo random_choice, set_last_menu_shown s None).
Proof.
  intros H. unfold procesar_pregunta, interpretar_pregunta.
  destruct pregunta as [|c p]; [reflexivity|].
  destruct H as [H|H]; [discriminate|].
  rewrite H. reflexivity.
Qed.

Lemma greeting_goes_first_witness :
  procesar_pregunta no_json 2 sample_chat_with_key "Historial de temperatura de la estación 3"
  = Done (Saludo 2, set_last_menu_shown sample_chat_with_key None).
Proof.
  apply (greeting_goes_first no_json 2 sample_chat_with_key). right. reflexivity.
Defined.

Lemma digits_are_not_the_letter_a (pregunta group1 : string) :
  numero_match (PyStr.strip (PyStr.lower pregunta)) = Some group1 ->
  String.eqb (PyStr.lower pregunta) "a" = false.
Proof.
  intros Hnum. destruct (numero_match_inv _ _ Hnum) as [_ [Hdig _]].
  destruct (String.eqb_spec (PyStr.lower pregunta) "a") as [E|]; [|reflexivity].
  rewrite E in Hdig. vm_compute in Hdig. discriminate.
Qed.

(** X22. The numbers follow the list: when "a" answered with the list
    of the stations and an API key is configured, a message that is a
    number that [int] converts (4300 digits at most), from 1 to the
    length of that list, is answered, without a call to the model, with
    the state of the station whose name stands at that position of the
    list (or with the notice that it has no recent data), and the menu
    is reset. *)
Theorem number_picks_the_listed_station
    (json_loads : string -> option (option Intent)) (random_choice : nat)
    (s s1 : self) (names : list string) (pregunta group1 : string) (numero : Z) :
  has_gemini s = true ->
  procesar_pregunta json_loads random_choice s "a" = Done (EstacionesDisponibles names, s1) ->
  numero_match (PyStr.strip (PyStr.lower pregunta)) = Some group1 ->
  PyStr.int group1 = Ok numero ->
  1 <= numero <= Z.of_nat (List.length names) ->
  exists name r,
    nth_error names (Z.to_nat (numero - 1)) = Some name
    /\ procesar_pregunta json_loads random_choice s1 pregunta
       = Done (r, set_last_menu_shown s1 None)
    /\ (r = NoHayDatosRecientes name
        \/ exists latest, r = EstadoActualPorNumero name latest (interpretacion latest)).
Proof.
  intros Hk Ha Hnum Hint Hn.
  (* what the list was made of *)
  assert (Hi : exists i, interpretar_pregunta json_loads s "a" = Done (Ok (Some i))
                         /\ accion i <> Some "saludo").
  { unfold interpretar_pregunta. rewrite Hk.
    destruct (last_menu_shown s); cbn; eexists; (split; [reflexivity | discriminate]). }
  destruct Hi as [i [Hi Hs]].
  unfold procesar_pregunta in Ha. rewrite Hi in Ha. cbn [chat_bind] in Ha.
  destruct (listing random_choice s "a" i Hs (or_intror eq_refl)) as [r0 [Hr0 [_ Hnames]]].
  rewrite Hr0 in Ha. injection Ha as -> <-.
  destruct (Hnames names eq_refl) as [cd [Hcd ->]].
  rewrite length_map in Hn.
  (* the number *)
  set (s1 := set_last_menu_shown s (Some estaciones)).
  assert (Hk1 : has_gemini s1 = true) by exact Hk.
  pose proof (digits_pass_the_rules json_loads s1 pregunta group1 Hnum) as Hres.
  rewrite Hk1, Hint in Hres.
  pose proof (digits_are_not_the_letter_a pregunta group1 Hnum) as Hnota.
  destruct (index_in_range (ChatbotService.stations cd) (numero - 1)) as [est [Hidx Hnth]];
    [lia|].
  exists (ChatbotService.su_station_name est).
  assert (Hc : exists r,
             componer random_choice s1 pregunta (estado_actual_por_numero numero)
             = Done (r, set_last_menu_shown s1 None)
             /\ (r = NoHayDatosRecientes (ChatbotService.su_station_name est)
                 \/ exists latest,
                      r = EstadoActualPorNumero (ChatbotService.su_station_name est) latest
                            (interpretacion latest))).
  { unfold componer. simpl. rewrite Hnota. simpl.
    change (chatbot_service s1) with (chatbot_service s). rewrite Hcd. simpl.
    destruct (numero <? 1) eqn:E1; [apply Z.ltb_lt in E1; lia|].
    destruct (numero >? Z.of_nat (List.length (ChatbotService.stations cd))) eqn:E2;
      [apply Z.gtb_lt in E2; lia|].
    simpl. rewrite Hidx.
    destruct (con_mediciones est) as [latest|]; eexists; (split; [reflexivity|]); eauto. }
  destruct Hc as [r [Hc Hr]].
  exists r. split; [now apply map_nth_error|].
  split; [|exact Hr].
  unfold procesar_pregunta. rewrite Hres. cbn [chat_bind]. exact Hc.
Qed.

Lemma number_picks_the_listed_station_witness :
  exists latest,
    procesar_pregunta no_json 0 (set_last_menu_shown sample_chat_with_key (Some estaciones)) " 2 "
    = Done (EstadoActualPorNumero "Centro" latest (interpretacion latest),
            set_last_menu_shown sample_chat_with_key None).
Proof.
  destruct (number_picks_the_listed_station no_json 0 sample_chat_with_key
              (set_last_menu_shown sample_chat_with_key (Some estaciones))
              ["Halley UIS"; "Centro"] " 2 " "2" 2 eq_refl)
    as [name [r [Hname [Hr Hcase]]]];
    [vm_compute; reflexivity | reflexivity | reflexivity | simpl; lia |].
  vm_compute in Hname. injection Hname as <-.
  destruct Hcase as [-> | [latest ->]].
  - vm_compute in Hr. discriminate.
  - exists latest. exact Hr.
Defined.

(** A number of more than 4300 digits is no choice: with an API key
    [int] raises ValueError, [procesar_pregunta] answers with its error
    text, and the menu stays as it was. *)
Lemma long_number_is_an_error
    (json_loads : string -> option (option Intent)) (random_choice : nat)
    (s : self) (pregunta group1 : string) :
  has_gemini s = true ->
  numero_match (PyStr.strip (PyStr.lower pregunta)) = Some group1 ->
  PyStr.int_max_str_digits < Z.of_nat (String.length group1) ->
  procesar_pregunta json_loads random_choice s pregunta = Done (OcurrioUnErrorProcesando, s).
Proof.
  intros Hk Hnum Hlen.
  unfold procesar_pregunta.
  rewrite (digits_pass_the_rules json_loads s pregunta group1 Hnum), Hk.
  destruct (int_above_the_limit _ Hlen) as [e [-> _]]. reflexivity.
Qed.

Lemma startswith_nonempty (q w : string) :
  PyStr.startswith q w = true -> w <> EmptyString -> q <> EmptyString.
Proof.
  intros H Hw ->. unfold PyStr.startswith in H. destruct w; [congruence | discriminate].
Qed.

(** X23. A question that begins with "qué es" (or "que es") and has no
    greeting inside is answered from the table of the explanations, or
    with the educational menu when nothing follows, without a call to
    the model, with or without an API key and whatever menu was shown
    last; but for the educational menu the state of the chat stays as
    it was. *)
Theorem what_is_needs_no_model
    (json_loads : string -> option (option Intent)) (random_choice : nat)
    (s : self) (pregunta : string) :
  let q := PyStr.strip (PyStr.lower pregunta) in
  PyStr.contains_any saludos q = false ->
  PyStr.startswith q "qué es " = true \/ PyStr.startswith q "que es " = true ->
  let v := PyStr.strip (PyStr.replace (PyStr.replace q "qué es " "") "que es " "") in
  procesar_pregunta json_loads random_choice s pregunta
  = match v with
    | EmptyString => Done (ModoEducativoActivado, set_last_menu_shown s (Some conceptos))
    | _ => Done (Concepto (explicar_concepto (Some v)), s)
    end.
Proof.
  intros q Hg Hq v.
  assert (Hor : (PyStr.startswith q "qué es " || PyStr.startswith q "que es ") = true).
  { destruct Hq as [-> | ->]; [reflexivity | apply orb_true_r]. }
  assert (Hqa : String.eqb q "a" = false).
  { destruct (String.eqb_spec q "a") as [E|]; [|reflexivity].
    rewrite E in Hor. vm_compute in Hor. discriminate. }
  assert (Hqb : String.eqb q "b" = false).
  { destruct (String.eqb_spec q "b") as [E|]; [|reflexivity].
    rewrite E in Hor. vm_compute in Hor. discriminate. }
  assert (Hla : String.eqb (PyStr.lower pregunta) "a" = false).
  { destruct (String.eqb_spec (PyStr.lower pregunta) "a") as [E|]; [|reflexivity].
    unfold q in Hor. rewrite E in Hor. vm_compute in Hor. discriminate. }
  assert (Hne : pregunta <> EmptyString).
  { intros ->. vm_compute in Hor. discriminate. }
  assert (Hint : interpretar_pregunta json_loads s pregunta
                 = Done (Ok (Some (concepto (Some v))))).
  { unfold interpretar_pregunta. destruct pregunta as [|c p]; [contradiction|].
    fold q. cbv zeta. rewrite Hg, Hqa, Hqb, Hor.
    destruct (last_menu_shown s); reflexivity. }
  unfold procesar_pregunta. rewrite Hint. cbn [chat_bind].
  clearbody v. clear Hint.
  unfold componer. simpl. rewrite Hla. simpl.
  destruct v; reflexivity.
Qed.

Lemma what_is_needs_no_model_witness :
  procesar_pregunta no_json 0 sample_chat_with_key "Qué es ICA"
  = Done (Concepto (Explicacion "ica"), sample_chat_with_key).
Proof.
  apply (what_is_needs_no_model no_json 0 sample_chat_with_key "Qué es ICA");
    [reflexivity | left; reflexivity].
Defined.

End Conversation.
